(** * classgen: extraction of enums, record layouts and vtables

    A shallow embedding of [src/classgen/RecordImpl.cpp] and
    [src/classgen/Record.cpp].  The Clang AST the code reads (types,
    declarations, record layouts, vtable layouts) is modelled as plain data
    carrying exactly the attributes that the code queries; the functions of
    the repository are transcribed over that data. *)

From Stdlib Require Import ZArith List String Bool Lia.
From Stdlib Require Import Sorting.Sorted Sorting.Permutation.
From Stdlib Require HexString DecimalString.
From stdpp Require Import gmap strings.

Import ListNotations.
Set Warnings "-register-all".
Local Open Scope string_scope.
Local Open Scope list_scope.
Local Open Scope Z_scope.

(** ** Machine integers

    Clang's [CharUnits] hold an [int64_t]; field offsets in bits are
    [uint64_t]; the output model stores [std::size_t] (64 bits on the hosts
    the tool is built for), [std::uint8_t] and [unsigned int].  Values are
    kept in [Z] and every conversion is written out. *)

Definition to_size_t (z : Z) : Z := z mod 2 ^ 64.
Definition to_uint64 (z : Z) : Z := z mod 2 ^ 64.
Definition to_uint8 (z : Z) : Z := z mod 2 ^ 8.
Definition to_unsigned (z : Z) : Z := z mod 2 ^ 32.

(** [static_cast<int64_t>] of a [uint64_t]. *)
Definition to_int64 (z : Z) : Z :=
  let r := z mod 2 ^ 64 in
  if r <? 2 ^ 63 then r else r - 2 ^ 64.

(** ** Clang types

    [QualType] is a node together with its local fast qualifiers.  The last
    constructor is sugar (a typedef or alias) which [getCanonicalType]
    resolves; [BuiltinOrTagType] stands for every canonical type the code
    does not look into (builtin, record, enum, vector, ...). *)

Inductive QualType : Type :=
| QT (isConstQualified isVolatileQualified : bool) (node : TypeNode)
with TypeNode : Type :=
| BuiltinOrTagType (name : string)
| ConstantArrayType (getElementType : QualType) (getSize : Z)
| MemberPointerType (getClass : TypeNode) (getPointeeType : QualType)
| PointerType (getPointeeType : QualType)
| ReferenceType (getPointeeType : QualType)
| FunctionProtoType (getParamTypes : list QualType) (getReturnType : QualType)
| AtomicType (getValueType : QualType)
| TypedefType (name : string) (desugar : QualType).

Definition getTypePtr (t : QualType) : TypeNode :=
  match t with QT _ _ n => n end.

Definition isConstQualified (t : QualType) : bool :=
  match t with QT c _ _ => c end.

Definition isVolatileQualified (t : QualType) : bool :=
  match t with QT _ v _ => v end.

(** [QualType::withFastQualifiers]: adds qualifiers to those present. *)
Definition withFastQualifiers (c v : bool) (t : QualType) : QualType :=
  match t with QT c' v' n => QT (c || c') (v || v') n end.

Definition removeLocalFastQualifiers (t : QualType) : QualType :=
  match t with QT _ _ n => QT false false n end.

(** [QualType::getCanonicalType]: the canonical type of the node with the
    local qualifiers of the argument added;
    [Type::getCanonicalTypeInternal] is the canonical type of a node. *)
Fixpoint getCanonicalType (t : QualType) : QualType :=
  match t with
  | QT c v n => withFastQualifiers c v (getCanonicalTypeInternal n)
  end
with getCanonicalTypeInternal (n : TypeNode) : QualType :=
  match n with
  | BuiltinOrTagType s => QT false false (BuiltinOrTagType s)
  | ConstantArrayType e k =>
      QT false false (ConstantArrayType (getCanonicalType e) k)
  | MemberPointerType cls p =>
      QT false false
         (MemberPointerType (getTypePtr (getCanonicalTypeInternal cls))
                            (getCanonicalType p))
  | PointerType p => QT false false (PointerType (getCanonicalType p))
  | ReferenceType p => QT false false (ReferenceType (getCanonicalType p))
  | FunctionProtoType ps r =>
      QT false false
         (FunctionProtoType (List.map getCanonicalType ps) (getCanonicalType r))
  | AtomicType a => QT false false (AtomicType (getCanonicalType a))
  | TypedefType _ u => getCanonicalType u
  end.

(** [ASTContext::getAsConstantArrayType] on a canonical type: qualifiers
    sitting on the array are pushed into the element type. *)
Definition getAsConstantArrayType (t : QualType) : option (QualType * Z) :=
  match t with
  | QT c v (ConstantArrayType e k) => Some (withFastQualifiers c v e, k)
  | _ => None
  end.

(** [type->getAs<X>()] on a canonical type: a cast of the node. *)
Definition getAsMemberPointerType (t : QualType) : option (TypeNode * QualType) :=
  match getTypePtr t with MemberPointerType cls p => Some (cls, p) | _ => None end.

Definition getAsPointerType (t : QualType) : option QualType :=
  match getTypePtr t with PointerType p => Some p | _ => None end.

Definition getAsReferenceType (t : QualType) : option QualType :=
  match getTypePtr t with ReferenceType p => Some p | _ => None end.

Definition getAsFunctionProtoType (t : QualType) : option (list QualType * QualType) :=
  match getTypePtr t with FunctionProtoType ps r => Some (ps, r) | _ => None end.

Definition getAsAtomicType (t : QualType) : option QualType :=
  match getTypePtr t with AtomicType a => Some a | _ => None end.

(** Number of nodes of a type: the measure along which
    [TranslateToComplexType] recurses. *)
Fixpoint type_size (t : QualType) : nat :=
  match t with QT _ _ n => S (node_size n) end
with node_size (n : TypeNode) : nat :=
  match n with
  | BuiltinOrTagType _ => 0
  | ConstantArrayType e _ => type_size e
  | MemberPointerType cls p => S (node_size cls) + type_size p
  | PointerType p => type_size p
  | ReferenceType p => type_size p
  | FunctionProtoType ps r => list_sum (List.map type_size ps) + type_size r
  | AtomicType a => type_size a
  | TypedefType _ u => type_size u
  end.

(** Induction over types: the predicate on [QualType] and the predicate on
    [TypeNode] are proved together, parameter lists through [Forall]. *)
Section TypeInduction.
Variable P : QualType -> Prop.
Variable Q : TypeNode -> Prop.
Hypothesis HQT : forall c v n, Q n -> P (QT c v n).
Hypothesis HBuiltin : forall s, Q (BuiltinOrTagType s).
Hypothesis HArray : forall e k, P e -> Q (ConstantArrayType e k).
Hypothesis HMember : forall cls p, Q cls -> P p -> Q (MemberPointerType cls p).
Hypothesis HPointer : forall p, P p -> Q (PointerType p).
Hypothesis HReference : forall p, P p -> Q (ReferenceType p).
Hypothesis HFunction :
  forall ps r, Forall P ps -> P r -> Q (FunctionProtoType ps r).
Hypothesis HAtomic : forall a, P a -> Q (AtomicType a).
Hypothesis HTypedef : forall s u, P u -> Q (TypedefType s u).

Fixpoint QualType_induction (t : QualType) : P t :=
  match t with
  | QT c v n => HQT c v n (TypeNode_induction n)
  end
with TypeNode_induction (n : TypeNode) : Q n :=
  match n with
  | BuiltinOrTagType s => HBuiltin s
  | ConstantArrayType e k => HArray e k (QualType_induction e)
  | MemberPointerType cls p =>
      HMember cls p (TypeNode_induction cls) (QualType_induction p)
  | PointerType p => HPointer p (QualType_induction p)
  | ReferenceType p => HReference p (QualType_induction p)
  | FunctionProtoType ps r =>
      HFunction ps r
        ((fix params (l : list QualType) : Forall P l :=
            match l with
            | [] => @List.Forall_nil _ P
            | x :: l' => @List.Forall_cons _ P x l' (QualType_induction x) (params l')
            end) ps)
        (QualType_induction r)
  | AtomicType a => HAtomic a (QualType_induction a)
  | TypedefType s u => HTypedef s u (QualType_induction u)
  end.
End TypeInduction.

(** ** ComplexType (classgen/ComplexType.h) *)

Inductive ComplexType : Type :=
| ComplexTypeName (name : string) (is_const is_volatile : bool)
| ComplexTypePointer (pointee_type : ComplexType)
| ComplexTypeArray (element_type : ComplexType) (size : Z)
| ComplexTypeFunction (param_types : list ComplexType) (return_type : ComplexType)
| ComplexTypeMemberPointer (class_type pointee_type : ComplexType) (repr : string)
| ComplexTypeAtomic (value_type : ComplexType).


(** ** The Clang declarations read by the code

    Each record lists the queries the code makes on the Clang class of the
    same name; a pointer to a declaration is compared through [decl_id]. *)

Module clang.

Module ASTContext.
Record t := {
  (** [getTargetInfo().getCXXABI().isItaniumFamily()] *)
  isItaniumFamily : bool;
  (** [dyn_cast<ItaniumVTableContext>(getVTableContext())] succeeds *)
  hasItaniumVTableContext : bool;
  (** [getCharWidth()], in bits *)
  getCharWidth : Z
}.

(** [toCharUnitsFromBits(int64_t BitSize)]: [BitSize / getCharWidth()],
    computed in [uint64_t] and stored in the [int64_t] of a [CharUnits]. *)
Definition toCharUnitsFromBits (ctx : t) (BitSize : Z) : Z :=
  to_int64 (to_uint64 BitSize / getCharWidth ctx).
End ASTContext.

Module TagDecl.
Record t := {
  getASTContext : ASTContext.t;
  isInvalidDecl : bool;
  isCompleteDefinition : bool;
  isTemplated : bool;
  (** [ctx.getTypeDeclType(D)] *)
  getTypeDeclType : QualType
}.
End TagDecl.

Inductive TagTypeKind : Type :=
| TTK_Struct | TTK_Interface | TTK_Union | TTK_Class | TTK_Enum.

Module FieldDecl.
Record t (R : Type) := {
  isUnnamedBitfield : bool;
  isBitField : bool;
  getBitWidthValue : Z;
  getType : QualType;
  (** [getType()->getAsRecordDecl()] *)
  getAsRecordDecl : option R;
  getNameAsString : string
}.
Arguments isUnnamedBitfield {R} _.
Arguments isBitField {R} _.
Arguments getBitWidthValue {R} _.
Arguments getType {R} _.
Arguments getAsRecordDecl {R} _.
Arguments getNameAsString {R} _.
End FieldDecl.

Module ASTRecordLayout.
Record t := {
  getSize : Z;
  getDataSize : Z;
  getAlignment : Z;
  (** the primary base, as the identity of its declaration *)
  getPrimaryBase : option nat;
  (** keyed by the identity of the base's declaration *)
  getBaseClassOffset : nat -> Z;
  getVBaseClassOffset : nat -> Z;
  (** offsets in bits ([uint64_t]), one per field of [fields()], unnamed
      bitfields included, in declaration order *)
  FieldOffsets : list Z
}.

Definition getFieldOffset (layout : t) (FieldNo : nat) : Z :=
  nth FieldNo (FieldOffsets layout) 0.
End ASTRecordLayout.

Inductive OverloadedOperatorKind : Type :=
| OO_None | OO_New | OO_Delete | OO_Array_New | OO_Array_Delete
| OO_Plus | OO_Minus | OO_Star | OO_Slash | OO_Percent | OO_Caret | OO_Amp
| OO_Pipe | OO_Tilde | OO_Exclaim | OO_Equal | OO_Less | OO_Greater
| OO_PlusEqual | OO_MinusEqual | OO_StarEqual | OO_SlashEqual
| OO_PercentEqual | OO_CaretEqual | OO_AmpEqual | OO_PipeEqual
| OO_LessLess | OO_GreaterGreater | OO_LessLessEqual | OO_GreaterGreaterEqual
| OO_EqualEqual | OO_ExclaimEqual | OO_LessEqual | OO_GreaterEqual
| OO_Spaceship | OO_AmpAmp | OO_PipePipe | OO_PlusPlus | OO_MinusMinus
| OO_Comma | OO_ArrowStar | OO_Arrow | OO_Call | OO_Subscript
| OO_Conditional | OO_Coawait | NUM_OVERLOADED_OPERATORS.

Module CXXMethodDecl.
Record t := {
  getName : string;
  isOverloadedOperator : bool;
  getOverloadedOperator : OverloadedOperatorKind;
  (** [PredefinedExpr::ComputeName(PrettyFunctionNoVirtual, func)] *)
  ComputeName : string;
  isPure : bool;
  isConst : bool;
  getType : QualType
}.
End CXXMethodDecl.

(** Thunk adjustments; the virtual part of an adjustment is the single
    offset that it is under the Itanium ABI. *)
Module ReturnAdjustment.
Record t := { NonVirtual : Z; VBaseOffsetOffset : Z }.
Definition isEmpty (a : t) : bool :=
  (NonVirtual a =? 0) && (VBaseOffsetOffset a =? 0).
End ReturnAdjustment.

Module ThisAdjustment.
Record t := { NonVirtual : Z; VCallOffsetOffset : Z }.
Definition isEmpty (a : t) : bool :=
  (NonVirtual a =? 0) && (VCallOffsetOffset a =? 0).
End ThisAdjustment.

Module ThunkInfo.
Record t := {
  This : ThisAdjustment.t;
  Return : ReturnAdjustment.t;
  (** the overridden method, where the ABI needs it to tell thunks apart,
      as the identity of its declaration; otherwise null *)
  Method : option nat
}.
Definition isEmpty (i : t) : bool :=
  ThisAdjustment.isEmpty (This i) && ReturnAdjustment.isEmpty (Return i)
  && match Method i with None => true | Some _ => false end.
End ThunkInfo.

Module VTableComponent.
Inductive Kind : Type :=
| CK_VCallOffset | CK_VBaseOffset | CK_OffsetToTop | CK_RTTI
| CK_FunctionPointer | CK_CompleteDtorPointer | CK_DeletingDtorPointer
| CK_UnusedFunctionPointer.

(** A component is its kind with the payload of that kind: an offset in
    bytes, the type of the RTTI declaration, or the function. *)
Inductive t : Type :=
| VCallOffset (getVCallOffset : Z)
| VBaseOffset (getVBaseOffset : Z)
| OffsetToTop (getOffsetToTop : Z)
| RTTI (getRTTIDeclType : QualType)
| FunctionPointer (getFunctionDecl : CXXMethodDecl.t)
| CompleteDtorPointer (getFunctionDecl : CXXMethodDecl.t)
| DeletingDtorPointer (getFunctionDecl : CXXMethodDecl.t)
| UnusedFunctionPointer (getFunctionDecl : CXXMethodDecl.t).

Definition getKind (c : t) : Kind :=
  match c with
  | VCallOffset _ => CK_VCallOffset
  | VBaseOffset _ => CK_VBaseOffset
  | OffsetToTop _ => CK_OffsetToTop
  | RTTI _ => CK_RTTI
  | FunctionPointer _ => CK_FunctionPointer
  | CompleteDtorPointer _ => CK_CompleteDtorPointer
  | DeletingDtorPointer _ => CK_DeletingDtorPointer
  | UnusedFunctionPointer _ => CK_UnusedFunctionPointer
  end.
End VTableComponent.

Module VTableLayout.
Record t := {
  vtable_components : list VTableComponent.t;
  (** pairs (component index, thunk), sorted by index *)
  vtable_thunks : list (nat * ThunkInfo.t)
}.
End VTableLayout.

Module CXXBaseSpecifier.
Record t (R : Type) := {
  isVirtual : bool;
  (** [getType()->getAsCXXRecordDecl()] *)
  getAsCXXRecordDecl : R
}.
Arguments isVirtual {R} _.
Arguments getAsCXXRecordDecl {R} _.
End CXXBaseSpecifier.

(** What a [CXXRecordDecl] adds to a [RecordDecl]. *)
Module CXXRecordDecl.
Record t (R : Type) := {
  isDynamicClass : bool;
  bases : list (CXXBaseSpecifier.t R);
  vbases : list (CXXBaseSpecifier.t R);
  hasDirectFields : bool;
  (** [ItaniumVTableContext::getVTableLayout(D)], the ABI-layout oracle *)
  getVTableLayout : VTableLayout.t
}.
Arguments isDynamicClass {R} _.
Arguments bases {R} _.
Arguments vbases {R} _.
Arguments hasDirectFields {R} _.
Arguments getVTableLayout {R} _.
End CXXRecordDecl.

Module RecordDecl.
Inductive t : Type := Build {
  decl_id : nat;
  asTagDecl : TagDecl.t;
  isAnonymousStructOrUnion : bool;
  getTagKind : TagTypeKind;
  fields : list (FieldDecl.t t);
  (** [ctx.getASTRecordLayout(D)] *)
  getASTRecordLayout : ASTRecordLayout.t;
  (** [dyn_cast<CXXRecordDecl>(D)] *)
  dyn_cast_CXXRecordDecl : option (CXXRecordDecl.t t)
}.

Definition isUnion (D : t) : bool :=
  match getTagKind D with TTK_Union => true | _ => false end.
End RecordDecl.

Module EnumConstantDecl.
Record t := { getNameAsString : string; getInitVal : Z }.
End EnumConstantDecl.

Module EnumDecl.
Record t := {
  asTagDecl : TagDecl.t;
  isScoped : bool;
  getName : string;
  getIntegerType : QualType;
  (** [ctx.getTypeSizeInChars(getIntegerType().getCanonicalType())] *)
  getIntegerTypeSizeInChars : Z;
  enumerators : list EnumConstantDecl.t
}.
End EnumDecl.

(** The declarations a traversal of the AST hands to the visitor; a tag
    declaration is given by what [getDefinition()] returns for it. *)
Inductive Decl : Type :=
| VisitedEnumDecl (getDefinition : option EnumDecl.t)
| VisitedRecordDecl (getDefinition : option RecordDecl.t)
| OtherDecl.

Module TranslationUnit.
Record t := { Ctx : ASTContext.t; decls : list Decl }.
End TranslationUnit.

(** A [ClangTool] run: the translation units it parses and the value that
    [run] returns. *)
Module ClangTool.
Record t := { units : list TranslationUnit.t; run : Z }.
End ClangTool.

End clang.

(** ** The output model (classgen/Record.h) *)

Module Enum.
Record Enumerator := { identifier : string; value : string }.
Record t := {
  is_scoped : bool;
  is_anonymous : bool;
  underlying_type_size : Z;
  name : string;
  underlying_type_name : string;
  enumerators : list Enumerator
}.
End Enum.

Module VTableComponent.
Record FunctionPointer := {
  is_thunk : bool;
  is_const : bool;
  return_adjustment : Z;
  return_adjustment_vbase_offset_offset : Z;
  this_adjustment : Z;
  this_adjustment_vcall_offset_offset : Z;
  repr : string;
  function_name : string;
  type : ComplexType
}.

Inductive t : Type :=
| VCallOffset (offset : Z)
| VBaseOffset (offset : Z)
| OffsetToTop (offset : Z)
| RTTI (class_name : string)
| FunctionPointerData (entry : FunctionPointer)
| CompleteDtorPointer (entry : FunctionPointer)
| DeletingDtorPointer (entry : FunctionPointer).
End VTableComponent.

Module VTable.
Record t := { components : list VTableComponent.t }.
End VTable.

Module Field.
Inductive Data : Type :=
| monostate
| MemberVariable (bitfield_width : Z) (type : ComplexType)
                 (type_name : string) (name : string)
| Base (is_primary is_virtual : bool) (type_name : string)
| VTablePointer.

Record t := { offset : Z; data : Data }.
End Field.

Module Record_.
Inductive Kind : Type := Class | Struct | Union.

Record t := {
  is_anonymous : bool;
  kind : Kind;
  name : string;
  size : Z;
  data_size : Z;
  alignment : Z;
  fields : list Field.t;
  vtable : option VTable.t
}.
End Record_.

Module ParseResult.
Record t := {
  error : string;
  enums : list Enum.t;
  records : list Record_.t
}.

Definition Fail (error_ : string) : t :=
  {| error := error_; enums := []; records := [] |}.

Definition AddErrorContext (r : t) (error_ : string) : t :=
  {| error := error_ ++ (if String.eqb (error r) "" then "" else ": ") ++ error r;
     enums := enums r;
     records := records r |}.

Definition ok (r : t) : bool := String.eqb (error r) "".
End ParseResult.

Module ParseConfig.
Record t := { inline_empty_structs : bool }.
End ParseConfig.

(** ** Library routines used by the code *)

(** [llvm::stable_sort(v, less)]: the sorted arrangement in which elements
    that [less] does not order keep their relative position.  That
    arrangement is unique; it is computed here by insertion. *)
Fixpoint stable_insert {A : Type} (less : A -> A -> bool) (x : A) (l : list A)
  : list A :=
  match l with
  | [] => [x]
  | y :: l' => if less y x then y :: stable_insert less x l' else x :: y :: l'
  end.

Fixpoint stable_sort {A : Type} (less : A -> A -> bool) (l : list A) : list A :=
  match l with
  | [] => []
  | x :: l' => stable_insert less x (stable_sort less l')
  end.

(** [llvm::lower_bound(range, key, less)] on a range partitioned by
    [less _ key]: the suffix starting at the first entry that is not less
    than the key. *)
Fixpoint lower_bound {A K : Type} (less : A -> K -> bool) (range : list A) (key : K)
  : list A :=
  match range with
  | [] => []
  | entry :: rest => if less entry key then lower_bound less rest key else range
  end.

(** [llvm::enumerate(range)]: each element with its index. *)
Definition enumerate {A : Type} (range : list A) : list (nat * A) :=
  combine (seq 0 (length range)) range.

(** [std::string] concatenation. *)
Local Infix "+++" := String.append (at level 60, right associativity).

(** [fmt::format("{:#x}", v)] for a signed 64-bit [v]. *)
Definition format_hex (v : Z) : string := HexString.of_Z v.

(** [llvm::APSInt::toString], radix 10. *)
Definition APSInt_toString (v : Z) : string :=
  DecimalString.NilZero.string_of_int (Z.to_int v).

Section Classgen.

(** [QualType::getAsString(policy)]: Clang's type printer under the
    printing policy of the translation unit. *)
Variable getAsString : QualType -> string.

(** [TranslateToComplexType].  The recursion follows the canonical type,
    whose components are never larger than the type itself; [fuel] bounds
    the depth and [TranslateToComplexType] supplies enough of it. *)
Fixpoint TranslateToComplexType_fuel (fuel : nat) (type : QualType) : ComplexType :=
  match fuel with
  | O => ComplexTypeName "" false false
  | S fuel =>
    let type := getCanonicalType type in
    match getAsConstantArrayType type with
    | Some (element, size) =>
        ComplexTypeArray (TranslateToComplexType_fuel fuel element) size
    | None =>
    match getAsMemberPointerType type with
    | Some (cls, pointee) =>
        ComplexTypeMemberPointer
          (TranslateToComplexType_fuel fuel (getCanonicalTypeInternal cls))
          (TranslateToComplexType_fuel fuel pointee)
          (getAsString type)
    | None =>
    match getAsPointerType type with
    | Some pointee => ComplexTypePointer (TranslateToComplexType_fuel fuel pointee)
    | None =>
    match getAsReferenceType type with
    | Some pointee => ComplexTypePointer (TranslateToComplexType_fuel fuel pointee)
    | None =>
    match getAsFunctionProtoType type with
    | Some (param_types, return_type) =>
        let params := List.map (TranslateToComplexType_fuel fuel) param_types in
        let return_type := TranslateToComplexType_fuel fuel return_type in
        ComplexTypeFunction params return_type
    | None =>
    match getAsAtomicType type with
    | Some value => ComplexTypeAtomic (TranslateToComplexType_fuel fuel value)
    | None =>
        let is_const := isConstQualified type in
        let is_volatile := isVolatileQualified type in
        let type := removeLocalFastQualifiers type in
        ComplexTypeName (getAsString type) is_const is_volatile
    end end end end end end
  end.

Definition TranslateToComplexType (type : QualType) : ComplexType :=
  TranslateToComplexType_fuel (type_size type) type.

(** ** RecordImpl.cpp: vtables *)

Definition GetCStyleOperatorName (func : clang.CXXMethodDecl.t) : string :=
  if negb (clang.CXXMethodDecl.isOverloadedOperator func) then ""
  else
    match clang.CXXMethodDecl.getOverloadedOperator func with
    | clang.OO_None => ""
    | clang.OO_New => "__op_new"
    | clang.OO_Delete => "__op_delete"
    | clang.OO_Array_New => "__op_array_new"
    | clang.OO_Array_Delete => "__op_array_delete"
    | clang.OO_Plus => "__op_plus"
    | clang.OO_Minus => "__op_minus"
    | clang.OO_Star => "__op_star"
    | clang.OO_Slash => "__op_slash"
    | clang.OO_Percent => "__op_percent"
    | clang.OO_Caret => "__op_caret"
    | clang.OO_Amp => "__op_amp"
    | clang.OO_Pipe => "__op_pipe"
    | clang.OO_Tilde => "__op_tilde"
    | clang.OO_Exclaim => "__op_exclaim"
    | clang.OO_Equal => "__op_eq"
    | clang.OO_Less => "__op_lt"
    | clang.OO_Greater => "__op_gt;"
    | clang.OO_PlusEqual => "__op_plus_equal"
    | clang.OO_MinusEqual => "__op_minus_equal"
    | clang.OO_StarEqual => "__op_star_equal"
    | clang.OO_SlashEqual => "__op_slash_equal"
    | clang.OO_PercentEqual => "__op_percent_equal"
    | clang.OO_CaretEqual => "__op_caret_equal"
    | clang.OO_AmpEqual => "__op_amp_equal"
    | clang.OO_PipeEqual => "__op_pipe_equal"
    | clang.OO_LessLess => "__op_lt_lt"
    | clang.OO_GreaterGreater => "__op_gt_gt"
    | clang.OO_LessLessEqual => "__op_lt_lt_eq"
    | clang.OO_GreaterGreaterEqual => "__op_gt_gt_eq"
    | clang.OO_EqualEqual => "__op_eq_eq"
    | clang.OO_ExclaimEqual => "__op_exclaim_eq"
    | clang.OO_LessEqual => "__op_leq"
    | clang.OO_GreaterEqual => "__op_geq"
    | clang.OO_Spaceship => "__op_spaceship"
    | clang.OO_AmpAmp => "__op_amp_amp"
    | clang.OO_PipePipe => "__op_pipe_pipe"
    | clang.OO_PlusPlus => "__op_plus_plus"
    | clang.OO_MinusMinus => "__op_minus_minus"
    | clang.OO_Comma => "__op_comma"
    | clang.OO_ArrowStar => "__op_arrow_star"
    | clang.OO_Arrow => "__op_arrow"
    | clang.OO_Call => "__op_call"
    | clang.OO_Subscript => "__op_subscript"
    | clang.OO_Conditional => "__op_conditional"
    | clang.OO_Coawait => "__op_coawait"
    | clang.NUM_OVERLOADED_OPERATORS => ""
    end.

Definition GetThunkInfo (layout : clang.VTableLayout.t) (idx : nat)
  : option clang.ThunkInfo.t :=
  let thunks := clang.VTableLayout.vtable_thunks layout in
  let it := lower_bound (fun entry key => Nat.ltb (fst entry) key) thunks idx in
  match it with
  | [] => None
  | entry :: _ =>
      if negb (Nat.eqb (fst entry) idx) then None else Some (snd entry)
  end.

(** A thunk that [ParseVTable] acts on: found and not empty. *)
Definition thunk_applies (thunk : option clang.ThunkInfo.t) : option clang.ThunkInfo.t :=
  match thunk with
  | Some t => if negb (clang.ThunkInfo.isEmpty t) then Some t else None
  | None => None
  end.

(** The part of [ParseVTable] shared by the four function-pointer kinds:
    builds the [FunctionPointer] entry of component [idx]. *)
Definition ParseVTable_entry (layout : clang.VTableLayout.t) (idx : nat)
    (kind : clang.VTableComponent.Kind) (func : clang.CXXMethodDecl.t)
  : VTableComponent.FunctionPointer :=
  let name := clang.CXXMethodDecl.getName func in
  let name :=
    if String.eqb name "" && clang.CXXMethodDecl.isOverloadedOperator func
    then GetCStyleOperatorName func else name in
  let repr := clang.CXXMethodDecl.ComputeName func in
  let repr :=
    match kind with
    | clang.VTableComponent.CK_CompleteDtorPointer => repr +++ " [complete]"
    | _ => repr
    end in
  let repr :=
    match kind with
    | clang.VTableComponent.CK_DeletingDtorPointer => repr +++ " [deleting]"
    | _ => repr
    end in
  let repr := if clang.CXXMethodDecl.isPure func then repr +++ " [pure]" else repr in
  let thunk := GetThunkInfo layout idx in
  let repr :=
    match thunk_applies thunk with
    | Some thunk =>
        let Return := clang.ThunkInfo.Return thunk in
        let This := clang.ThunkInfo.This thunk in
        let repr :=
          if negb (clang.ReturnAdjustment.isEmpty Return) then
            let repr := repr +++ " [return adjustment: "
                             +++ format_hex (clang.ReturnAdjustment.NonVirtual Return) in
            let repr :=
              if negb (clang.ReturnAdjustment.VBaseOffsetOffset Return =? 0) then
                repr +++ ", vbase offset offset: "
                     +++ format_hex (clang.ReturnAdjustment.VBaseOffsetOffset Return)
              else repr in
            repr +++ "]"
          else repr in
        if negb (clang.ThisAdjustment.isEmpty This) then
          let repr := repr +++ " [this adjustment: "
                           +++ format_hex (clang.ThisAdjustment.NonVirtual This) in
          let repr :=
            if negb (clang.ThisAdjustment.VCallOffsetOffset This =? 0) then
              repr +++ ", vcall offset offset: "
                   +++ format_hex (clang.ThisAdjustment.VCallOffsetOffset This)
            else repr in
          repr +++ "]"
        else repr
    | None => repr
    end in
  let entry :=
    {| VTableComponent.is_thunk := false;
       VTableComponent.is_const := clang.CXXMethodDecl.isConst func;
       VTableComponent.return_adjustment := 0;
       VTableComponent.return_adjustment_vbase_offset_offset := 0;
       VTableComponent.this_adjustment := 0;
       VTableComponent.this_adjustment_vcall_offset_offset := 0;
       VTableComponent.repr := repr;
       VTableComponent.function_name := name;
       VTableComponent.type :=
         TranslateToComplexType (clang.CXXMethodDecl.getType func) |} in
  match thunk_applies thunk with
  | Some thunk =>
      let Return := clang.ThunkInfo.Return thunk in
      let This := clang.ThunkInfo.This thunk in
      let fill_return := negb (clang.ReturnAdjustment.isEmpty Return) in
      let fill_this := negb (clang.ThisAdjustment.isEmpty This) in
      {| VTableComponent.is_thunk := true;
         VTableComponent.is_const := VTableComponent.is_const entry;
         VTableComponent.return_adjustment :=
           if fill_return then clang.ReturnAdjustment.NonVirtual Return
           else VTableComponent.return_adjustment entry;
         VTableComponent.return_adjustment_vbase_offset_offset :=
           if fill_return then clang.ReturnAdjustment.VBaseOffsetOffset Return
           else VTableComponent.return_adjustment_vbase_offset_offset entry;
         VTableComponent.this_adjustment :=
           if fill_this then clang.ThisAdjustment.NonVirtual This
           else VTableComponent.this_adjustment entry;
         VTableComponent.this_adjustment_vcall_offset_offset :=
           if fill_this then clang.ThisAdjustment.VCallOffsetOffset This
           else VTableComponent.this_adjustment_vcall_offset_offset entry;
         VTableComponent.repr := VTableComponent.repr entry;
         VTableComponent.function_name := VTableComponent.function_name entry;
         VTableComponent.type := VTableComponent.type entry |}
  | None => entry
  end.

(** [vtable->components.emplace_back(c)] *)
Definition emplace_back_component (vtable : VTable.t) (c : VTableComponent.t) : VTable.t :=
  {| VTable.components := VTable.components vtable ++ [c] |}.

(** The body of the loop of [ParseVTable] for the component at [idx]. *)
Definition ParseVTable_step (layout : clang.VTableLayout.t) (vtable : VTable.t)
    (pair : nat * clang.VTableComponent.t) : VTable.t :=
  let idx := fst pair in
  let component := snd pair in
  match component with
  | clang.VTableComponent.VCallOffset o =>
      emplace_back_component vtable (VTableComponent.VCallOffset o)
  | clang.VTableComponent.VBaseOffset o =>
      emplace_back_component vtable (VTableComponent.VBaseOffset o)
  | clang.VTableComponent.OffsetToTop o =>
      emplace_back_component vtable (VTableComponent.OffsetToTop o)
  | clang.VTableComponent.RTTI type =>
      emplace_back_component vtable (VTableComponent.RTTI (getAsString type))
  | clang.VTableComponent.FunctionPointer func
  | clang.VTableComponent.CompleteDtorPointer func
  | clang.VTableComponent.DeletingDtorPointer func
  | clang.VTableComponent.UnusedFunctionPointer func =>
      let kind := clang.VTableComponent.getKind component in
      let entry := ParseVTable_entry layout idx kind func in
      match kind with
      | clang.VTableComponent.CK_FunctionPointer
      | clang.VTableComponent.CK_UnusedFunctionPointer =>
          emplace_back_component vtable (VTableComponent.FunctionPointerData entry)
      | clang.VTableComponent.CK_CompleteDtorPointer =>
          emplace_back_component vtable (VTableComponent.CompleteDtorPointer entry)
      | clang.VTableComponent.CK_DeletingDtorPointer =>
          emplace_back_component vtable (VTableComponent.DeletingDtorPointer entry)
      | _ => vtable
      end
  end.

(** [ParseVTable(D)], where [CXXRD] is [D] seen as a [CXXRecordDecl];
    [None] is the null pointer. *)
Definition ParseVTable (D : clang.RecordDecl.t)
    (CXXRD : clang.CXXRecordDecl.t clang.RecordDecl.t) : option VTable.t :=
  let ctx := clang.TagDecl.getASTContext (clang.RecordDecl.asTagDecl D) in
  if negb (clang.ASTContext.hasItaniumVTableContext ctx) then None
  else if negb (clang.CXXRecordDecl.isDynamicClass CXXRD) then None
  else
    let layout := clang.CXXRecordDecl.getVTableLayout CXXRD in
    let vtable := {| VTable.components := [] |} in
    Some (fold_left (ParseVTable_step layout)
                    (enumerate (clang.VTableLayout.vtable_components layout))
                    vtable).


(** ** RecordImpl.cpp: ParseContextImpl *)

Record ParseContextImpl : Type := {
  m_result : ParseResult.t;
  m_config : ParseConfig.t;
  m_processed : gset string
}.

(** [ParseContext::Make(result, config)] *)
Definition Make (result : ParseResult.t) (config : ParseConfig.t) : ParseContextImpl :=
  {| m_result := result; m_config := config; m_processed := ∅ |}.

Definition set_result (self : ParseContextImpl) (r : ParseResult.t) : ParseContextImpl :=
  {| m_result := r; m_config := m_config self; m_processed := m_processed self |}.

(** The printed name of a tag declaration:
    [ctx.getTypeDeclType(D).getAsString(policy)]. *)
Definition printed_name (D : clang.TagDecl.t) : string :=
  getAsString (clang.TagDecl.getTypeDeclType D).

(** [CanProcess(D)]: the answer and the context afterwards. *)
Definition CanProcess (self : ParseContextImpl) (D : option clang.TagDecl.t)
  : bool * ParseContextImpl :=
  match D with
  | None => (false, self)
  | Some D =>
      if clang.TagDecl.isInvalidDecl D then (false, self)
      else if negb (clang.TagDecl.isCompleteDefinition D) then (false, self)
      else if clang.TagDecl.isTemplated D then (false, self)
      else
        let name := printed_name D in
        if bool_decide (name ∈ m_processed self) then (false, self)
        else
          (true,
           {| m_result := m_result self;
              m_config := m_config self;
              m_processed := {[ name ]} ∪ m_processed self |})
  end.

Definition HandleEnumDecl (self : ParseContextImpl) (D : option clang.EnumDecl.t)
  : ParseContextImpl :=
  let (ok, self) := CanProcess self (option_map clang.EnumDecl.asTagDecl D) in
  if negb ok then self
  else
    match D with
    | None => self
    | Some D =>
        let underlying_type := getCanonicalType (clang.EnumDecl.getIntegerType D) in
        let enum_def :=
          {| Enum.is_scoped := clang.EnumDecl.isScoped D;
             Enum.is_anonymous := String.eqb (clang.EnumDecl.getName D) "";
             Enum.underlying_type_size :=
               to_uint8 (clang.EnumDecl.getIntegerTypeSizeInChars D);
             Enum.name := printed_name (clang.EnumDecl.asTagDecl D);
             Enum.underlying_type_name := getAsString underlying_type;
             Enum.enumerators :=
               fold_left
                 (fun enumerators decl =>
                    enumerators ++
                    [ {| Enum.identifier := clang.EnumConstantDecl.getNameAsString decl;
                         Enum.value :=
                           APSInt_toString (clang.EnumConstantDecl.getInitVal decl) |} ])
                 (clang.EnumDecl.enumerators D) [] |} in
        let result := m_result self in
        set_result self
          {| ParseResult.error := ParseResult.error result;
             ParseResult.enums := ParseResult.enums result ++ [enum_def];
             ParseResult.records := ParseResult.records result |}
    end.

(** Returns whether D is an empty record that should be inlined. *)
Definition ShouldInlineEmptyRecord (self : ParseContextImpl) (D : clang.RecordDecl.t)
  : bool :=
  if negb (ParseConfig.inline_empty_structs (m_config self)) then false
  else
    let layout := clang.RecordDecl.getASTRecordLayout D in
    if clang.ASTRecordLayout.getDataSize layout =? 0 then true
    else
      match clang.RecordDecl.dyn_cast_CXXRecordDecl D with
      | None => true
      | Some CXXRD =>
          negb (clang.CXXRecordDecl.isDynamicClass CXXRD)
          && (match clang.CXXRecordDecl.bases CXXRD with [] => true | _ => false end)
          && (match clang.CXXRecordDecl.vbases CXXRD with [] => true | _ => false end)
          && negb (clang.CXXRecordDecl.hasDirectFields CXXRD)
      end.

(** [record.fields.emplace_back()] followed by the assignments to the new
    field. *)
Definition emplace_back_field (record : Record_.t) (field : Field.t) : Record_.t :=
  {| Record_.is_anonymous := Record_.is_anonymous record;
     Record_.kind := Record_.kind record;
     Record_.name := Record_.name record;
     Record_.size := Record_.size record;
     Record_.data_size := Record_.data_size record;
     Record_.alignment := Record_.alignment record;
     Record_.fields := Record_.fields record ++ [field];
     Record_.vtable := Record_.vtable record |}.

Definition set_vtable (record : Record_.t) (vtable : option VTable.t) : Record_.t :=
  {| Record_.is_anonymous := Record_.is_anonymous record;
     Record_.kind := Record_.kind record;
     Record_.name := Record_.name record;
     Record_.size := Record_.size record;
     Record_.data_size := Record_.data_size record;
     Record_.alignment := Record_.alignment record;
     Record_.fields := Record_.fields record;
     Record_.vtable := vtable |}.

(** [base == primary_base], a comparison of declaration pointers. *)
Definition is_primary_base (base : clang.RecordDecl.t) (primary_base : option nat) : bool :=
  match primary_base with
  | Some p => Nat.eqb (clang.RecordDecl.decl_id base) p
  | None => false
  end.

(** [v.push_back(x)] on a [SmallVector]. *)
Definition push_back {A : Type} (v : list A) (x : A) : list A := v ++ [x].

(** The loop shared in shape by [AddBases] and [AddVirtualBases]: one
    [Base] field per base that is not inlined. *)
Definition add_base_fields (self : ParseContextImpl) (record : Record_.t)
    (base_offset : Z) (offset_of : nat -> Z) (primary_base : option nat)
    (is_virtual : bool) (bases : list clang.RecordDecl.t) : Record_.t :=
  fold_left
    (fun record base =>
       let offset := base_offset + offset_of (clang.RecordDecl.decl_id base) in
       if ShouldInlineEmptyRecord self base then record
       else
         emplace_back_field record
           {| Field.offset := to_size_t offset;
              Field.data :=
                Field.Base (is_primary_base base primary_base) is_virtual
                           (printed_name (clang.RecordDecl.asTagDecl base)) |})
    bases record.

Definition AddBases (self : ParseContextImpl) (record : Record_.t) (base_offset : Z)
    (CXXRD : option (clang.CXXRecordDecl.t clang.RecordDecl.t))
    (layout : clang.ASTRecordLayout.t) : Record_.t :=
  match CXXRD with
  | None => record
  | Some CXXRD =>
      let primary_base := clang.ASTRecordLayout.getPrimaryBase layout in
      let record :=
        if clang.CXXRecordDecl.isDynamicClass CXXRD
           && (match primary_base with None => true | Some _ => false end)
        then emplace_back_field record
               {| Field.offset := to_size_t base_offset;
                  Field.data := Field.VTablePointer |}
        else record in
      let bases :=
        fold_left
          (fun bases base =>
             if negb (clang.CXXBaseSpecifier.isVirtual base)
             then push_back bases (clang.CXXBaseSpecifier.getAsCXXRecordDecl base)
             else bases)
          (clang.CXXRecordDecl.bases CXXRD) [] in
      let offset_of := clang.ASTRecordLayout.getBaseClassOffset layout in
      let bases :=
        stable_sort
          (fun L R => offset_of (clang.RecordDecl.decl_id L)
                      <? offset_of (clang.RecordDecl.decl_id R))
          bases in
      add_base_fields self record base_offset offset_of primary_base false bases
  end.

Definition AddVirtualBases (self : ParseContextImpl) (record : Record_.t)
    (base_offset : Z) (CXXRD : option (clang.CXXRecordDecl.t clang.RecordDecl.t))
    (layout : clang.ASTRecordLayout.t) : Record_.t :=
  match CXXRD with
  | None => record
  | Some CXXRD =>
      let primary_base := clang.ASTRecordLayout.getPrimaryBase layout in
      let vbases :=
        fold_left
          (fun vbases specifier =>
             let base := clang.CXXBaseSpecifier.getAsCXXRecordDecl specifier in
             push_back vbases base)
          (clang.CXXRecordDecl.vbases CXXRD) [] in
      let offset_of := clang.ASTRecordLayout.getVBaseClassOffset layout in
      let vbases :=
        stable_sort
          (fun L R => offset_of (clang.RecordDecl.decl_id L)
                      <? offset_of (clang.RecordDecl.decl_id R))
          vbases in
      add_base_fields self record base_offset offset_of primary_base true vbases
  end.

(** [ctx.getTypeDeclType(field_record)] *)
Definition getTypeDeclType (D : clang.RecordDecl.t) : QualType :=
  clang.TagDecl.getTypeDeclType (clang.RecordDecl.asTagDecl D).

(** The body of the loop of [AddDataMembers]; the state is the record
    and the running [field_idx]. *)
Definition AddDataMembers_step (self : ParseContextImpl) (base_offset : Z)
    (D : clang.RecordDecl.t) (layout : clang.ASTRecordLayout.t)
    (st : Record_.t * nat) (field_decl : clang.FieldDecl.t clang.RecordDecl.t)
  : Record_.t * nat :=
  let (record, field_idx) := st in
  let ctx := clang.TagDecl.getASTContext (clang.RecordDecl.asTagDecl D) in
  if clang.FieldDecl.isUnnamedBitfield field_decl then (record, field_idx)
  else
    let rel_offset_in_bits := clang.ASTRecordLayout.getFieldOffset layout field_idx in
    let field_idx := S field_idx in
    let offset :=
      base_offset + clang.ASTContext.toCharUnitsFromBits ctx (to_int64 rel_offset_in_bits) in
    match clang.FieldDecl.getAsRecordDecl field_decl with
    | Some field_record =>
        if clang.RecordDecl.isUnion D || negb (ShouldInlineEmptyRecord self field_record)
        then
          (emplace_back_field record
             {| Field.offset := to_size_t offset;
                Field.data :=
                  Field.MemberVariable 0
                    (TranslateToComplexType (getTypeDeclType field_record))
                    (getAsString (getTypeDeclType field_record))
                    (clang.FieldDecl.getNameAsString field_decl) |},
           field_idx)
        else (record, field_idx)
    | None =>
        (emplace_back_field record
           {| Field.offset := to_size_t offset;
              Field.data :=
                Field.MemberVariable
                  (if clang.FieldDecl.isBitField field_decl
                   then to_unsigned (clang.FieldDecl.getBitWidthValue field_decl)
                   else 0)
                  (TranslateToComplexType (clang.FieldDecl.getType field_decl))
                  (getAsString (getCanonicalType (clang.FieldDecl.getType field_decl)))
                  (clang.FieldDecl.getNameAsString field_decl) |},
         field_idx)
    end.

Definition AddDataMembers (self : ParseContextImpl) (record : Record_.t)
    (base_offset : Z) (D : clang.RecordDecl.t) (layout : clang.ASTRecordLayout.t)
  : Record_.t :=
  fst (fold_left (AddDataMembers_step self base_offset D layout)
                 (clang.RecordDecl.fields D) (record, 0%nat)).

Definition AddFields (self : ParseContextImpl) (record : Record_.t) (base_offset : Z)
    (D : clang.RecordDecl.t) (layout : clang.ASTRecordLayout.t) : Record_.t :=
  let CXXRD := clang.RecordDecl.dyn_cast_CXXRecordDecl D in
  let record := AddBases self record base_offset CXXRD layout in
  let record := AddDataMembers self record base_offset D layout in
  AddVirtualBases self record base_offset CXXRD layout.

(** The record that [HandleRecordDecl] appends for a declaration it
    accepts: the header fields, then [AddFields], then the vtable. *)
Definition BuildRecord (self : ParseContextImpl) (D : clang.RecordDecl.t) : Record_.t :=
  let CXXRD := clang.RecordDecl.dyn_cast_CXXRecordDecl D in
  let layout := clang.RecordDecl.getASTRecordLayout D in
  let record :=
    {| Record_.is_anonymous := clang.RecordDecl.isAnonymousStructOrUnion D;
       Record_.kind :=
         match clang.RecordDecl.getTagKind D with
         | clang.TTK_Struct => Record_.Struct
         | clang.TTK_Interface | clang.TTK_Class => Record_.Class
         | clang.TTK_Union => Record_.Union
         | clang.TTK_Enum => Record_.Struct
         end;
       Record_.name := printed_name (clang.RecordDecl.asTagDecl D);
       Record_.size := to_size_t (clang.ASTRecordLayout.getSize layout);
       Record_.data_size := to_size_t (clang.ASTRecordLayout.getDataSize layout);
       Record_.alignment := to_size_t (clang.ASTRecordLayout.getAlignment layout);
       Record_.fields := [];
       Record_.vtable := None |} in
  let record := AddFields self record 0 D layout in
  match CXXRD with
  | Some CXXRD => set_vtable record (ParseVTable D CXXRD)
  | None => record
  end.

Definition HandleRecordDecl (self : ParseContextImpl) (D : option clang.RecordDecl.t)
  : ParseContextImpl :=
  let (ok, self) := CanProcess self (option_map clang.RecordDecl.asTagDecl D) in
  if negb ok then self
  else
    match D with
    | None => self
    | Some D =>
        if ShouldInlineEmptyRecord self D then self
        else
          let result := m_result self in
          set_result self
            {| ParseResult.error := ParseResult.error result;
               ParseResult.enums := ParseResult.enums result;
               ParseResult.records := ParseResult.records result ++ [BuildRecord self D] |}
    end.

(** ** Record.cpp *)

(** [TraverseAST]: the visitor sees every declaration once, in order. *)
Definition VisitDecl (self : ParseContextImpl) (d : clang.Decl) : ParseContextImpl :=
  match d with
  | clang.VisitedEnumDecl D => HandleEnumDecl self D
  | clang.VisitedRecordDecl D => HandleRecordDecl self D
  | clang.OtherDecl => self
  end.

Definition TraverseAST (self : ParseContextImpl) (decls : list clang.Decl)
  : ParseContextImpl :=
  fold_left VisitDecl decls self.

Definition HandleTranslationUnit (self : ParseContextImpl) (TU : clang.TranslationUnit.t)
  : ParseContextImpl :=
  if negb (clang.ASTContext.isItaniumFamily (clang.TranslationUnit.Ctx TU)) then
    let result := m_result self in
    set_result self
      {| ParseResult.error := "only the Itanium C++ ABI is supported";
         ParseResult.enums := ParseResult.enums result;
         ParseResult.records := ParseResult.records result |}
  else TraverseAST self (clang.TranslationUnit.decls TU).

(** [ParseRecords(tool, config)]: one context for all translation units of
    the tool. *)
Definition ParseRecords (tool : clang.ClangTool.t) (config : ParseConfig.t)
  : ParseResult.t :=
  let result := {| ParseResult.error := ""; ParseResult.enums := [];
                   ParseResult.records := [] |} in
  let context := Make result config in
  let context := fold_left HandleTranslationUnit (clang.ClangTool.units tool) context in
  let result := m_result context in
  if negb (clang.ClangTool.run tool =? 0)
  then ParseResult.AddErrorContext result "failed to run tool"
  else result.


(** ** The dump tool (tools/classgen-dump)

    [llvm::json::OStream] writes a JSON document piece by piece; the
    document written is kept here as a tree.  A function that "must be
    called inside an object block" yields the attributes it writes, in
    order. *)

Inductive json : Type :=
| JNull
| JBool (b : bool)
| JNumber (n : Z)
| JString (s : string)
| JArray (elements : list json)
| JObject (attributes : list (string * json)).

Fixpoint DumpComplexType (type : ComplexType) : list (string * json) :=
  match type with
  | ComplexTypeName name is_const is_volatile =>
      [ ("kind", JString "type_name");
        ("name", JString name);
        ("is_const", JBool is_const);
        ("is_volatile", JBool is_volatile) ]
  | ComplexTypePointer pointee_type =>
      [ ("kind", JString "pointer");
        ("pointee_type", JObject (DumpComplexType pointee_type)) ]
  | ComplexTypeArray element_type size =>
      [ ("kind", JString "array");
        ("element_type", JObject (DumpComplexType element_type));
        ("size", JNumber size) ]
  | ComplexTypeFunction param_types return_type =>
      [ ("kind", JString "function");
        ("param_types",
         JArray (List.map (fun param_type => JObject (DumpComplexType param_type))
                          param_types));
        ("return_type", JObject (DumpComplexType return_type)) ]
  | ComplexTypeMemberPointer class_type pointee_type repr =>
      [ ("kind", JString "member_pointer");
        ("class_type", JObject (DumpComplexType class_type));
        ("pointee_type", JObject (DumpComplexType pointee_type));
        ("repr", JString repr) ]
  | ComplexTypeAtomic value_type =>
      [ ("kind", JString "atomic");
        ("value_type", JObject (DumpComplexType value_type)) ]
  end.

Definition DumpEnum (enum_def : Enum.t) : list (string * json) :=
  [ ("is_scoped", JBool (Enum.is_scoped enum_def));
    ("is_anonymous", JBool (Enum.is_anonymous enum_def));
    ("name", JString (Enum.name enum_def));
    ("underlying_type_name", JString (Enum.underlying_type_name enum_def));
    ("underlying_type_size", JNumber (Enum.underlying_type_size enum_def));
    ("enumerators",
     JArray (List.map
               (fun entry =>
                  JObject [ ("identifier", JString (Enum.identifier entry));
                            ("value", JString (Enum.value entry)) ])
               (Enum.enumerators enum_def))) ].

Definition DumpVTableFunction (func : VTableComponent.FunctionPointer)
  : list (string * json) :=
  [ ("is_thunk", JBool (VTableComponent.is_thunk func));
    ("is_const", JBool (VTableComponent.is_const func)) ]
  ++ (if VTableComponent.is_thunk func
      then [ ("return_adjustment", JNumber (VTableComponent.return_adjustment func));
             ("return_adjustment_vbase_offset_offset",
              JNumber (VTableComponent.return_adjustment_vbase_offset_offset func));
             ("this_adjustment", JNumber (VTableComponent.this_adjustment func));
             ("this_adjustment_vcall_offset_offset",
              JNumber (VTableComponent.this_adjustment_vcall_offset_offset func)) ]
      else [])
  ++ [ ("repr", JString (VTableComponent.repr func));
       ("function_name", JString (VTableComponent.function_name func));
       ("type", JObject (DumpComplexType (VTableComponent.type func))) ].

(** The objects written for one field: one object, or none when the
    variant holds none of the three alternatives that are looked for. *)
Definition DumpRecord_field (field : Field.t) : list json :=
  let write_common kind :=
    [ ("offset", JNumber (Field.offset field)); ("kind", JString kind) ] in
  match Field.data field with
  | Field.MemberVariable bitfield_width type type_name name =>
      [ JObject (write_common "member"
                 ++ (if negb (bitfield_width =? 0)
                     then [ ("bitfield_width", JNumber bitfield_width) ]
                     else [])
                 ++ [ ("type", JObject (DumpComplexType type));
                      ("type_name", JString type_name);
                      ("name", JString name) ]) ]
  | Field.Base is_primary is_virtual type_name =>
      [ JObject (write_common "base"
                 ++ [ ("is_primary", JBool is_primary);
                      ("is_virtual", JBool is_virtual);
                      ("type_name", JString type_name) ]) ]
  | Field.VTablePointer => [ JObject (write_common "vtable_ptr") ]
  | Field.monostate => []
  end.

(** The object written for one vtable component. *)
Definition DumpRecord_component (component : VTableComponent.t) : list json :=
  let write_common kind := [ ("kind", JString kind) ] in
  match component with
  | VTableComponent.VCallOffset offset =>
      [ JObject (write_common "vcall_offset" ++ [ ("offset", JNumber offset) ]) ]
  | VTableComponent.VBaseOffset offset =>
      [ JObject (write_common "vbase_offset" ++ [ ("offset", JNumber offset) ]) ]
  | VTableComponent.OffsetToTop offset =>
      [ JObject (write_common "offset_to_top" ++ [ ("offset", JNumber offset) ]) ]
  | VTableComponent.RTTI class_name =>
      [ JObject (write_common "rtti" ++ [ ("class_name", JString class_name) ]) ]
  | VTableComponent.FunctionPointerData func =>
      [ JObject (write_common "func" ++ DumpVTableFunction func) ]
  | VTableComponent.CompleteDtorPointer complete_dtor =>
      [ JObject (write_common "complete_dtor" ++ DumpVTableFunction complete_dtor) ]
  | VTableComponent.DeletingDtorPointer deleting_dtor =>
      [ JObject (write_common "deleting_dtor" ++ DumpVTableFunction deleting_dtor) ]
  end.

(** [int(record.kind)] *)
Definition Kind_to_int (kind : Record_.Kind) : Z :=
  match kind with
  | Record_.Class => 0
  | Record_.Struct => 1
  | Record_.Union => 2
  end.

Definition DumpRecord (record : Record_.t) : list (string * json) :=
  [ ("is_anonymous", JBool (Record_.is_anonymous record));
    ("kind", JNumber (Kind_to_int (Record_.kind record)));
    ("name", JString (Record_.name record));
    ("size", JNumber (Record_.size record));
    ("data_size", JNumber (Record_.data_size record));
    ("alignment", JNumber (Record_.alignment record));
    ("fields", JArray (flat_map DumpRecord_field (Record_.fields record))) ]
  ++ match Record_.vtable record with
     | Some vtable =>
         [ ("vtable", JArray (flat_map DumpRecord_component (VTable.components vtable))) ]
     | None => [ ("vtable", JNull) ]
     end.

(** What a run of the tool leaves behind: the exit code, the text sent to
    [llvm::errs()], and the document sent to [llvm::outs()], if any. *)
Record MainOutput : Type := {
  exit_code : Z;
  errs : string;
  outs : option json
}.

(** [main]: [parsed] is what the options parser makes of the command
    line, the tool and the value of [-i], or nothing when it fails. *)
Definition main (parsed : option (clang.ClangTool.t * bool)) : MainOutput :=
  match parsed with
  | None => {| exit_code := 1; errs := ""; outs := None |}
  | Some (Tool, OptInlineEmptyStructs) =>
      let config := {| ParseConfig.inline_empty_structs := OptInlineEmptyStructs |} in
      let result := ParseRecords Tool config in
      {| exit_code := 0;
         errs :=
           if negb (String.eqb (ParseResult.error result) "")
           then ParseResult.error result +++ String (Ascii.ascii_of_nat 10) ""
           else "";
         outs :=
           Some (JObject
                   [ ("enums",
                      JArray (List.map (fun enum_def => JObject (DumpEnum enum_def))
                                       (ParseResult.enums result)));
                     ("records",
                      JArray (List.map (fun record => JObject (DumpRecord record))
                                       (ParseResult.records result))) ]) |}
  end.
(** ** Vocabulary of the statements *)

(** The seven alternatives of the output variant. *)
Inductive ComponentTag : Type :=
| TagVCallOffset | TagVBaseOffset | TagOffsetToTop | TagRTTI
| TagFunctionPointer | TagCompleteDtorPointer | TagDeletingDtorPointer.

Definition component_tag (c : VTableComponent.t) : ComponentTag :=
  match c with
  | VTableComponent.VCallOffset _ => TagVCallOffset
  | VTableComponent.VBaseOffset _ => TagVBaseOffset
  | VTableComponent.OffsetToTop _ => TagOffsetToTop
  | VTableComponent.RTTI _ => TagRTTI
  | VTableComponent.FunctionPointerData _ => TagFunctionPointer
  | VTableComponent.CompleteDtorPointer _ => TagCompleteDtorPointer
  | VTableComponent.DeletingDtorPointer _ => TagDeletingDtorPointer
  end.

(** The alternative that stands for a component kind of the oracle: kinds
    map one to one, except that an unused function pointer is an ordinary
    function pointer. *)
Definition folded_tag (k : clang.VTableComponent.Kind) : ComponentTag :=
  match k with
  | clang.VTableComponent.CK_VCallOffset => TagVCallOffset
  | clang.VTableComponent.CK_VBaseOffset => TagVBaseOffset
  | clang.VTableComponent.CK_OffsetToTop => TagOffsetToTop
  | clang.VTableComponent.CK_RTTI => TagRTTI
  | clang.VTableComponent.CK_FunctionPointer => TagFunctionPointer
  | clang.VTableComponent.CK_CompleteDtorPointer => TagCompleteDtorPointer
  | clang.VTableComponent.CK_DeletingDtorPointer => TagDeletingDtorPointer
  | clang.VTableComponent.CK_UnusedFunctionPointer => TagFunctionPointer
  end.

(** The output component that stands for the component of the oracle at
    index [idx]. *)
Definition component_image (layout : clang.VTableLayout.t) (idx : nat)
    (component : clang.VTableComponent.t) : VTableComponent.t :=
  match component with
  | clang.VTableComponent.VCallOffset o => VTableComponent.VCallOffset o
  | clang.VTableComponent.VBaseOffset o => VTableComponent.VBaseOffset o
  | clang.VTableComponent.OffsetToTop o => VTableComponent.OffsetToTop o
  | clang.VTableComponent.RTTI type => VTableComponent.RTTI (getAsString type)
  | clang.VTableComponent.FunctionPointer func =>
      VTableComponent.FunctionPointerData
        (ParseVTable_entry layout idx clang.VTableComponent.CK_FunctionPointer func)
  | clang.VTableComponent.UnusedFunctionPointer func =>
      VTableComponent.FunctionPointerData
        (ParseVTable_entry layout idx clang.VTableComponent.CK_UnusedFunctionPointer func)
  | clang.VTableComponent.CompleteDtorPointer func =>
      VTableComponent.CompleteDtorPointer
        (ParseVTable_entry layout idx clang.VTableComponent.CK_CompleteDtorPointer func)
  | clang.VTableComponent.DeletingDtorPointer func =>
      VTableComponent.DeletingDtorPointer
        (ParseVTable_entry layout idx clang.VTableComponent.CK_DeletingDtorPointer func)
  end.

(** The [FunctionPointer] payload of an output component, if it has one. *)
Definition function_entry (c : VTableComponent.t) : option VTableComponent.FunctionPointer :=
  match c with
  | VTableComponent.FunctionPointerData e
  | VTableComponent.CompleteDtorPointer e
  | VTableComponent.DeletingDtorPointer e => Some e
  | _ => None
  end.

(** The thunk table is sorted by strictly increasing component index. *)
Definition thunks_sorted (layout : clang.VTableLayout.t) : Prop :=
  StronglySorted (fun a b => (fst a < fst b)%nat)
                 (clang.VTableLayout.vtable_thunks layout).

(** The thunks of the table are those of the Itanium ABI: none names an
    overridden method. *)
Definition Itanium_thunks (layout : clang.VTableLayout.t) : Prop :=
  Forall (fun entry => clang.ThunkInfo.Method (snd entry) = None)
         (clang.VTableLayout.vtable_thunks layout).

(** One of the two adjustments of the thunk is not empty. *)
Definition has_adjustment (thunk : clang.ThunkInfo.t) : bool :=
  negb (clang.ThisAdjustment.isEmpty (clang.ThunkInfo.This thunk))
  || negb (clang.ReturnAdjustment.isEmpty (clang.ThunkInfo.Return thunk)).

(** The thunk table has, at index [idx], a thunk with a non-empty
    adjustment. *)
Definition has_thunk_at (layout : clang.VTableLayout.t) (idx : nat) : Prop :=
  exists thunk,
    In (idx, thunk) (clang.VTableLayout.vtable_thunks layout)
    /\ has_adjustment thunk = true.

(** The adjustment fields of [e] are those of [thunk], an empty adjustment
    leaving its two fields at zero. *)
Definition adjustments_from (thunk : clang.ThunkInfo.t)
    (e : VTableComponent.FunctionPointer) : Prop :=
  let Return := clang.ThunkInfo.Return thunk in
  let This := clang.ThunkInfo.This thunk in
  (clang.ReturnAdjustment.isEmpty Return = true ->
     VTableComponent.return_adjustment e = 0
     /\ VTableComponent.return_adjustment_vbase_offset_offset e = 0)
  /\ (clang.ReturnAdjustment.isEmpty Return = false ->
     VTableComponent.return_adjustment e = clang.ReturnAdjustment.NonVirtual Return
     /\ VTableComponent.return_adjustment_vbase_offset_offset e
        = clang.ReturnAdjustment.VBaseOffsetOffset Return)
  /\ (clang.ThisAdjustment.isEmpty This = true ->
     VTableComponent.this_adjustment e = 0
     /\ VTableComponent.this_adjustment_vcall_offset_offset e = 0)
  /\ (clang.ThisAdjustment.isEmpty This = false ->
     VTableComponent.this_adjustment e = clang.ThisAdjustment.NonVirtual This
     /\ VTableComponent.this_adjustment_vcall_offset_offset e
        = clang.ThisAdjustment.VCallOffsetOffset This).

(** *** Records and fields *)

(** The empty-record policy: the data size is zero, or the record has no
    vtable, no bases, no virtual bases and no direct fields. *)
Definition empty_record_policy (D : clang.RecordDecl.t) : bool :=
  (clang.ASTRecordLayout.getDataSize (clang.RecordDecl.getASTRecordLayout D) =? 0)
  || match clang.RecordDecl.dyn_cast_CXXRecordDecl D with
     | Some CXXRD =>
         negb (clang.CXXRecordDecl.isDynamicClass CXXRD)
         && (match clang.CXXRecordDecl.bases CXXRD with [] => true | _ => false end)
         && (match clang.CXXRecordDecl.vbases CXXRD with [] => true | _ => false end)
         && negb (clang.CXXRecordDecl.hasDirectFields CXXRD)
     | None =>
         match clang.RecordDecl.fields D with [] => true | _ => false end
     end.

(** What [ShouldInlineEmptyRecord] answers under a configuration. *)
Definition inlined (config : ParseConfig.t) (D : clang.RecordDecl.t) : bool :=
  ParseConfig.inline_empty_structs config
  && ((clang.ASTRecordLayout.getDataSize (clang.RecordDecl.getASTRecordLayout D) =? 0)
      || match clang.RecordDecl.dyn_cast_CXXRecordDecl D with
         | Some CXXRD =>
             negb (clang.CXXRecordDecl.isDynamicClass CXXRD)
             && (match clang.CXXRecordDecl.bases CXXRD with [] => true | _ => false end)
             && (match clang.CXXRecordDecl.vbases CXXRD with [] => true | _ => false end)
             && negb (clang.CXXRecordDecl.hasDirectFields CXXRD)
         | None => true
         end).

(** The bases that are not inlined. *)
Definition kept_bases (config : ParseConfig.t) (l : list clang.RecordDecl.t)
  : list clang.RecordDecl.t :=
  List.filter (fun base => negb (inlined config base)) l.

(** [record] with [l] appended to its fields. *)
Definition append_fields (record : Record_.t) (l : list Field.t) : Record_.t :=
  {| Record_.is_anonymous := Record_.is_anonymous record;
     Record_.kind := Record_.kind record;
     Record_.name := Record_.name record;
     Record_.size := Record_.size record;
     Record_.data_size := Record_.data_size record;
     Record_.alignment := Record_.alignment record;
     Record_.fields := Record_.fields record ++ l;
     Record_.vtable := Record_.vtable record |}.

(** The [Base] field of a base: at [base_offset] plus the offset the
    layout gives to the base, marked primary when the base is the primary
    base of the layout. *)
Definition base_field (base_offset : Z) (offset_of : nat -> Z)
    (primary_base : option nat) (is_virtual : bool) (base : clang.RecordDecl.t)
  : Field.t :=
  {| Field.offset := to_size_t (base_offset + offset_of (clang.RecordDecl.decl_id base));
     Field.data :=
       Field.Base
         (match primary_base with
          | Some primary => Nat.eqb (clang.RecordDecl.decl_id base) primary
          | None => false
          end)
         is_virtual
         (printed_name (clang.RecordDecl.asTagDecl base)) |}.

(** The non-virtual bases of a record: the classes named by the base
    specifiers of the class that are not virtual, in declaration order.  A
    record that is not a C++ class has none. *)
Definition nonvirtual_bases (D : clang.RecordDecl.t) : list clang.RecordDecl.t :=
  match clang.RecordDecl.dyn_cast_CXXRecordDecl D with
  | Some CXXRD =>
      List.map clang.CXXBaseSpecifier.getAsCXXRecordDecl
               (List.filter (fun base => negb (clang.CXXBaseSpecifier.isVirtual base))
                            (clang.CXXRecordDecl.bases CXXRD))
  | None => []
  end.

(** The virtual bases of a record, direct or not: the classes named by
    the specifiers that the class lists as its virtual bases. *)
Definition virtual_bases (D : clang.RecordDecl.t) : list clang.RecordDecl.t :=
  match clang.RecordDecl.dyn_cast_CXXRecordDecl D with
  | Some CXXRD =>
      List.map clang.CXXBaseSpecifier.getAsCXXRecordDecl (clang.CXXRecordDecl.vbases CXXRD)
  | None => []
  end.

Definition has_vtable_pointer (D : clang.RecordDecl.t)
    (layout : clang.ASTRecordLayout.t) : bool :=
  match clang.RecordDecl.dyn_cast_CXXRecordDecl D with
  | Some CXXRD =>
      clang.CXXRecordDecl.isDynamicClass CXXRD
      && match clang.ASTRecordLayout.getPrimaryBase layout with
         | None => true
         | Some _ => false
         end
  | None => false
  end.

Definition vtable_pointer_fields (D : clang.RecordDecl.t)
    (layout : clang.ASTRecordLayout.t) (base_offset : Z) : list Field.t :=
  if has_vtable_pointer D layout
  then [ {| Field.offset := to_size_t base_offset; Field.data := Field.VTablePointer |} ]
  else [].

(** [sorted] is the stable sort of [l] by ascending [key]: the same
    elements, keys never decreasing, and elements of equal key in the order
    they have in [l]. *)
Definition is_stable_sort_by {A : Type} (key : A -> Z) (l sorted : list A) : Prop :=
  Permutation l sorted
  /\ StronglySorted (fun a b => key a <= key b) sorted
  /\ forall k, List.filter (fun a => key a =? k) sorted
               = List.filter (fun a => key a =? k) l.

(** A data member yields a field unless it is an unnamed bitfield, or its
    type is a record that is inlined and the enclosing record is not a
    union. *)
Definition member_kept (config : ParseConfig.t) (D : clang.RecordDecl.t)
    (field_decl : clang.FieldDecl.t clang.RecordDecl.t) : bool :=
  negb (clang.FieldDecl.isUnnamedBitfield field_decl)
  && match clang.FieldDecl.getAsRecordDecl field_decl with
     | Some field_record => clang.RecordDecl.isUnion D || negb (inlined config field_record)
     | None => true
     end.

(** The [MemberVariable] payload of a data member. *)
Definition member_data (field_decl : clang.FieldDecl.t clang.RecordDecl.t) : Field.Data :=
  match clang.FieldDecl.getAsRecordDecl field_decl with
  | Some field_record =>
      Field.MemberVariable 0
        (TranslateToComplexType (getTypeDeclType field_record))
        (getAsString (getTypeDeclType field_record))
        (clang.FieldDecl.getNameAsString field_decl)
  | None =>
      Field.MemberVariable
        (if clang.FieldDecl.isBitField field_decl
         then to_unsigned (clang.FieldDecl.getBitWidthValue field_decl)
         else 0)
        (TranslateToComplexType (clang.FieldDecl.getType field_decl))
        (getAsString (getCanonicalType (clang.FieldDecl.getType field_decl)))
        (clang.FieldDecl.getNameAsString field_decl)
  end.

(** The byte offset of the field stored at slot [FieldNo] of the layout,
    with the conversions the code goes through. *)
Definition slot_offset (D : clang.RecordDecl.t) (layout : clang.ASTRecordLayout.t)
    (base_offset : Z) (FieldNo : nat) : Z :=
  to_size_t
    (base_offset
     + clang.ASTContext.toCharUnitsFromBits
         (clang.TagDecl.getASTContext (clang.RecordDecl.asTagDecl D))
         (to_int64 (clang.ASTRecordLayout.getFieldOffset layout FieldNo))).

(** The fields [AddDataMembers] appends for the declarations [fds] when
    its counter stands at [field_idx]: the counter advances on every
    declaration that is not an unnamed bitfield. *)
Fixpoint counted_member_fields (config : ParseConfig.t) (D : clang.RecordDecl.t)
    (layout : clang.ASTRecordLayout.t) (base_offset : Z) (field_idx : nat)
    (fds : list (clang.FieldDecl.t clang.RecordDecl.t)) : list Field.t :=
  match fds with
  | [] => []
  | fd :: rest =>
      if clang.FieldDecl.isUnnamedBitfield fd
      then counted_member_fields config D layout base_offset field_idx rest
      else
        (if member_kept config D fd
         then [ {| Field.offset := slot_offset D layout base_offset field_idx;
                   Field.data := member_data fd |} ]
         else [])
        ++ counted_member_fields config D layout base_offset (S field_idx) rest
  end.

(** The byte offset of the member declared at position [index] of the
    record: [base_offset] plus the offset in bits that the layout reports for
    that member, in bytes. *)
Definition own_offset (D : clang.RecordDecl.t) (layout : clang.ASTRecordLayout.t)
    (base_offset : Z) (index : nat) : Z :=
  base_offset
  + clang.ASTRecordLayout.getFieldOffset layout index
    / clang.ASTContext.getCharWidth
        (clang.TagDecl.getASTContext (clang.RecordDecl.asTagDecl D)).

(** One [MemberVariable] field, at its own offset, for each declaration
    of [fds] selected by [keep]; [index] is the position of the first
    declaration of [fds] in the record. *)
Fixpoint member_fields_at (keep : clang.FieldDecl.t clang.RecordDecl.t -> bool)
    (D : clang.RecordDecl.t) (layout : clang.ASTRecordLayout.t) (base_offset : Z)
    (index : nat) (fds : list (clang.FieldDecl.t clang.RecordDecl.t)) : list Field.t :=
  match fds with
  | [] => []
  | fd :: rest =>
      (if keep fd
       then [ {| Field.offset := own_offset D layout base_offset index;
                 Field.data := member_data fd |} ]
       else [])
      ++ member_fields_at keep D layout base_offset (S index) rest
  end.

(** The layout offsets are those of an object that fits the address
    space: no conversion of the code wraps. *)
Definition offsets_in_range (D : clang.RecordDecl.t) (layout : clang.ASTRecordLayout.t)
    (base_offset : Z) : Prop :=
  0 <= base_offset < 2 ^ 62
  /\ 0 < clang.ASTContext.getCharWidth
           (clang.TagDecl.getASTContext (clang.RecordDecl.asTagDecl D))
  /\ Forall (fun bits => 0 <= bits < 2 ^ 62) (clang.ASTRecordLayout.FieldOffsets layout).

(** A record without fields and without vtable, as
    [records.emplace_back()] creates it. *)
Definition empty_record : Record_.t :=
  {| Record_.is_anonymous := false;
     Record_.kind := Record_.Class;
     Record_.name := "";
     Record_.size := 0;
     Record_.data_size := 0;
     Record_.alignment := 0;
     Record_.fields := [];
     Record_.vtable := None |}.

(** *** Runs *)

(** The part of the registry gate that does not depend on the registry:
    the declaration is valid, complete and not a template pattern. *)
Definition gate_open (D : clang.TagDecl.t) : bool :=
  negb (clang.TagDecl.isInvalidDecl D)
  && clang.TagDecl.isCompleteDefinition D
  && negb (clang.TagDecl.isTemplated D).

(** The context with [name] added to the processed names. *)
Definition register (self : ParseContextImpl) (name : string) : ParseContextImpl :=
  {| m_result := m_result self;
     m_config := m_config self;
     m_processed := {[ name ]} ∪ m_processed self |}.

(** The context with [record] appended to the records of the result. *)
Definition push_record (self : ParseContextImpl) (record : Record_.t) : ParseContextImpl :=
  set_result self
    {| ParseResult.error := ParseResult.error (m_result self);
       ParseResult.enums := ParseResult.enums (m_result self);
       ParseResult.records := ParseResult.records (m_result self) ++ [record] |}.

(** The tag declaration that a visited declaration resolves to. *)
Definition decl_tag (d : clang.Decl) : option clang.TagDecl.t :=
  match d with
  | clang.VisitedEnumDecl D => option_map clang.EnumDecl.asTagDecl D
  | clang.VisitedRecordDecl D => option_map clang.RecordDecl.asTagDecl D
  | clang.OtherDecl => None
  end.

(** [later s s']: the run can go from [s] to [s'] by visiting
    declarations and handling translation units. *)
Inductive later (s : ParseContextImpl) : ParseContextImpl -> Prop :=
| later_now : later s s
| later_visit s' d : later s s' -> later s (VisitDecl s' d)
| later_unit s' TU : later s s' -> later s (HandleTranslationUnit s' TU).

(** Every record of the result has its name among the processed names. *)
Definition registry_covers (self : ParseContextImpl) : Prop :=
  forall r, In r (ParseResult.records (m_result self)) ->
            Record_.name r ∈ m_processed self.

(** [D] is the definition of a record declaration visited in one of the
    translation units of the tool. *)
Definition visited_definition (tool : clang.ClangTool.t) (D : clang.RecordDecl.t) : Prop :=
  exists TU,
    In TU (clang.ClangTool.units tool)
    /\ In (clang.VisitedRecordDecl (Some D)) (clang.TranslationUnit.decls TU).

Definition Itanium_only_message : string := "only the Itanium C++ ABI is supported".

(** [extends a b]: [b] has the processed names of [a], and the error of
    [a] if that is the ABI error. *)
Definition extends (a b : ParseContextImpl) : Prop :=
  m_processed a ⊆ m_processed b
  /\ (ParseResult.error (m_result a) = Itanium_only_message ->
      ParseResult.error (m_result b) = Itanium_only_message).


(** The field list of the record built for [D]: the vtable pointer if
    any, the kept non-virtual bases sorted by offset, the members as the
    code counts them, the kept virtual bases sorted by offset. *)
Definition record_fields (config : ParseConfig.t) (D : clang.RecordDecl.t) : list Field.t :=
  let layout := clang.RecordDecl.getASTRecordLayout D in
  vtable_pointer_fields D layout 0
  ++ List.map
       (base_field 0 (clang.ASTRecordLayout.getBaseClassOffset layout)
                   (clang.ASTRecordLayout.getPrimaryBase layout) false)
       (kept_bases config
          (stable_sort
             (fun L R =>
                clang.ASTRecordLayout.getBaseClassOffset layout (clang.RecordDecl.decl_id L)
                <? clang.ASTRecordLayout.getBaseClassOffset layout (clang.RecordDecl.decl_id R))
             (nonvirtual_bases D)))
  ++ counted_member_fields config D layout 0 0 (clang.RecordDecl.fields D)
  ++ List.map
       (base_field 0 (clang.ASTRecordLayout.getVBaseClassOffset layout)
                   (clang.ASTRecordLayout.getPrimaryBase layout) true)
       (kept_bases config
          (stable_sort
             (fun L R =>
                clang.ASTRecordLayout.getVBaseClassOffset layout (clang.RecordDecl.decl_id L)
                <? clang.ASTRecordLayout.getVBaseClassOffset layout (clang.RecordDecl.decl_id R))
             (virtual_bases D))).

(** *** The claims that the code does not satisfy, as they are worded *)

(** C1 as worded: with inlining on, every visited record that satisfies
    the empty-record policy still has its own entry, without fields, in the
    record list of the result. *)
Definition C1_as_worded (tool : clang.ClangTool.t) (config : ParseConfig.t) : Prop :=
  ParseConfig.inline_empty_structs config = true ->
  forall D,
    visited_definition tool D ->
    gate_open (clang.RecordDecl.asTagDecl D) = true ->
    empty_record_policy D = true ->
    exists r,
      In r (ParseResult.records (ParseRecords tool config))
      /\ Record_.name r = printed_name (clang.RecordDecl.asTagDecl D)
      /\ Record_.fields r = [].

(** C2 as worded: under a non-Itanium ABI family the error is recorded,
    every record has a null vtable, and the enums and records of the stream
    are emitted all the same. *)
Definition C2_as_worded (self : ParseContextImpl) (TU : clang.TranslationUnit.t) : Prop :=
  clang.ASTContext.isItaniumFamily (clang.TranslationUnit.Ctx TU) = false ->
  let s := HandleTranslationUnit self TU in
  let traversed := TraverseAST self (clang.TranslationUnit.decls TU) in
  ParseResult.error (m_result s) = Itanium_only_message
  /\ (forall r, In r (ParseResult.records (m_result s)) -> Record_.vtable r = None)
  /\ List.map Enum.name (ParseResult.enums (m_result s))
     = List.map Enum.name (ParseResult.enums (m_result traversed))
  /\ List.map Record_.name (ParseResult.records (m_result s))
     = List.map Record_.name (ParseResult.records (m_result traversed)).

(** C3 as worded: the fields appended for the data members are one
    [MemberVariable] per declaration that is not an unnamed bitfield, in
    declaration order, each at [base_offset] plus its own layout offset in
    bytes. *)
Definition C3_as_worded (self : ParseContextImpl) (record : Record_.t)
    (base_offset : Z) (D : clang.RecordDecl.t) : Prop :=
  let layout := clang.RecordDecl.getASTRecordLayout D in
  Record_.fields (AddDataMembers self record base_offset D layout)
  = Record_.fields record
    ++ member_fields_at (fun fd => negb (clang.FieldDecl.isUnnamedBitfield fd))
                        D layout base_offset 0 (clang.RecordDecl.fields D).

(** C9 as worded: a record of the result that is not a union has no two
    fields at the same offset. *)
Definition C9_as_worded (result : ParseResult.t) : Prop :=
  forall r,
    In r (ParseResult.records result) ->
    Record_.kind r <> Record_.Union ->
    List.NoDup (List.map Field.offset (Record_.fields r)).

(** The byte offsets that the layout gives to what the record keeps: the
    vtable pointer slot, the kept non-virtual bases, the kept members and
    the kept virtual bases, in declaration order. *)
Definition layout_byte_offsets (config : ParseConfig.t) (D : clang.RecordDecl.t) : list Z :=
  let layout := clang.RecordDecl.getASTRecordLayout D in
  (if has_vtable_pointer D layout then [0] else [])
  ++ List.map (fun b => clang.ASTRecordLayout.getBaseClassOffset layout
                          (clang.RecordDecl.decl_id b))
              (kept_bases config (nonvirtual_bases D))
  ++ List.map Field.offset
              (member_fields_at (member_kept config D) D layout 0 0
                                (clang.RecordDecl.fields D))
  ++ List.map (fun b => clang.ASTRecordLayout.getVBaseClassOffset layout
                          (clang.RecordDecl.decl_id b))
              (kept_bases config (virtual_bases D)).

(** The offsets of the bases of [D] are those of an object that fits the
    address space. *)
Definition base_offsets_in_range (D : clang.RecordDecl.t) : Prop :=
  let layout := clang.RecordDecl.getASTRecordLayout D in
  Forall (fun b => 0 <= clang.ASTRecordLayout.getBaseClassOffset layout
                         (clang.RecordDecl.decl_id b) < 2 ^ 62)
         (nonvirtual_bases D)
  /\ Forall (fun b => 0 <= clang.ASTRecordLayout.getVBaseClassOffset layout
                            (clang.RecordDecl.decl_id b) < 2 ^ 62)
            (virtual_bases D).


(** *** Records with a base or a member taken out *)

(** [C] as it would stand with the base specifiers [bases] and the
    virtual bases [vbases]; the rest of the declaration is kept.  A record
    that is not a C++ class has no bases and stays what it is. *)
Definition with_bases (C : clang.RecordDecl.t)
    (bases vbases : list (clang.CXXBaseSpecifier.t clang.RecordDecl.t))
  : clang.RecordDecl.t :=
  clang.RecordDecl.Build
    (clang.RecordDecl.decl_id C)
    (clang.RecordDecl.asTagDecl C)
    (clang.RecordDecl.isAnonymousStructOrUnion C)
    (clang.RecordDecl.getTagKind C)
    (clang.RecordDecl.fields C)
    (clang.RecordDecl.getASTRecordLayout C)
    (option_map
       (fun CXXRD =>
          {| clang.CXXRecordDecl.isDynamicClass := clang.CXXRecordDecl.isDynamicClass CXXRD;
             clang.CXXRecordDecl.bases := bases;
             clang.CXXRecordDecl.vbases := vbases;
             clang.CXXRecordDecl.hasDirectFields := clang.CXXRecordDecl.hasDirectFields CXXRD;
             clang.CXXRecordDecl.getVTableLayout := clang.CXXRecordDecl.getVTableLayout CXXRD |})
       (clang.RecordDecl.dyn_cast_CXXRecordDecl C)).

(** [C] as it would stand with the field declarations [fields]; the
    rest of the declaration is kept. *)
Definition with_fields (C : clang.RecordDecl.t)
    (fields : list (clang.FieldDecl.t clang.RecordDecl.t)) : clang.RecordDecl.t :=
  clang.RecordDecl.Build
    (clang.RecordDecl.decl_id C)
    (clang.RecordDecl.asTagDecl C)
    (clang.RecordDecl.isAnonymousStructOrUnion C)
    (clang.RecordDecl.getTagKind C)
    fields
    (clang.RecordDecl.getASTRecordLayout C)
    (clang.RecordDecl.dyn_cast_CXXRecordDecl C).

(** *** Polymorphic and dynamic classes *)

(** The class has at least one virtual base: [getNumVBases() != 0]. *)
Definition has_virtual_bases (CXXRD : clang.CXXRecordDecl.t clang.RecordDecl.t) : bool :=
  match clang.CXXRecordDecl.vbases CXXRD with
  | [] => false
  | _ :: _ => true
  end.

(** A class is polymorphic when it declares or inherits a virtual
    function; Clang answers that with [isPolymorphic()], which the code never
    asks.  Clang defines [isDynamicClass()] as
    [isPolymorphic() || getNumVBases() != 0]:
    [Clang_isDynamicClass CXXRD polymorphic] says that the answers of [CXXRD]
    agree with that definition when [isPolymorphic()] is [polymorphic]. *)
Definition Clang_isDynamicClass (CXXRD : clang.CXXRecordDecl.t clang.RecordDecl.t)
    (polymorphic : bool) : Prop :=
  clang.CXXRecordDecl.isDynamicClass CXXRD = polymorphic || has_virtual_bases CXXRD.

(** The synthetic vtable pointer of a record laid out at offset 0. *)
Definition vtable_pointer_field : Field.t :=
  {| Field.offset := 0; Field.data := Field.VTablePointer |}.

(** Whether the field list of [D] is to open with the vtable pointer,
    when [isPolymorphic()] answers [polymorphic] for [D]: [D] is a class
    that is polymorphic or has a virtual base, and its layout names no
    primary base. *)
Definition opens_with_vtable_pointer (polymorphic : bool) (D : clang.RecordDecl.t) : bool :=
  match clang.RecordDecl.dyn_cast_CXXRecordDecl D with
  | Some CXXRD =>
      (polymorphic || has_virtual_bases CXXRD)
      && match clang.ASTRecordLayout.getPrimaryBase (clang.RecordDecl.getASTRecordLayout D) with
         | None => true
         | Some _ => false
         end
  | None => false
  end.

(** C4 as worded, in its clause on the vtable pointer: the field list
    of the record built for a class opens with the synthetic vtable pointer
    if and only if the class is polymorphic and has no primary base. *)
Definition C4_as_worded (self : ParseContextImpl) (D : clang.RecordDecl.t)
    (CXXRD : clang.CXXRecordDecl.t clang.RecordDecl.t) (polymorphic : bool) : Prop :=
  clang.RecordDecl.dyn_cast_CXXRecordDecl D = Some CXXRD ->
  Clang_isDynamicClass CXXRD polymorphic ->
  (List.head (Record_.fields (BuildRecord self D)) = Some vtable_pointer_field
   <-> polymorphic = true
       /\ clang.ASTRecordLayout.getPrimaryBase (clang.RecordDecl.getASTRecordLayout D) = None).


(** ** Sample declarations

    Concrete inputs on which the statements are exercised. *)

(** A printer for the samples: qualifiers, then the name of the node. *)
Fixpoint print_type (t : QualType) : string :=
  match t with
  | QT c v n =>
      (if c then "const " else "") +++ (if v then "volatile " else "") +++ print_node n
  end
with print_node (n : TypeNode) : string :=
  match n with
  | BuiltinOrTagType s => s
  | ConstantArrayType e _ => print_type e +++ " []"
  | MemberPointerType cls p => print_type p +++ " " +++ print_node cls +++ "::*"
  | PointerType p => print_type p +++ " *"
  | ReferenceType p => print_type p +++ " &"
  | FunctionProtoType _ r => print_type r +++ " ()"
  | AtomicType a => "_Atomic(" +++ print_type a +++ ")"
  | TypedefType s _ => s
  end.

Definition Itanium_context : clang.ASTContext.t :=
  {| clang.ASTContext.isItaniumFamily := true;
     clang.ASTContext.hasItaniumVTableContext := true;
     clang.ASTContext.getCharWidth := 8 |}.

Definition Microsoft_context : clang.ASTContext.t :=
  {| clang.ASTContext.isItaniumFamily := false;
     clang.ASTContext.hasItaniumVTableContext := false;
     clang.ASTContext.getCharWidth := 8 |}.

Definition named_type (name : string) : QualType := QT false false (BuiltinOrTagType name).

Definition sample_tag (ctx : clang.ASTContext.t) (name : string) : clang.TagDecl.t :=
  {| clang.TagDecl.getASTContext := ctx;
     clang.TagDecl.isInvalidDecl := false;
     clang.TagDecl.isCompleteDefinition := true;
     clang.TagDecl.isTemplated := false;
     clang.TagDecl.getTypeDeclType := named_type name |}.

Definition sample_layout (size data_size alignment : Z) (field_offsets : list Z)
  : clang.ASTRecordLayout.t :=
  {| clang.ASTRecordLayout.getSize := size;
     clang.ASTRecordLayout.getDataSize := data_size;
     clang.ASTRecordLayout.getAlignment := alignment;
     clang.ASTRecordLayout.getPrimaryBase := None;
     clang.ASTRecordLayout.getBaseClassOffset := fun _ => 0;
     clang.ASTRecordLayout.getVBaseClassOffset := fun _ => 0;
     clang.ASTRecordLayout.FieldOffsets := field_offsets |}.

Definition no_vtable : clang.VTableLayout.t :=
  {| clang.VTableLayout.vtable_components := [];
     clang.VTableLayout.vtable_thunks := [] |}.

(** A class without bases: its dynamic flag, whether it has direct
    fields, and its vtable layout. *)
Definition sample_class (dynamic has_fields : bool) (vtable : clang.VTableLayout.t)
  : clang.CXXRecordDecl.t clang.RecordDecl.t :=
  {| clang.CXXRecordDecl.isDynamicClass := dynamic;
     clang.CXXRecordDecl.bases := [];
     clang.CXXRecordDecl.vbases := [];
     clang.CXXRecordDecl.hasDirectFields := has_fields;
     clang.CXXRecordDecl.getVTableLayout := vtable |}.

Definition int_member (name : string) : clang.FieldDecl.t clang.RecordDecl.t :=
  {| clang.FieldDecl.isUnnamedBitfield := false;
     clang.FieldDecl.isBitField := false;
     clang.FieldDecl.getBitWidthValue := 0;
     clang.FieldDecl.getType := named_type "int";
     clang.FieldDecl.getAsRecordDecl := None;
     clang.FieldDecl.getNameAsString := name |}.

Definition int_bitfield (name : string) (width : Z) : clang.FieldDecl.t clang.RecordDecl.t :=
  {| clang.FieldDecl.isUnnamedBitfield := String.eqb name "";
     clang.FieldDecl.isBitField := true;
     clang.FieldDecl.getBitWidthValue := width;
     clang.FieldDecl.getType := named_type "int";
     clang.FieldDecl.getAsRecordDecl := None;
     clang.FieldDecl.getNameAsString := name |}.

Definition record_member (name : string) (R : clang.RecordDecl.t)
  : clang.FieldDecl.t clang.RecordDecl.t :=
  {| clang.FieldDecl.isUnnamedBitfield := false;
     clang.FieldDecl.isBitField := false;
     clang.FieldDecl.getBitWidthValue := 0;
     clang.FieldDecl.getType :=
       clang.TagDecl.getTypeDeclType (clang.RecordDecl.asTagDecl R);
     clang.FieldDecl.getAsRecordDecl := Some R;
     clang.FieldDecl.getNameAsString := name |}.

(** [struct Empty {};] *)
Definition Empty_decl : clang.RecordDecl.t :=
  clang.RecordDecl.Build 1 (sample_tag Itanium_context "Empty") false clang.TTK_Struct
    [] (sample_layout 1 1 1 [])
    (Some (sample_class false false no_vtable)).

(** [struct Derived : Empty { int x; };] *)
Definition Derived_decl : clang.RecordDecl.t :=
  clang.RecordDecl.Build 2 (sample_tag Itanium_context "Derived") false clang.TTK_Struct
    [int_member "x"] (sample_layout 4 4 4 [0])
    (Some {| clang.CXXRecordDecl.isDynamicClass := false;
             clang.CXXRecordDecl.bases :=
               [ {| clang.CXXBaseSpecifier.isVirtual := false;
                    clang.CXXBaseSpecifier.getAsCXXRecordDecl := Empty_decl |} ];
             clang.CXXRecordDecl.vbases := [];
             clang.CXXRecordDecl.hasDirectFields := true;
             clang.CXXRecordDecl.getVTableLayout := no_vtable |}).

(** [struct Holder { Empty e; int x; };] *)
Definition Holder_decl : clang.RecordDecl.t :=
  clang.RecordDecl.Build 3 (sample_tag Itanium_context "Holder") false clang.TTK_Struct
    [record_member "e" Empty_decl; int_member "x"] (sample_layout 8 8 4 [0; 32])
    (Some (sample_class false true no_vtable)).

(** [struct Bits { int a : 3; int b : 5; };] *)
Definition Bits_decl : clang.RecordDecl.t :=
  clang.RecordDecl.Build 4 (sample_tag Itanium_context "Bits") false clang.TTK_Struct
    [int_bitfield "a" 3; int_bitfield "b" 5] (sample_layout 4 1 4 [0; 3])
    (Some (sample_class false true no_vtable)).

(** [struct Gap { int a : 3; int : 5; int b; };] *)
Definition Gap_decl : clang.RecordDecl.t :=
  clang.RecordDecl.Build 5 (sample_tag Itanium_context "Gap") false clang.TTK_Struct
    [int_bitfield "a" 3; int_bitfield "" 5; int_member "b"] (sample_layout 8 8 4 [0; 3; 32])
    (Some (sample_class false true no_vtable)).

(** [void Poly::f()] and its type. *)
Definition Poly_f : clang.CXXMethodDecl.t :=
  {| clang.CXXMethodDecl.getName := "f";
     clang.CXXMethodDecl.isOverloadedOperator := false;
     clang.CXXMethodDecl.getOverloadedOperator := clang.OO_None;
     clang.CXXMethodDecl.ComputeName := "void Poly::f()";
     clang.CXXMethodDecl.isPure := false;
     clang.CXXMethodDecl.isConst := false;
     clang.CXXMethodDecl.getType :=
       QT false false (FunctionProtoType [] (named_type "void")) |}.

(** [class Poly { virtual void f(); int x; };] on a 64-bit target. *)
Definition Poly_vtable : clang.VTableLayout.t :=
  {| clang.VTableLayout.vtable_components :=
       [ clang.VTableComponent.OffsetToTop 0;
         clang.VTableComponent.RTTI (named_type "Poly");
         clang.VTableComponent.FunctionPointer Poly_f ];
     clang.VTableLayout.vtable_thunks := [] |}.

Definition Poly_decl : clang.RecordDecl.t :=
  clang.RecordDecl.Build 6 (sample_tag Itanium_context "Poly") false clang.TTK_Class
    [int_member "x"] (sample_layout 16 12 8 [64])
    (Some (sample_class true true Poly_vtable)).

(** [struct A { virtual void f(); }; struct B { virtual void g(); };
    struct Both : B, A, virtual V { void f() override; void g() override;
    int m; };]: the vtable of [Both] has a second group for the [B]
    subobject at offset 8, whose slot for [g] is a thunk adjusting [this]
    by -8. *)
Definition Both_f : clang.CXXMethodDecl.t :=
  {| clang.CXXMethodDecl.getName := "f";
     clang.CXXMethodDecl.isOverloadedOperator := false;
     clang.CXXMethodDecl.getOverloadedOperator := clang.OO_None;
     clang.CXXMethodDecl.ComputeName := "void Both::f()";
     clang.CXXMethodDecl.isPure := false;
     clang.CXXMethodDecl.isConst := false;
     clang.CXXMethodDecl.getType :=
       QT false false (FunctionProtoType [] (named_type "void")) |}.

Definition Both_g : clang.CXXMethodDecl.t :=
  {| clang.CXXMethodDecl.getName := "g";
     clang.CXXMethodDecl.isOverloadedOperator := false;
     clang.CXXMethodDecl.getOverloadedOperator := clang.OO_None;
     clang.CXXMethodDecl.ComputeName := "void Both::g()";
     clang.CXXMethodDecl.isPure := false;
     clang.CXXMethodDecl.isConst := false;
     clang.CXXMethodDecl.getType :=
       QT false false (FunctionProtoType [] (named_type "void")) |}.

Definition Both_vtable : clang.VTableLayout.t :=
  {| clang.VTableLayout.vtable_components :=
       [ clang.VTableComponent.OffsetToTop 0;
         clang.VTableComponent.RTTI (named_type "Both");
         clang.VTableComponent.FunctionPointer Both_f;
         clang.VTableComponent.FunctionPointer Both_g;
         clang.VTableComponent.OffsetToTop (-8);
         clang.VTableComponent.RTTI (named_type "Both");
         clang.VTableComponent.FunctionPointer Both_g ];
     clang.VTableLayout.vtable_thunks :=
       [ (6%nat,
          {| clang.ThunkInfo.This :=
               {| clang.ThisAdjustment.NonVirtual := -8;
                  clang.ThisAdjustment.VCallOffsetOffset := 0 |};
             clang.ThunkInfo.Return :=
               {| clang.ReturnAdjustment.NonVirtual := 0;
                  clang.ReturnAdjustment.VBaseOffsetOffset := 0 |};
             clang.ThunkInfo.Method := None |}) ] |}.

Definition A_decl : clang.RecordDecl.t :=
  clang.RecordDecl.Build 7 (sample_tag Itanium_context "A") false clang.TTK_Struct
    [] (sample_layout 8 8 8 []) (Some (sample_class true false no_vtable)).

Definition B_decl : clang.RecordDecl.t :=
  clang.RecordDecl.Build 8 (sample_tag Itanium_context "B") false clang.TTK_Struct
    [] (sample_layout 8 8 8 []) (Some (sample_class true false no_vtable)).

Definition V_decl : clang.RecordDecl.t :=
  clang.RecordDecl.Build 9 (sample_tag Itanium_context "V") false clang.TTK_Struct
    [int_member "v"] (sample_layout 4 4 4 [0]) (Some (sample_class false true no_vtable)).

(** The class part of [Both]: [A] is the primary base at offset 0, [B]
    lies at offset 8, [m] at offset 16 and [V] at offset 20; the non-virtual
    bases are declared out of offset order. *)
Definition Both_class : clang.CXXRecordDecl.t clang.RecordDecl.t :=
  {| clang.CXXRecordDecl.isDynamicClass := true;
     clang.CXXRecordDecl.bases :=
       [ {| clang.CXXBaseSpecifier.isVirtual := false;
            clang.CXXBaseSpecifier.getAsCXXRecordDecl := B_decl |};
         {| clang.CXXBaseSpecifier.isVirtual := false;
            clang.CXXBaseSpecifier.getAsCXXRecordDecl := A_decl |};
         {| clang.CXXBaseSpecifier.isVirtual := true;
            clang.CXXBaseSpecifier.getAsCXXRecordDecl := V_decl |} ];
     clang.CXXRecordDecl.vbases :=
       [ {| clang.CXXBaseSpecifier.isVirtual := true;
            clang.CXXBaseSpecifier.getAsCXXRecordDecl := V_decl |} ];
     clang.CXXRecordDecl.hasDirectFields := true;
     clang.CXXRecordDecl.getVTableLayout := Both_vtable |}.

Definition Both_decl : clang.RecordDecl.t :=
  clang.RecordDecl.Build 10 (sample_tag Itanium_context "Both") false clang.TTK_Struct
    [int_member "m"]
    {| clang.ASTRecordLayout.getSize := 24;
       clang.ASTRecordLayout.getDataSize := 24;
       clang.ASTRecordLayout.getAlignment := 8;
       clang.ASTRecordLayout.getPrimaryBase := Some 7%nat;
       clang.ASTRecordLayout.getBaseClassOffset :=
         fun id => if Nat.eqb id 8 then 8 else 0;
       clang.ASTRecordLayout.getVBaseClassOffset := fun _ => 20;
       clang.ASTRecordLayout.FieldOffsets := [128] |}
    (Some Both_class).

(** [enum class Color : unsigned char { Red = 0, Green = 1 };] *)
Definition Color_decl (ctx : clang.ASTContext.t) : clang.EnumDecl.t :=
  {| clang.EnumDecl.asTagDecl := sample_tag ctx "Color";
     clang.EnumDecl.isScoped := true;
     clang.EnumDecl.getName := "Color";
     clang.EnumDecl.getIntegerType := named_type "unsigned char";
     clang.EnumDecl.getIntegerTypeSizeInChars := 1;
     clang.EnumDecl.enumerators :=
       [ {| clang.EnumConstantDecl.getNameAsString := "Red";
            clang.EnumConstantDecl.getInitVal := 0 |};
         {| clang.EnumConstantDecl.getNameAsString := "Green";
            clang.EnumConstantDecl.getInitVal := 1 |} ] |}.

Definition inlining_on : ParseConfig.t := {| ParseConfig.inline_empty_structs := true |}.
Definition inlining_off : ParseConfig.t := {| ParseConfig.inline_empty_structs := false |}.

Definition empty_result : ParseResult.t :=
  {| ParseResult.error := ""; ParseResult.enums := []; ParseResult.records := [] |}.

(** One translation unit with the given declarations, parsed without
    failure. *)
Definition one_unit (ctx : clang.ASTContext.t) (decls : list clang.Decl) : clang.ClangTool.t :=
  {| clang.ClangTool.units :=
       [ {| clang.TranslationUnit.Ctx := ctx; clang.TranslationUnit.decls := decls |} ];
     clang.ClangTool.run := 0 |}.

(** Scenario 2 of the specification. *)
Definition scenario2 : clang.ClangTool.t :=
  one_unit Itanium_context
    [clang.VisitedRecordDecl (Some Empty_decl); clang.VisitedRecordDecl (Some Derived_decl)].

(** The class part of [Poly]. *)
Definition Poly_class : clang.CXXRecordDecl.t clang.RecordDecl.t :=
  sample_class true true Poly_vtable.

(** An enum under a Microsoft-family target. *)
Definition Microsoft_unit : clang.TranslationUnit.t :=
  {| clang.TranslationUnit.Ctx := Microsoft_context;
     clang.TranslationUnit.decls :=
       [clang.VisitedEnumDecl (Some (Color_decl Microsoft_context))] |}.

(** [struct VB : virtual V { int m; };] on a 64-bit target.  [VB] has no
    virtual function, so it is not polymorphic, but it is dynamic: it has a
    virtual base, and its vtable holds the offset of that base.  The vtable
    pointer is at offset 0, [m] at offset 8 and [V] at offset 12. *)
Definition VB_vtable : clang.VTableLayout.t :=
  {| clang.VTableLayout.vtable_components :=
       [ clang.VTableComponent.VBaseOffset 12;
         clang.VTableComponent.OffsetToTop 0;
         clang.VTableComponent.RTTI (named_type "VB") ];
     clang.VTableLayout.vtable_thunks := [] |}.

Definition VB_class : clang.CXXRecordDecl.t clang.RecordDecl.t :=
  {| clang.CXXRecordDecl.isDynamicClass := true;
     clang.CXXRecordDecl.bases :=
       [ {| clang.CXXBaseSpecifier.isVirtual := true;
            clang.CXXBaseSpecifier.getAsCXXRecordDecl := V_decl |} ];
     clang.CXXRecordDecl.vbases :=
       [ {| clang.CXXBaseSpecifier.isVirtual := true;
            clang.CXXBaseSpecifier.getAsCXXRecordDecl := V_decl |} ];
     clang.CXXRecordDecl.hasDirectFields := true;
     clang.CXXRecordDecl.getVTableLayout := VB_vtable |}.

Definition VB_decl : clang.RecordDecl.t :=
  clang.RecordDecl.Build 13 (sample_tag Itanium_context "VB") false clang.TTK_Struct
    [int_member "m"]
    {| clang.ASTRecordLayout.getSize := 16;
       clang.ASTRecordLayout.getDataSize := 16;
       clang.ASTRecordLayout.getAlignment := 8;
       clang.ASTRecordLayout.getPrimaryBase := None;
       clang.ASTRecordLayout.getBaseClassOffset := fun _ => 0;
       clang.ASTRecordLayout.getVBaseClassOffset := fun _ => 12;
       clang.ASTRecordLayout.FieldOffsets := [64] |}
    (Some VB_class).

(** [struct VE : virtual Empty { int m; };] on a 64-bit target: the
    vtable pointer at offset 0, [m] at offset 8, and the empty virtual base
    at offset 0. *)
Definition VE_vtable : clang.VTableLayout.t :=
  {| clang.VTableLayout.vtable_components :=
       [ clang.VTableComponent.VBaseOffset 0;
         clang.VTableComponent.OffsetToTop 0;
         clang.VTableComponent.RTTI (named_type "VE") ];
     clang.VTableLayout.vtable_thunks := [] |}.

Definition VE_class : clang.CXXRecordDecl.t clang.RecordDecl.t :=
  {| clang.CXXRecordDecl.isDynamicClass := true;
     clang.CXXRecordDecl.bases :=
       [ {| clang.CXXBaseSpecifier.isVirtual := true;
            clang.CXXBaseSpecifier.getAsCXXRecordDecl := Empty_decl |} ];
     clang.CXXRecordDecl.vbases :=
       [ {| clang.CXXBaseSpecifier.isVirtual := true;
            clang.CXXBaseSpecifier.getAsCXXRecordDecl := Empty_decl |} ];
     clang.CXXRecordDecl.hasDirectFields := true;
     clang.CXXRecordDecl.getVTableLayout := VE_vtable |}.

Definition VE_decl : clang.RecordDecl.t :=
  clang.RecordDecl.Build 15 (sample_tag Itanium_context "VE") false clang.TTK_Struct
    [int_member "m"]
    {| clang.ASTRecordLayout.getSize := 16;
       clang.ASTRecordLayout.getDataSize := 12;
       clang.ASTRecordLayout.getAlignment := 8;
       clang.ASTRecordLayout.getPrimaryBase := None;
       clang.ASTRecordLayout.getBaseClassOffset := fun _ => 0;
       clang.ASTRecordLayout.getVBaseClassOffset := fun _ => 0;
       clang.ASTRecordLayout.FieldOffsets := [64] |}
    (Some VE_class).

(** ** Further vocabulary *)

(** Number of nodes of a [ComplexType]. *)
Fixpoint ComplexType_size (t : ComplexType) : nat :=
  match t with
  | ComplexTypeName _ _ _ => 1
  | ComplexTypePointer p => S (ComplexType_size p)
  | ComplexTypeArray e _ => S (ComplexType_size e)
  | ComplexTypeFunction ps r =>
      S (list_sum (List.map ComplexType_size ps) + ComplexType_size r)
  | ComplexTypeMemberPointer c p _ => S (ComplexType_size c + ComplexType_size p)
  | ComplexTypeAtomic v => S (ComplexType_size v)
  end.

(** Induction over [ComplexType], parameter lists through [Forall]. *)
Section ComplexTypeInduction.
Variable P : ComplexType -> Prop.
Hypothesis HName : forall name c v, P (ComplexTypeName name c v).
Hypothesis HPointer : forall p, P p -> P (ComplexTypePointer p).
Hypothesis HArray : forall e k, P e -> P (ComplexTypeArray e k).
Hypothesis HFunction :
  forall ps r, Forall P ps -> P r -> P (ComplexTypeFunction ps r).
Hypothesis HMember :
  forall c p repr, P c -> P p -> P (ComplexTypeMemberPointer c p repr).
Hypothesis HAtomic : forall v, P v -> P (ComplexTypeAtomic v).

Fixpoint ComplexType_induction (t : ComplexType) : P t :=
  match t with
  | ComplexTypeName name c v => HName name c v
  | ComplexTypePointer p => HPointer p (ComplexType_induction p)
  | ComplexTypeArray e k => HArray e k (ComplexType_induction e)
  | ComplexTypeFunction ps r =>
      HFunction ps r
        ((fix params (l : list ComplexType) : Forall P l :=
            match l with
            | [] => @List.Forall_nil _ P
            | x :: l' =>
                @List.Forall_cons _ P x l' (ComplexType_induction x) (params l')
            end) ps)
        (ComplexType_induction r)
  | ComplexTypeMemberPointer c p repr =>
      HMember c p repr (ComplexType_induction c) (ComplexType_induction p)
  | ComplexTypeAtomic v => HAtomic v (ComplexType_induction v)
  end.
End ComplexTypeInduction.

(** [typedef int Int;] and a pointer to it. *)
Definition Int_typedef : QualType :=
  QT false false (TypedefType "Int" (named_type "int")).

(** The names of the enums of a result followed by those of its records. *)
Definition result_names (r : ParseResult.t) : list string :=
  List.map Enum.name (ParseResult.enums r)
  ++ List.map Record_.name (ParseResult.records r).

(** The enumerator written for an enumerator of a declaration. *)
Definition enumerator_of (decl : clang.EnumConstantDecl.t) : Enum.Enumerator :=
  {| Enum.identifier := clang.EnumConstantDecl.getNameAsString decl;
     Enum.value := APSInt_toString (clang.EnumConstantDecl.getInitVal decl) |}.

(** The context with the error of its result replaced. *)
Definition with_error (e : string) (s : ParseContextImpl) : ParseContextImpl :=
  set_result s
    {| ParseResult.error := e;
       ParseResult.enums := ParseResult.enums (m_result s);
       ParseResult.records := ParseResult.records (m_result s) |}.

(** The translation unit is under the Itanium family. *)
Definition unit_is_Itanium (TU : clang.TranslationUnit.t) : bool :=
  clang.ASTContext.isItaniumFamily (clang.TranslationUnit.Ctx TU).

(** A tool with the given units and return value of [run]. *)
Definition tool_of (units : list clang.TranslationUnit.t) (run : Z) : clang.ClangTool.t :=
  {| clang.ClangTool.units := units; clang.ClangTool.run := run |}.

(** The names of the result are processed names, and no name occurs
    twice. *)
Definition names_unique (s : ParseContextImpl) : Prop :=
  (forall n, In n (result_names (m_result s)) -> n ∈ m_processed s)
  /\ List.NoDup (result_names (m_result s)).

(** The declaration is not an unnamed bitfield. *)
Definition is_named_member (fd : clang.FieldDecl.t clang.RecordDecl.t) : bool :=
  negb (clang.FieldDecl.isUnnamedBitfield fd).

(** The field is a [Base] with the given virtual flag. *)
Definition is_base_field (is_virtual : bool) (f : Field.t) : bool :=
  match Field.data f with
  | Field.Base _ v _ => Bool.eqb v is_virtual
  | _ => false
  end.

(** The offsets of the [Base] fields of a field list that have the given
    virtual flag, in the order of the list. *)
Definition offsets_of_base_fields (is_virtual : bool) (fields : list Field.t) : list Z :=
  List.map Field.offset (List.filter (is_base_field is_virtual) fields).

(** The kinds that name an operator: all but the two bounds of the
    enumeration. *)
Definition is_operator (k : clang.OverloadedOperatorKind) : bool :=
  match k with
  | clang.OO_None | clang.NUM_OVERLOADED_OPERATORS => false
  | _ => true
  end.

(** The first attribute of that name in a list of attributes. *)
Fixpoint json_attribute (key : string) (attributes : list (string * json)) : option json :=
  match attributes with
  | [] => None
  | (k, v) :: rest => if String.eqb k key then Some v else json_attribute key rest
  end.

(** The printed names of the record definitions among visited
    declarations, in the order of the visits. *)
Definition visited_record_names (decls : list clang.Decl) : list string :=
  flat_map
    (fun d =>
       match d with
       | clang.VisitedRecordDecl (Some D) =>
           [printed_name (clang.RecordDecl.asTagDecl D)]
       | _ => []
       end)
    decls.

(** ** More sample declarations *)

(** [struct Plain { int x; };] of a C unit: a record that is not a
    [CXXRecordDecl]. *)
Definition Plain_decl : clang.RecordDecl.t :=
  clang.RecordDecl.Build 11 (sample_tag Itanium_context "Plain") false clang.TTK_Struct
    [int_member "x"] (sample_layout 4 4 4 [0]) None.

(** [struct Wrap { struct Plain p; int x; };] of a C unit. *)
Definition Wrap_decl : clang.RecordDecl.t :=
  clang.RecordDecl.Build 14 (sample_tag Itanium_context "Wrap") false clang.TTK_Struct
    [record_member "p" Plain_decl; int_member "x"] (sample_layout 8 8 4 [0; 32]) None.

(** [union Either { Empty e; int x; };] *)
Definition Either_decl : clang.RecordDecl.t :=
  clang.RecordDecl.Build 12 (sample_tag Itanium_context "Either") false clang.TTK_Union
    [record_member "e" Empty_decl; int_member "x"] (sample_layout 4 4 4 [0; 0])
    (Some (sample_class false true no_vtable)).

(** A member operator function of the given kind. *)
Definition operator_method (name : string) (kind : clang.OverloadedOperatorKind)
  : clang.CXXMethodDecl.t :=
  {| clang.CXXMethodDecl.getName := "";
     clang.CXXMethodDecl.isOverloadedOperator := true;
     clang.CXXMethodDecl.getOverloadedOperator := kind;
     clang.CXXMethodDecl.ComputeName := name;
     clang.CXXMethodDecl.isPure := false;
     clang.CXXMethodDecl.isConst := false;
     clang.CXXMethodDecl.getType :=
       QT false false (FunctionProtoType [] (named_type "void")) |}.

(** * Properties *)

(** ** Types and their canonical form *)

(** Induction over types: the predicate on [QualType] and the predicate on
    [TypeNode] are proved together. *)
Lemma type_induction (P : QualType -> Prop) (Q : TypeNode -> Prop) :
  (forall c v n, Q n -> P (QT c v n)) ->
  (forall s, Q (BuiltinOrTagType s)) ->
  (forall e k, P e -> Q (ConstantArrayType e k)) ->
  (forall cls p, Q cls -> P p -> Q (MemberPointerType cls p)) ->
  (forall p, P p -> Q (PointerType p)) ->
  (forall p, P p -> Q (ReferenceType p)) ->
  (forall ps r, Forall P ps -> P r -> Q (FunctionProtoType ps r)) ->
  (forall a, P a -> Q (AtomicType a)) ->
  (forall s u, P u -> Q (TypedefType s u)) ->
  (forall t, P t) /\ (forall n, Q n).
Proof.
  intros. split.
  - apply (QualType_induction P Q); assumption.
  - apply (TypeNode_induction P Q); assumption.
Qed.

Lemma withFastQualifiers_size c v t :
  type_size (withFastQualifiers c v t) = type_size t.
Proof. destruct t; reflexivity. Qed.

Lemma withFastQualifiers_node c v t :
  getTypePtr (withFastQualifiers c v t) = getTypePtr t.
Proof. destruct t; reflexivity. Qed.

Lemma type_size_pos t : (1 <= type_size t)%nat.
Proof. destruct t; simpl; lia. Qed.

Lemma list_sum_map_le {A} (f g : A -> nat) l :
  Forall (fun x => (f x <= g x)%nat) l ->
  (list_sum (List.map f l) <= list_sum (List.map g l))%nat.
Proof. induction 1; simpl; lia. Qed.

Lemma list_sum_In {A} (f : A -> nat) l x :
  In x l -> (f x <= list_sum (List.map f l))%nat.
Proof.
  induction l as [|y l IH]; simpl; [tauto|].
  intros [->|H]; [lia|]. specialize (IH H). lia.
Qed.

(** Canonicalisation removes sugar and never adds a node. *)
Lemma getCanonicalType_size_both :
  (forall t, (type_size (getCanonicalType t) <= type_size t)%nat) /\
  (forall n, (type_size (getCanonicalTypeInternal n) <= S (node_size n))%nat).
Proof.
  apply type_induction; simpl; intros.
  - rewrite withFastQualifiers_size. assumption.
  - lia.
  - lia.
  - destruct (getCanonicalTypeInternal cls) as [c' v' n']. simpl in *. lia.
  - lia.
  - lia.
  - rewrite List.map_map.
    assert (list_sum (List.map (fun x => type_size (getCanonicalType x)) ps)
            <= list_sum (List.map type_size ps))%nat
      by (apply list_sum_map_le; assumption).
    lia.
  - lia.
  - lia.
Qed.

Lemma getCanonicalType_size t :
  (type_size (getCanonicalType t) <= type_size t)%nat.
Proof. apply getCanonicalType_size_both. Qed.

(** The canonical type of a canonical type is the type itself. *)
Lemma getCanonicalType_idempotent_both :
  (forall t, getCanonicalType (getCanonicalType t) = getCanonicalType t) /\
  (forall n, getCanonicalType (getCanonicalTypeInternal n)
             = getCanonicalTypeInternal n).
Proof.
  apply type_induction; simpl; intros.
  - destruct (getCanonicalTypeInternal n) as [c' v' n'] eqn:E. simpl in *.
    destruct (getCanonicalTypeInternal n') as [c2 v2 n2]. simpl in *.
    injection H as Hc Hv Hn. subst n2.
    f_equal.
    + rewrite <- Hc at 2. destruct c, c', c2; reflexivity.
    + rewrite <- Hv at 2. destruct v, v', v2; reflexivity.
  - reflexivity.
  - rewrite H. reflexivity.
  - rewrite H0.
    destruct (getCanonicalTypeInternal cls) as [c' v' n'] eqn:E. simpl in *.
    destruct (getCanonicalTypeInternal n') as [c2 v2 n2]. simpl in *.
    injection H as _ _ Hn. subst n2. reflexivity.
  - rewrite H. reflexivity.
  - rewrite H. reflexivity.
  - rewrite H0. do 2 f_equal.
    rewrite List.map_map. apply List.map_ext_in.
    intros x Hx. rewrite List.Forall_forall in H. apply H. assumption.
  - rewrite H. reflexivity.
  - assumption.
Qed.

Lemma getCanonicalType_idempotent t :
  getCanonicalType (getCanonicalType t) = getCanonicalType t.
Proof. apply getCanonicalType_idempotent_both. Qed.

(** ** TranslateToComplexType *)

(** Any fuel that covers the canonical type gives the same translation. *)
Lemma TranslateToComplexType_fuel_enough :
  forall n m type,
    (type_size (getCanonicalType type) <= n)%nat ->
    (type_size (getCanonicalType type) <= m)%nat ->
    TranslateToComplexType_fuel n type = TranslateToComplexType_fuel m type.
Proof.
  assert (Hle : forall t k, (type_size t <= k)%nat ->
                            (type_size (getCanonicalType t) <= k)%nat).
  { intros t k H. pose proof (getCanonicalType_size t). lia. }
  induction n as [|n IH]; intros m type Hn Hm.
  - pose proof (type_size_pos (getCanonicalType type)). lia.
  - destruct m as [|m]; [pose proof (type_size_pos (getCanonicalType type)); lia|].
    cbn [TranslateToComplexType_fuel].
    destruct (getCanonicalType type) as [c v node].
    destruct node; cbn in *.
    + reflexivity.
    + f_equal. apply IH; apply Hle; rewrite withFastQualifiers_size; lia.
    + pose proof (proj2 getCanonicalType_size_both node).
      f_equal; apply IH; apply Hle; lia.
    + f_equal. apply IH; apply Hle; lia.
    + f_equal. apply IH; apply Hle; lia.
    + f_equal.
      * apply List.map_ext_in. intros x Hx.
        pose proof (list_sum_In type_size _ _ Hx).
        apply IH; apply Hle; lia.
      * apply IH; apply Hle; lia.
    + f_equal. apply IH; apply Hle; lia.
    + reflexivity.
Qed.

Lemma TranslateToComplexType_fuel_eq n type :
  (type_size type <= n)%nat ->
  TranslateToComplexType_fuel n type = TranslateToComplexType type.
Proof.
  intros H. unfold TranslateToComplexType.
  pose proof (getCanonicalType_size type).
  apply TranslateToComplexType_fuel_enough; lia.
Qed.

(** The translation of a type is that of its canonical type. *)
Lemma TranslateToComplexType_canonical type :
  TranslateToComplexType (getCanonicalType type) = TranslateToComplexType type.
Proof.
  unfold TranslateToComplexType.
  pose proof (getCanonicalType_size type) as Hc.
  pose proof (type_size_pos (getCanonicalType type)) as Hp.
  destruct (type_size (getCanonicalType type)) as [|k] eqn:Ek; [lia|].
  destruct (type_size type) as [|k'] eqn:Ek'; [lia|].
  cbn [TranslateToComplexType_fuel].
  rewrite getCanonicalType_idempotent.
  change (TranslateToComplexType_fuel (S k) type
          = TranslateToComplexType_fuel (S k') type).
  apply TranslateToComplexType_fuel_enough; lia.
Qed.

(** The equation of the source: one step of the function, with the
    recursive calls being the function itself. *)
Lemma TranslateToComplexType_unfold type :
  TranslateToComplexType type =
    let type := getCanonicalType type in
    match getAsConstantArrayType type with
    | Some (element, size) => ComplexTypeArray (TranslateToComplexType element) size
    | None =>
    match getAsMemberPointerType type with
    | Some (cls, pointee) =>
        ComplexTypeMemberPointer
          (TranslateToComplexType (getCanonicalTypeInternal cls))
          (TranslateToComplexType pointee)
          (getAsString type)
    | None =>
    match getAsPointerType type with
    | Some pointee => ComplexTypePointer (TranslateToComplexType pointee)
    | None =>
    match getAsReferenceType type with
    | Some pointee => ComplexTypePointer (TranslateToComplexType pointee)
    | None =>
    match getAsFunctionProtoType type with
    | Some (param_types, return_type) =>
        ComplexTypeFunction (List.map TranslateToComplexType param_types)
                            (TranslateToComplexType return_type)
    | None =>
    match getAsAtomicType type with
    | Some value => ComplexTypeAtomic (TranslateToComplexType value)
    | None =>
        ComplexTypeName (getAsString (removeLocalFastQualifiers type))
                        (isConstQualified type) (isVolatileQualified type)
    end end end end end end.
Proof.
  unfold TranslateToComplexType at 1.
  pose proof (getCanonicalType_size type) as Hc.
  destruct (type_size type) as [|k] eqn:Ek;
    [pose proof (type_size_pos type); lia|].
  cbn [TranslateToComplexType_fuel]. cbv zeta.
  destruct (getCanonicalType type) as [c v node].
  destruct node; cbn in *.
  - reflexivity.
  - f_equal. apply TranslateToComplexType_fuel_eq.
    rewrite withFastQualifiers_size. lia.
  - pose proof (proj2 getCanonicalType_size_both node).
    f_equal; apply TranslateToComplexType_fuel_eq; lia.
  - f_equal. apply TranslateToComplexType_fuel_eq. lia.
  - f_equal. apply TranslateToComplexType_fuel_eq. lia.
  - f_equal.
    + apply List.map_ext_in. intros x Hx.
      pose proof (list_sum_In type_size _ _ Hx).
      apply TranslateToComplexType_fuel_eq. lia.
    + apply TranslateToComplexType_fuel_eq. lia.
  - f_equal. apply TranslateToComplexType_fuel_eq. lia.
  - reflexivity.
Qed.

(** C8.  For every type [T] and whatever qualifiers sit on the pointer or
    the reference itself: the translation of [T*] is [Pointer] of the
    translation of [T], and the translation of [T&] is that of [T*]. *)
Theorem C8_pointer_and_reference_fold (T : QualType) (c v c' v' : bool) :
  TranslateToComplexType (QT c v (PointerType T))
    = ComplexTypePointer (TranslateToComplexType T)
  /\ TranslateToComplexType (QT c' v' (ReferenceType T))
    = TranslateToComplexType (QT c v (PointerType T)).
Proof.
  assert (HP : forall a b, TranslateToComplexType (QT a b (PointerType T))
                           = ComplexTypePointer (TranslateToComplexType T)).
  { intros a b. rewrite TranslateToComplexType_unfold. cbn.
    rewrite TranslateToComplexType_canonical. reflexivity. }
  split; [apply HP|].
  rewrite HP. rewrite TranslateToComplexType_unfold. cbn.
  rewrite TranslateToComplexType_canonical. reflexivity.
Qed.

(** ** Vtables *)

Lemma combine_app_same_length {A B} (l1 l2 : list A) (k1 k2 : list B) :
  length l1 = length k1 ->
  combine (l1 ++ l2) (k1 ++ k2) = combine l1 k1 ++ combine l2 k2.
Proof.
  revert k1. induction l1 as [|x l1 IH]; intros [|y k1] H; try discriminate.
  - reflexivity.
  - cbn. f_equal. apply IH. now injection H.
Qed.

Lemma enumerate_app {A} (l1 l2 : list A) :
  enumerate (l1 ++ l2)
  = enumerate l1 ++ combine (seq (length l1) (length l2)) l2.
Proof.
  unfold enumerate. rewrite List.length_app, List.seq_app. cbn.
  rewrite combine_app_same_length; [reflexivity|]. now rewrite List.length_seq.
Qed.

Lemma enumerate_snoc {A} (l : list A) (x : A) :
  enumerate (l ++ [x]) = enumerate l ++ [(length l, x)].
Proof. rewrite enumerate_app. reflexivity. Qed.

(** Every step of the loop appends exactly the image of its component. *)
Lemma ParseVTable_step_image layout vtable idx component :
  ParseVTable_step layout vtable (idx, component)
  = emplace_back_component vtable (component_image layout idx component).
Proof. destruct component; reflexivity. Qed.

Lemma ParseVTable_loop layout components vtable :
  VTable.components
    (fold_left (ParseVTable_step layout) (enumerate components) vtable)
  = VTable.components vtable
    ++ List.map (fun p => component_image layout (fst p) (snd p))
                (enumerate components).
Proof.
  revert vtable.
  induction components as [|c l IH] using rev_ind; intros vtable.
  - cbn. now rewrite List.app_nil_r.
  - rewrite enumerate_snoc, List.fold_left_app, List.map_app. cbn.
    rewrite ParseVTable_step_image. cbn. rewrite IH.
    now rewrite List.app_assoc.
Qed.

Lemma nth_error_enumerate {A} (l : list A) idx x :
  nth_error l idx = Some x -> nth_error (enumerate l) idx = Some (idx, x).
Proof.
  revert idx. induction l as [|y l IH] using rev_ind; intros idx H.
  - destruct idx; discriminate.
  - rewrite enumerate_snoc.
    destruct (Nat.lt_ge_cases idx (length l)) as [Hlt|Hge].
    + rewrite List.nth_error_app1 in H by assumption.
      rewrite List.nth_error_app1
        by (unfold enumerate; rewrite List.length_combine, List.length_seq; lia).
      now apply IH.
    + rewrite List.nth_error_app2 in H by assumption.
      rewrite List.nth_error_app2
        by (unfold enumerate; rewrite List.length_combine, List.length_seq; lia).
      replace (length (enumerate l)) with (length l)
        by (unfold enumerate; rewrite List.length_combine, List.length_seq; lia).
      destruct (idx - length l)%nat as [|k] eqn:E; cbn in *.
      * injection H as ->. f_equal. f_equal. lia.
      * destruct k; discriminate.
Qed.

Lemma length_enumerate {A} (l : list A) : length (enumerate l) = length l.
Proof. unfold enumerate. rewrite List.length_combine, List.length_seq. lia. Qed.

Lemma component_image_tag layout idx component :
  component_tag (component_image layout idx component)
  = folded_tag (clang.VTableComponent.getKind component).
Proof. destruct component; reflexivity. Qed.

(** C5.  When the vtable context is the Itanium one and the class is
    dynamic, [ParseVTable] returns a vtable; its component sequence has the
    length of the oracle's sequence, the component at every index is the
    image of the oracle's component at that index (nothing is reordered,
    dropped or merged, so repeated entries stay), and the alternative of
    each output component is the kind of its source, an unused function
    pointer being an ordinary [FunctionPointer]. *)
Theorem C5_vtable_components_follow_oracle
    (D : clang.RecordDecl.t) (CXXRD : clang.CXXRecordDecl.t clang.RecordDecl.t) :
  clang.ASTContext.hasItaniumVTableContext
    (clang.TagDecl.getASTContext (clang.RecordDecl.asTagDecl D)) = true ->
  clang.CXXRecordDecl.isDynamicClass CXXRD = true ->
  let layout := clang.CXXRecordDecl.getVTableLayout CXXRD in
  let oracle := clang.VTableLayout.vtable_components layout in
  exists vtable,
    ParseVTable D CXXRD = Some vtable
    /\ length (VTable.components vtable) = length oracle
    /\ VTable.components vtable
       = List.map (fun p => component_image layout (fst p) (snd p)) (enumerate oracle)
    /\ forall idx component,
         nth_error oracle idx = Some component ->
         exists out,
           nth_error (VTable.components vtable) idx = Some out
           /\ out = component_image layout idx component
           /\ component_tag out = folded_tag (clang.VTableComponent.getKind component).
Proof.
  intros Hctx Hdyn layout oracle.
  unfold ParseVTable. rewrite Hctx, Hdyn. cbn [negb].
  eexists. split; [reflexivity|].
  fold layout. fold oracle.
  rewrite ParseVTable_loop. cbn [VTable.components List.app].
  split; [|split].
  - now rewrite List.length_map, length_enumerate.
  - reflexivity.
  - intros idx component Hnth.
    exists (component_image layout idx component).
    split; [|split].
    + erewrite List.map_nth_error; [|apply nth_error_enumerate; eassumption].
      reflexivity.
    + reflexivity.
    + apply component_image_tag.
Qed.

(** On a table sorted by index, the search finds exactly the entry of
    the index. *)
Lemma lower_bound_sorted_find (thunks : list (nat * clang.ThunkInfo.t)) idx thunk :
  StronglySorted (fun a b => (fst a < fst b)%nat) thunks ->
  match lower_bound (fun entry key => Nat.ltb (fst entry) key) thunks idx with
  | [] => None
  | entry :: _ => if negb (Nat.eqb (fst entry) idx) then None else Some (snd entry)
  end = Some thunk
  <-> In (idx, thunk) thunks.
Proof.
  induction thunks as [|[i t] rest IH]; intros Hs.
  - cbn. split; [discriminate|tauto].
  - apply StronglySorted_inv in Hs as [Hrest Hall].
    rewrite List.Forall_forall in Hall.
    cbn [lower_bound fst].
    destruct (Nat.ltb_spec i idx) as [Hlt|Hge].
    + etransitivity; [apply (IH Hrest)|].
      split; [now right|].
      intros [H|H]; [injection H as -> _; lia|assumption].
    + cbn [fst snd]. destruct (Nat.eqb_spec i idx) as [->|Hne]; cbn [negb].
      * split.
        -- intros H. injection H as ->. now left.
        -- intros [H|H]; [now injection H as ->|].
           apply Hall in H. cbn in H. lia.
      * split; [discriminate|].
        intros [H|H]; [injection H as -> _; congruence|].
        apply Hall in H. cbn in H. lia.
Qed.

Lemma GetThunkInfo_iff layout idx thunk :
  thunks_sorted layout ->
  GetThunkInfo layout idx = Some thunk
  <-> In (idx, thunk) (clang.VTableLayout.vtable_thunks layout).
Proof. intros Hs. apply lower_bound_sorted_find, Hs. Qed.

Lemma thunk_applies_Some thunk t :
  thunk_applies thunk = Some t
  <-> thunk = Some t /\ clang.ThunkInfo.isEmpty t = false.
Proof.
  unfold thunk_applies. destruct thunk as [t'|]; [|split; [discriminate|intros [? _]; discriminate]].
  destruct (clang.ThunkInfo.isEmpty t') eqn:E; cbn.
  - split; [discriminate|]. intros [H1 H2]. injection H1 as ->. congruence.
  - split.
    + intros H. injection H as ->. auto.
    + intros [H _]. assumption.
Qed.

(** What [ParseVTable_entry] stores about thunks. *)
Lemma ParseVTable_entry_thunk layout idx kind func :
  let e := ParseVTable_entry layout idx kind func in
  match thunk_applies (GetThunkInfo layout idx) with
  | Some thunk => VTableComponent.is_thunk e = true /\ adjustments_from thunk e
  | None =>
      VTableComponent.is_thunk e = false
      /\ VTableComponent.return_adjustment e = 0
      /\ VTableComponent.return_adjustment_vbase_offset_offset e = 0
      /\ VTableComponent.this_adjustment e = 0
      /\ VTableComponent.this_adjustment_vcall_offset_offset e = 0
  end.
Proof.
  unfold ParseVTable_entry.
  destruct (thunk_applies (GetThunkInfo layout idx)) as [thunk|]; cbn.
  - split; [reflexivity|]. unfold adjustments_from. cbn.
    destruct (clang.ReturnAdjustment.isEmpty (clang.ThunkInfo.Return thunk));
      destruct (clang.ThisAdjustment.isEmpty (clang.ThunkInfo.This thunk));
      cbn; repeat split; intros; (discriminate || reflexivity).
  - repeat split.
Qed.

Lemma ParseVTable_Some D CXXRD vtable :
  ParseVTable D CXXRD = Some vtable ->
  let layout := clang.CXXRecordDecl.getVTableLayout CXXRD in
  VTable.components vtable
  = List.map (fun p => component_image layout (fst p) (snd p))
             (enumerate (clang.VTableLayout.vtable_components layout)).
Proof.
  unfold ParseVTable.
  destruct (negb _); [discriminate|].
  destruct (negb _); [discriminate|].
  intros H. injection H as <-. cbn zeta.
  now rewrite ParseVTable_loop.
Qed.

Lemma nth_error_enumerate_inv {A} (l : list A) idx p :
  nth_error (enumerate l) idx = Some p ->
  exists x, p = (idx, x) /\ nth_error l idx = Some x.
Proof.
  intros H.
  assert (Hlt : (idx < length l)%nat).
  { rewrite <- (length_enumerate l). apply List.nth_error_Some. congruence. }
  destruct (nth_error l idx) as [x|] eqn:E.
  - exists x. split; [|reflexivity].
    apply nth_error_enumerate in E. congruence.
  - apply List.nth_error_None in E. lia.
Qed.

Lemma function_entry_image layout idx component e :
  function_entry (component_image layout idx component) = Some e ->
  exists kind func, e = ParseVTable_entry layout idx kind func.
Proof.
  destruct component; cbn; intros H; try discriminate;
    injection H as <-; eauto.
Qed.

Lemma isEmpty_Itanium thunk :
  clang.ThunkInfo.Method thunk = None ->
  clang.ThunkInfo.isEmpty thunk = negb (has_adjustment thunk).
Proof.
  intros H. unfold clang.ThunkInfo.isEmpty, has_adjustment. rewrite H.
  destruct (clang.ThisAdjustment.isEmpty _), (clang.ReturnAdjustment.isEmpty _);
    reflexivity.
Qed.

(** C6.  In a vtable built by [ParseVTable] over a thunk table of the
    Itanium ABI, sorted by index, a component carrying a function pointer
    has [is_thunk] set exactly when the table holds, at the index of the
    component, a thunk with a non-empty adjustment; when it is set, each
    adjustment pair that is present in that thunk is copied and each pair
    that is empty leaves its two fields at zero, and when it is not set all
    four fields are zero. *)
Theorem C6_thunk_attribution
    (D : clang.RecordDecl.t) (CXXRD : clang.CXXRecordDecl.t clang.RecordDecl.t)
    (vtable : VTable.t) (idx : nat) (out : VTableComponent.t)
    (e : VTableComponent.FunctionPointer) :
  ParseVTable D CXXRD = Some vtable ->
  thunks_sorted (clang.CXXRecordDecl.getVTableLayout CXXRD) ->
  Itanium_thunks (clang.CXXRecordDecl.getVTableLayout CXXRD) ->
  nth_error (VTable.components vtable) idx = Some out ->
  function_entry out = Some e ->
  let layout := clang.CXXRecordDecl.getVTableLayout CXXRD in
  (VTableComponent.is_thunk e = true <-> has_thunk_at layout idx)
  /\ (forall thunk,
        In (idx, thunk) (clang.VTableLayout.vtable_thunks layout) ->
        VTableComponent.is_thunk e = true ->
        adjustments_from thunk e)
  /\ (VTableComponent.is_thunk e = false ->
        VTableComponent.return_adjustment e = 0
        /\ VTableComponent.return_adjustment_vbase_offset_offset e = 0
        /\ VTableComponent.this_adjustment e = 0
        /\ VTableComponent.this_adjustment_vcall_offset_offset e = 0).
Proof.
  intros HP Hs HI Hnth He layout.
  assert (Hempty : forall t,
             In (idx, t) (clang.VTableLayout.vtable_thunks layout) ->
             clang.ThunkInfo.isEmpty t = negb (has_adjustment t)).
  { intros t Hin. apply isEmpty_Itanium.
    unfold Itanium_thunks in HI. rewrite List.Forall_forall in HI.
    apply (HI _ Hin). }
  apply ParseVTable_Some in HP. cbn zeta in HP. fold layout in HP.
  rewrite HP in Hnth.
  rewrite List.nth_error_map in Hnth.
  destruct (nth_error (enumerate _) idx) as [p|] eqn:Ep; [|discriminate].
  cbn in Hnth. injection Hnth as <-.
  apply nth_error_enumerate_inv in Ep as (component & -> & _). cbn [fst snd] in He.
  apply function_entry_image in He as (kind & func & ->).
  pose proof (ParseVTable_entry_thunk layout idx kind func) as HT. cbn zeta in HT.
  destruct (thunk_applies (GetThunkInfo layout idx)) as [t|] eqn:Et.
  - destruct HT as [Hthunk Hadj].
    apply thunk_applies_Some in Et as [Hget Hne].
    apply GetThunkInfo_iff in Hget; [|assumption].
    split; [|split].
    + split; [|auto]. intros _. exists t. split; [assumption|].
      rewrite (Hempty _ Hget) in Hne. now apply negb_false_iff in Hne.
    + intros thunk Hin _.
      apply GetThunkInfo_iff in Hin; [|assumption].
      apply GetThunkInfo_iff in Hget; [|assumption].
      fold layout in Hin, Hget. congruence.
    + intros H. congruence.
  - destruct HT as (Hthunk & Hzero).
    split; [|split].
    + split; [congruence|].
      intros (t & Hin & Hne).
      assert (clang.ThunkInfo.isEmpty t = false)
        by (rewrite (Hempty _ Hin), Hne; reflexivity).
      apply GetThunkInfo_iff in Hin; [|assumption].
      assert (thunk_applies (GetThunkInfo layout idx) = Some t)
        by (apply thunk_applies_Some; auto).
      congruence.
    + intros thunk _ H. congruence.
    + intros _. assumption.
Qed.

(** ** Stable sorting *)

Section StableSort.
Context {A : Type} (key : A -> Z).

Lemma stable_insert_perm x l :
  Permutation (x :: l) (stable_insert (fun L R => key L <? key R) x l).
Proof.
  induction l as [|y l IH]; cbn; [reflexivity|].
  destruct (key y <? key x); [|reflexivity].
  etransitivity; [apply perm_swap|]. now apply perm_skip.
Qed.

Lemma stable_sort_perm l : Permutation l (stable_sort (fun L R => key L <? key R) l).
Proof.
  induction l as [|x l IH]; cbn; [reflexivity|].
  etransitivity; [apply perm_skip, IH|]. apply stable_insert_perm.
Qed.

Lemma stable_insert_sorted x l :
  StronglySorted (fun a b => key a <= key b) l ->
  StronglySorted (fun a b => key a <= key b) (stable_insert (fun L R => key L <? key R) x l).
Proof.
  induction 1 as [|y l Hs IH Hall]; cbn.
  - constructor; constructor.
  - destruct (Z.ltb_spec (key y) (key x)) as [Hlt|Hge].
    + constructor; [assumption|].
      rewrite List.Forall_forall in *. intros z Hz.
      apply (Permutation_in _ (Permutation_sym (stable_insert_perm x l))) in Hz.
      destruct Hz as [<-|Hz]; [lia|auto].
    + constructor; [now constructor|].
      constructor; [assumption|].
      rewrite List.Forall_forall in *. intros z Hz. specialize (Hall z Hz). lia.
Qed.

Lemma stable_sort_sorted l :
  StronglySorted (fun a b => key a <= key b) (stable_sort (fun L R => key L <? key R) l).
Proof.
  induction l as [|x l IH]; cbn; [constructor|].
  now apply stable_insert_sorted.
Qed.

Lemma stable_insert_filter k x l :
  List.filter (fun a => key a =? k) (stable_insert (fun L R => key L <? key R) x l)
  = List.filter (fun a => key a =? k) (x :: l).
Proof.
  induction l as [|y l IH]; [reflexivity|].
  cbn [stable_insert].
  destruct (Z.ltb_spec (key y) (key x)) as [Hlt|Hge]; [|reflexivity].
  cbn [List.filter] in *. rewrite IH.
  destruct (Z.eqb_spec (key x) k) as [Hx|Hx];
    destruct (Z.eqb_spec (key y) k) as [Hy|Hy]; try reflexivity.
  lia.
Qed.

Lemma stable_sort_filter k l :
  List.filter (fun a => key a =? k) (stable_sort (fun L R => key L <? key R) l)
  = List.filter (fun a => key a =? k) l.
Proof.
  induction l as [|x l IH]; [reflexivity|].
  cbn [stable_sort]. rewrite stable_insert_filter.
  cbn [List.filter]. now rewrite IH.
Qed.

(** [stable_sort] computes the stable sort by ascending key. *)
Lemma stable_sort_is_stable_sort l :
  is_stable_sort_by key l (stable_sort (fun L R => key L <? key R) l).
Proof.
  split; [apply stable_sort_perm|].
  split; [apply stable_sort_sorted|].
  intros k. apply stable_sort_filter.
Qed.
End StableSort.

Section SortAndFilter.
Context {A : Type} (key : A -> Z) (keep : A -> bool).

Lemma stable_insert_head x l :
  match l with [] => True | y :: _ => key x <= key y end ->
  stable_insert (fun L R => key L <? key R) x l = x :: l.
Proof.
  destruct l as [|y l]; cbn; [reflexivity|]. intros H.
  destruct (Z.ltb_spec (key y) (key x)); [lia|reflexivity].
Qed.

Lemma stable_insert_filter_sorted x l :
  StronglySorted (fun a b => key a <= key b) l ->
  List.filter keep (stable_insert (fun L R => key L <? key R) x l)
  = if keep x
    then stable_insert (fun L R => key L <? key R) x (List.filter keep l)
    else List.filter keep l.
Proof.
  induction 1 as [|y l Hs IH Hall]; cbn [stable_insert List.filter].
  - destruct (keep x); reflexivity.
  - destruct (Z.ltb_spec (key y) (key x)) as [Hlt|Hge]; cbn [List.filter].
    + rewrite IH. destruct (keep x), (keep y); try reflexivity.
      cbn [stable_insert].
      destruct (Z.ltb_spec (key y) (key x)); [reflexivity|lia].
    + destruct (keep x); [|reflexivity].
      symmetry. apply stable_insert_head.
      destruct (keep y); [assumption|].
      destruct (List.filter keep l) as [|z k] eqn:E; [exact I|].
      assert (Hz : In z (List.filter keep l)) by (rewrite E; now left).
      apply List.filter_In in Hz as [Hz _].
      rewrite List.Forall_forall in Hall. specialize (Hall z Hz). lia.
Qed.

(** Dropping elements before or after a stable sort gives the same
    list. *)
Lemma stable_sort_filter_commute l :
  List.filter keep (stable_sort (fun L R => key L <? key R) l)
  = stable_sort (fun L R => key L <? key R) (List.filter keep l).
Proof.
  induction l as [|x l IH]; [reflexivity|].
  cbn [stable_sort List.filter].
  rewrite stable_insert_filter_sorted by apply stable_sort_sorted.
  rewrite IH. destruct (keep x); reflexivity.
Qed.
End SortAndFilter.

(** ** Fields *)

Lemma ShouldInlineEmptyRecord_config self D :
  ShouldInlineEmptyRecord self D = inlined (m_config self) D.
Proof.
  unfold ShouldInlineEmptyRecord, inlined.
  destruct (ParseConfig.inline_empty_structs (m_config self)); cbn; [|reflexivity].
  destruct (_ =? 0); reflexivity.
Qed.

Lemma append_fields_nil record : append_fields record [] = record.
Proof. destruct record; unfold append_fields; cbn. now rewrite List.app_nil_r. Qed.

Lemma append_fields_app record l1 l2 :
  append_fields (append_fields record l1) l2 = append_fields record (l1 ++ l2).
Proof. unfold append_fields; cbn. now rewrite List.app_assoc. Qed.

Lemma emplace_back_field_append record field :
  emplace_back_field record field = append_fields record [field].
Proof. reflexivity. Qed.

Lemma add_base_fields_eq self record base_offset offset_of primary is_virtual bases :
  add_base_fields self record base_offset offset_of primary is_virtual bases
  = append_fields record
      (List.map (base_field base_offset offset_of primary is_virtual)
                (kept_bases (m_config self) bases)).
Proof.
  unfold add_base_fields, kept_bases. revert record.
  induction bases as [|b bases IH]; intros record; cbn [fold_left List.filter List.map].
  - now rewrite append_fields_nil.
  - rewrite ShouldInlineEmptyRecord_config.
    destruct (inlined (m_config self) b); cbn [negb].
    + apply IH.
    + rewrite IH, emplace_back_field_append, append_fields_app. reflexivity.
Qed.

(** The loops that collect the bases into a vector. *)
Lemma collect_nonvirtual_bases
    (specifiers : list (clang.CXXBaseSpecifier.t clang.RecordDecl.t)) :
  forall bases,
    fold_left
      (fun bases base =>
         if negb (clang.CXXBaseSpecifier.isVirtual base)
         then push_back bases (clang.CXXBaseSpecifier.getAsCXXRecordDecl base)
         else bases)
      specifiers bases
    = bases
      ++ List.map clang.CXXBaseSpecifier.getAsCXXRecordDecl
           (List.filter (fun base => negb (clang.CXXBaseSpecifier.isVirtual base))
                        specifiers).
Proof.
  induction specifiers as [|b specifiers IH]; intros bases; cbn [fold_left List.filter].
  - now rewrite List.app_nil_r.
  - rewrite IH. destruct (negb (clang.CXXBaseSpecifier.isVirtual b)); [|reflexivity].
    unfold push_back. cbn [List.map]. now rewrite <- List.app_assoc.
Qed.

Lemma collect_virtual_bases
    (specifiers : list (clang.CXXBaseSpecifier.t clang.RecordDecl.t)) :
  forall vbases,
    fold_left
      (fun vbases specifier =>
         let base := clang.CXXBaseSpecifier.getAsCXXRecordDecl specifier in
         push_back vbases base)
      specifiers vbases
    = vbases ++ List.map clang.CXXBaseSpecifier.getAsCXXRecordDecl specifiers.
Proof.
  induction specifiers as [|b specifiers IH]; intros vbases; cbn [fold_left List.map].
  - now rewrite List.app_nil_r.
  - rewrite IH. unfold push_back. now rewrite <- List.app_assoc.
Qed.

Lemma AddBases_eq self record base_offset D layout :
  AddBases self record base_offset (clang.RecordDecl.dyn_cast_CXXRecordDecl D) layout
  = append_fields record
      (vtable_pointer_fields D layout base_offset
       ++ List.map
            (base_field base_offset (clang.ASTRecordLayout.getBaseClassOffset layout)
                        (clang.ASTRecordLayout.getPrimaryBase layout) false)
            (kept_bases (m_config self)
               (stable_sort
                  (fun L R =>
                     clang.ASTRecordLayout.getBaseClassOffset layout
                       (clang.RecordDecl.decl_id L)
                     <? clang.ASTRecordLayout.getBaseClassOffset layout
                          (clang.RecordDecl.decl_id R))
                  (nonvirtual_bases D)))).
Proof.
  unfold AddBases, vtable_pointer_fields, has_vtable_pointer, nonvirtual_bases.
  destruct (clang.RecordDecl.dyn_cast_CXXRecordDecl D) as [CXXRD|].
  - cbv zeta. rewrite collect_nonvirtual_bases, add_base_fields_eq. cbn [List.app].
    destruct (clang.CXXRecordDecl.isDynamicClass CXXRD && _).
    + rewrite emplace_back_field_append, append_fields_app. reflexivity.
    + reflexivity.
  - cbn. now rewrite append_fields_nil.
Qed.

Lemma AddVirtualBases_eq self record base_offset D layout :
  AddVirtualBases self record base_offset
    (clang.RecordDecl.dyn_cast_CXXRecordDecl D) layout
  = append_fields record
      (List.map
         (base_field base_offset (clang.ASTRecordLayout.getVBaseClassOffset layout)
                     (clang.ASTRecordLayout.getPrimaryBase layout) true)
         (kept_bases (m_config self)
            (stable_sort
               (fun L R =>
                  clang.ASTRecordLayout.getVBaseClassOffset layout
                    (clang.RecordDecl.decl_id L)
                  <? clang.ASTRecordLayout.getVBaseClassOffset layout
                       (clang.RecordDecl.decl_id R))
               (virtual_bases D)))).
Proof.
  unfold AddVirtualBases, virtual_bases.
  destruct (clang.RecordDecl.dyn_cast_CXXRecordDecl D) as [CXXRD|].
  - cbv zeta. now rewrite collect_virtual_bases, add_base_fields_eq.
  - cbn. now rewrite append_fields_nil.
Qed.

Lemma AddDataMembers_loop self base_offset D layout fds record field_idx :
  fst (fold_left (AddDataMembers_step self base_offset D layout) fds (record, field_idx))
  = append_fields record
      (counted_member_fields (m_config self) D layout base_offset field_idx fds).
Proof.
  revert record field_idx.
  induction fds as [|fd fds IH]; intros record field_idx.
  - cbn. now rewrite append_fields_nil.
  - cbn [fold_left counted_member_fields].
    unfold AddDataMembers_step at 2. unfold member_kept, member_data.
    destruct (clang.FieldDecl.isUnnamedBitfield fd); cbn [negb andb].
    + apply IH.
    + destruct (clang.FieldDecl.getAsRecordDecl fd) as [field_record|].
      * rewrite ShouldInlineEmptyRecord_config.
        destruct (clang.RecordDecl.isUnion D || negb (inlined (m_config self) field_record)).
        -- rewrite IH, emplace_back_field_append, append_fields_app. reflexivity.
        -- rewrite IH. reflexivity.
      * rewrite IH, emplace_back_field_append, append_fields_app. reflexivity.
Qed.

Lemma AddDataMembers_eq self record base_offset D layout :
  AddDataMembers self record base_offset D layout
  = append_fields record
      (counted_member_fields (m_config self) D layout base_offset 0
                             (clang.RecordDecl.fields D)).
Proof. apply AddDataMembers_loop. Qed.

(** The field list that [AddFields] appends, in its four parts. *)
Lemma AddFields_eq self record base_offset D layout :
  AddFields self record base_offset D layout
  = append_fields record
      (vtable_pointer_fields D layout base_offset
       ++ List.map
            (base_field base_offset (clang.ASTRecordLayout.getBaseClassOffset layout)
                        (clang.ASTRecordLayout.getPrimaryBase layout) false)
            (kept_bases (m_config self)
               (stable_sort
                  (fun L R =>
                     clang.ASTRecordLayout.getBaseClassOffset layout
                       (clang.RecordDecl.decl_id L)
                     <? clang.ASTRecordLayout.getBaseClassOffset layout
                          (clang.RecordDecl.decl_id R))
                  (nonvirtual_bases D)))
       ++ counted_member_fields (m_config self) D layout base_offset 0
                                (clang.RecordDecl.fields D)
       ++ List.map
            (base_field base_offset (clang.ASTRecordLayout.getVBaseClassOffset layout)
                        (clang.ASTRecordLayout.getPrimaryBase layout) true)
            (kept_bases (m_config self)
               (stable_sort
                  (fun L R =>
                     clang.ASTRecordLayout.getVBaseClassOffset layout
                       (clang.RecordDecl.decl_id L)
                     <? clang.ASTRecordLayout.getVBaseClassOffset layout
                          (clang.RecordDecl.decl_id R))
                  (virtual_bases D)))).
Proof.
  unfold AddFields. cbv zeta.
  rewrite AddBases_eq, AddDataMembers_eq, AddVirtualBases_eq.
  rewrite !append_fields_app, <- !List.app_assoc. reflexivity.
Qed.

(** ** The registry gate and the handlers *)

Lemma CanProcess_eq self D :
  CanProcess self D =
    match D with
    | Some T =>
        if gate_open T && negb (bool_decide (printed_name T ∈ m_processed self))
        then (true, register self (printed_name T))
        else (false, self)
    | None => (false, self)
    end.
Proof.
  unfold CanProcess, gate_open, register.
  destruct D as [T|]; [|reflexivity].
  destruct (clang.TagDecl.isInvalidDecl T); [reflexivity|].
  destruct (clang.TagDecl.isCompleteDefinition T); [|reflexivity].
  destruct (clang.TagDecl.isTemplated T); [reflexivity|].
  cbn. destruct (bool_decide _); reflexivity.
Qed.

Lemma HandleRecordDecl_eq self D :
  HandleRecordDecl self D =
    match D with
    | Some R =>
        let name := printed_name (clang.RecordDecl.asTagDecl R) in
        if gate_open (clang.RecordDecl.asTagDecl R)
           && negb (bool_decide (name ∈ m_processed self))
        then
          if inlined (m_config self) R then register self name
          else push_record (register self name) (BuildRecord (register self name) R)
        else self
    | None => self
    end.
Proof.
  unfold HandleRecordDecl. rewrite CanProcess_eq.
  destruct D as [R|]; [|reflexivity]. cbn [option_map]. cbv zeta.
  destruct (gate_open _ && _); [|reflexivity]. cbn [negb].
  rewrite ShouldInlineEmptyRecord_config. reflexivity.
Qed.

Lemma HandleEnumDecl_eq self D :
  HandleEnumDecl self D =
    match D with
    | Some E =>
        let name := printed_name (clang.EnumDecl.asTagDecl E) in
        if gate_open (clang.EnumDecl.asTagDecl E)
           && negb (bool_decide (name ∈ m_processed self))
        then HandleEnumDecl self D
        else self
    | None => self
    end.
Proof.
  destruct D as [E|]; [|reflexivity]. cbv zeta.
  destruct (gate_open _ && _) eqn:G; [reflexivity|].
  unfold HandleEnumDecl. rewrite CanProcess_eq. cbn [option_map].
  rewrite G. reflexivity.
Qed.

Lemma HandleEnumDecl_accepted self E :
  gate_open (clang.EnumDecl.asTagDecl E)
  && negb (bool_decide (printed_name (clang.EnumDecl.asTagDecl E) ∈ m_processed self))
  = true ->
  m_processed (HandleEnumDecl self (Some E))
  = {[ printed_name (clang.EnumDecl.asTagDecl E) ]} ∪ m_processed self
  /\ m_config (HandleEnumDecl self (Some E)) = m_config self
  /\ ParseResult.records (m_result (HandleEnumDecl self (Some E)))
     = ParseResult.records (m_result self)
  /\ ParseResult.error (m_result (HandleEnumDecl self (Some E)))
     = ParseResult.error (m_result self).
Proof.
  intros G. unfold HandleEnumDecl. rewrite CanProcess_eq. cbn [option_map].
  rewrite G. cbn. auto.
Qed.

(** A visit of a declaration whose name is registered, or that the gate
    rejects outright, changes nothing. *)
Lemma VisitDecl_rejected self d :
  match decl_tag d with
  | Some T =>
      gate_open T = false \/ printed_name T ∈ m_processed self
  | None => True
  end ->
  VisitDecl self d = self.
Proof.
  destruct d as [[E|]|[R|]|]; cbn; try reflexivity.
  - intros H. rewrite HandleEnumDecl_eq. cbv zeta.
    destruct H as [->|H]; [reflexivity|].
    rewrite bool_decide_eq_true_2 by assumption.
    now rewrite andb_false_r.
  - intros H. rewrite HandleRecordDecl_eq. cbv zeta.
    destruct H as [->|H]; [reflexivity|].
    rewrite bool_decide_eq_true_2 by assumption.
    now rewrite andb_false_r.
Qed.

(** After a visit, the declaration is one that later visits reject. *)
Lemma VisitDecl_registers self d :
  match decl_tag d with
  | Some T =>
      gate_open T = false \/ printed_name T ∈ m_processed (VisitDecl self d)
  | None => True
  end.
Proof.
  destruct d as [[E|]|[R|]|]; cbn; try exact I.
  - destruct (gate_open (clang.EnumDecl.asTagDecl E)) eqn:G; [right|now left].
    destruct (bool_decide (printed_name (clang.EnumDecl.asTagDecl E) ∈ m_processed self)) eqn:B.
    + rewrite HandleEnumDecl_eq. cbv zeta. rewrite G, B. cbn.
      now apply bool_decide_eq_true in B.
    + destruct (HandleEnumDecl_accepted self E) as [-> _]; [now rewrite G, B|].
      set_solver.
  - destruct (gate_open (clang.RecordDecl.asTagDecl R)) eqn:G; [right|now left].
    rewrite HandleRecordDecl_eq. cbv zeta. rewrite G.
    destruct (bool_decide _) eqn:B; cbn.
    + now apply bool_decide_eq_true in B.
    + destruct (inlined _ R); cbn; set_solver.
Qed.

Lemma VisitDecl_processed_mono self d :
  m_processed self ⊆ m_processed (VisitDecl self d).
Proof.
  destruct d as [[E|]|[R|]|]; cbn; try reflexivity.
  - rewrite HandleEnumDecl_eq. cbv zeta.
    destruct (gate_open _ && _) eqn:G; [|reflexivity].
    destruct (HandleEnumDecl_accepted self E G) as [-> _]. set_solver.
  - rewrite HandleRecordDecl_eq. cbv zeta.
    destruct (gate_open _ && _); [|reflexivity].
    destruct (inlined _ R); cbn; set_solver.
Qed.

Lemma VisitDecl_config self d : m_config (VisitDecl self d) = m_config self.
Proof.
  destruct d as [[E|]|[R|]|]; cbn; try reflexivity.
  - rewrite HandleEnumDecl_eq. cbv zeta.
    destruct (gate_open _ && _) eqn:G; [|reflexivity].
    now destruct (HandleEnumDecl_accepted self E G) as (_ & -> & _).
  - rewrite HandleRecordDecl_eq. cbv zeta.
    destruct (gate_open _ && _); [|reflexivity].
    destruct (inlined _ R); reflexivity.
Qed.

Lemma VisitDecl_error self d :
  ParseResult.error (m_result (VisitDecl self d)) = ParseResult.error (m_result self).
Proof.
  destruct d as [[E|]|[R|]|]; cbn; try reflexivity.
  - rewrite HandleEnumDecl_eq. cbv zeta.
    destruct (gate_open _ && _) eqn:G; [|reflexivity].
    now destruct (HandleEnumDecl_accepted self E G) as (_ & _ & _ & ->).
  - rewrite HandleRecordDecl_eq. cbv zeta.
    destruct (gate_open _ && _); [|reflexivity].
    destruct (inlined _ R); reflexivity.
Qed.

(** ** Runs *)

Lemma TraverseAST_cons self d decls :
  TraverseAST self (d :: decls) = TraverseAST (VisitDecl self d) decls.
Proof. reflexivity. Qed.

Lemma TraverseAST_processed_mono decls self :
  m_processed self ⊆ m_processed (TraverseAST self decls).
Proof.
  revert self. induction decls as [|d decls IH]; intros self; [reflexivity|].
  rewrite TraverseAST_cons.
  etransitivity; [apply VisitDecl_processed_mono|apply IH].
Qed.

Lemma TraverseAST_config decls self :
  m_config (TraverseAST self decls) = m_config self.
Proof.
  revert self. induction decls as [|d decls IH]; intros self; [reflexivity|].
  rewrite TraverseAST_cons, IH. apply VisitDecl_config.
Qed.

Lemma TraverseAST_error decls self :
  ParseResult.error (m_result (TraverseAST self decls))
  = ParseResult.error (m_result self).
Proof.
  revert self. induction decls as [|d decls IH]; intros self; [reflexivity|].
  rewrite TraverseAST_cons, IH. apply VisitDecl_error.
Qed.

Lemma later_TraverseAST s decls : later s (TraverseAST s decls).
Proof.
  induction decls as [|d decls IH] using rev_ind; [constructor|].
  unfold TraverseAST. rewrite List.fold_left_app. cbn.
  now constructor.
Qed.

Lemma HandleTranslationUnit_processed_mono self TU :
  m_processed self ⊆ m_processed (HandleTranslationUnit self TU).
Proof.
  unfold HandleTranslationUnit.
  destruct (negb _); [reflexivity|apply TraverseAST_processed_mono].
Qed.

Lemma HandleTranslationUnit_config self TU :
  m_config (HandleTranslationUnit self TU) = m_config self.
Proof.
  unfold HandleTranslationUnit.
  destruct (negb _); [reflexivity|apply TraverseAST_config].
Qed.

Lemma later_processed_mono s s' : later s s' -> m_processed s ⊆ m_processed s'.
Proof.
  induction 1 as [|s' d _ IH|s' TU _ IH]; [reflexivity| |].
  - etransitivity; [exact IH|apply VisitDecl_processed_mono].
  - etransitivity; [exact IH|apply HandleTranslationUnit_processed_mono].
Qed.

Lemma later_config s s' : later s s' -> m_config s' = m_config s.
Proof.
  induction 1 as [|s' d _ IH|s' TU _ IH]; [reflexivity| |].
  - now rewrite VisitDecl_config.
  - now rewrite HandleTranslationUnit_config.
Qed.

Lemma later_trans s1 s2 s3 : later s1 s2 -> later s2 s3 -> later s1 s3.
Proof. intros H12 H23. induction H23; [assumption| |]; now constructor. Qed.

(** Once a traversal has run, running it again from any context that has
    at least its processed names changes nothing. *)
Lemma TraverseAST_settles decls self self' :
  m_processed (TraverseAST self decls) ⊆ m_processed self' ->
  TraverseAST self' decls = self'.
Proof.
  revert self. induction decls as [|d decls IH]; intros self Hsub; [reflexivity|].
  rewrite TraverseAST_cons in *.
  assert (Hd : VisitDecl self' d = self').
  { apply VisitDecl_rejected.
    pose proof (VisitDecl_registers self d) as Hr.
    destruct (decl_tag d) as [T|]; [|exact I].
    destruct Hr as [Hr|Hr]; [now left|right].
    apply Hsub. eapply TraverseAST_processed_mono. exact Hr. }
  rewrite Hd. eapply IH. exact Hsub.
Qed.

Lemma extends_refl a : extends a a.
Proof. split; [reflexivity|auto]. Qed.

Lemma extends_trans a b c : extends a b -> extends b c -> extends a c.
Proof. intros [H1 H2] [H3 H4]. split; [etransitivity; eassumption|auto]. Qed.

Lemma HandleTranslationUnit_extends self TU :
  extends self (HandleTranslationUnit self TU).
Proof.
  split; [apply HandleTranslationUnit_processed_mono|].
  unfold HandleTranslationUnit. destruct (negb _); [reflexivity|].
  now rewrite TraverseAST_error.
Qed.

Lemma units_extend units self :
  extends self (fold_left HandleTranslationUnit units self).
Proof.
  revert self. induction units as [|TU units IH]; intros self; [apply extends_refl|].
  cbn. eapply extends_trans; [apply HandleTranslationUnit_extends|apply IH].
Qed.

Lemma HandleTranslationUnit_settles self self' TU :
  extends (HandleTranslationUnit self TU) self' ->
  HandleTranslationUnit self' TU = self'.
Proof.
  unfold HandleTranslationUnit. intros [Hsub Herr].
  destruct (negb _).
  - cbn in Herr. specialize (Herr eq_refl).
    destruct self' as [[e en rs] c p]. cbn in *. unfold set_result. cbn.
    unfold Itanium_only_message in Herr. now rewrite Herr.
  - eapply TraverseAST_settles. exact Hsub.
Qed.

Lemma units_settle units self self' :
  extends (fold_left HandleTranslationUnit units self) self' ->
  fold_left HandleTranslationUnit units self' = self'.
Proof.
  revert self. induction units as [|TU units IH]; intros self Hext; [reflexivity|].
  cbn in *.
  rewrite (HandleTranslationUnit_settles self self' TU).
  - eapply IH. exact Hext.
  - eapply extends_trans; [apply units_extend|exact Hext].
Qed.

(** C7.  (1) Once a declaration that the gate lets through has been
    visited, every later visit of a declaration with the same printed name,
    at any later point of the run, leaves the whole context as it is:
    enums, records, error and processed names.  (2) Traversing a declaration
    stream a second time with the same context changes nothing, and (3) a
    tool run over the same translation units twice yields the result of the
    run over them once. *)
Theorem C7_first_visit_wins_and_rerun_is_identity :
  (forall self d1 T1 s' d2 T2,
      decl_tag d1 = Some T1 -> gate_open T1 = true ->
      later (VisitDecl self d1) s' ->
      decl_tag d2 = Some T2 -> printed_name T2 = printed_name T1 ->
      VisitDecl s' d2 = s')
  /\ (forall self decls,
        TraverseAST (TraverseAST self decls) decls = TraverseAST self decls)
  /\ (forall units run config,
        ParseRecords {| clang.ClangTool.units := units ++ units;
                        clang.ClangTool.run := run |} config
        = ParseRecords {| clang.ClangTool.units := units;
                          clang.ClangTool.run := run |} config).
Proof.
  split; [|split].
  - intros self d1 T1 s' d2 T2 H1 G1 Hlater H2 Hname.
    apply VisitDecl_rejected. rewrite H2. right. rewrite Hname.
    apply (later_processed_mono _ _ Hlater).
    pose proof (VisitDecl_registers self d1) as Hr. rewrite H1 in Hr.
    destruct Hr as [Hr|Hr]; [congruence|assumption].
  - intros self decls. eapply TraverseAST_settles. reflexivity.
  - intros units run config. unfold ParseRecords. cbn.
    rewrite List.fold_left_app.
    rewrite (units_settle units _ _ (extends_refl _)). reflexivity.
Qed.

(** An invariant kept by every visit and by every assignment to the error
    is kept along the run. *)
Lemma later_invariant (Inv : ParseContextImpl -> Prop) :
  (forall s d, Inv s -> Inv (VisitDecl s d)) ->
  (forall s e, Inv s ->
     Inv (set_result s {| ParseResult.error := e;
                          ParseResult.enums := ParseResult.enums (m_result s);
                          ParseResult.records := ParseResult.records (m_result s) |})) ->
  forall s s', later s s' -> Inv s -> Inv s'.
Proof.
  intros Hvisit Herr s s' Hlater Hs.
  induction Hlater as [|s' d _ IH|s' TU _ IH]; [assumption|now apply Hvisit|].
  unfold HandleTranslationUnit. destruct (negb _); [now apply Herr|].
  unfold TraverseAST.
  generalize (clang.TranslationUnit.decls TU) as decls. revert IH.
  generalize s' as t. intros t Ht decls. revert t Ht.
  induction decls as [|d decls IHd]; intros t Ht; [assumption|].
  cbn. apply IHd. now apply Hvisit.
Qed.

(** Where the records of the result come from. *)
Lemma VisitDecl_records s d r :
  In r (ParseResult.records (m_result (VisitDecl s d))) ->
  In r (ParseResult.records (m_result s))
  \/ exists D,
       d = clang.VisitedRecordDecl (Some D)
       /\ r = BuildRecord (register s (printed_name (clang.RecordDecl.asTagDecl D))) D
       /\ gate_open (clang.RecordDecl.asTagDecl D) = true
       /\ (printed_name (clang.RecordDecl.asTagDecl D) ∉ m_processed s)
       /\ inlined (m_config s) D = false.
Proof.
  destruct d as [[E|]|[R|]|]; cbn; auto.
  - rewrite HandleEnumDecl_eq. cbv zeta.
    destruct (gate_open _ && _) eqn:G; [|auto].
    destruct (HandleEnumDecl_accepted s E G) as (_ & _ & -> & _). auto.
  - rewrite HandleRecordDecl_eq. cbv zeta.
    destruct (gate_open _ && _) eqn:G; [|auto].
    apply andb_true_iff in G as [G B].
    apply negb_true_iff, bool_decide_eq_false in B.
    destruct (inlined (m_config s) R) eqn:I; cbn; [auto|].
    rewrite List.in_app_iff. cbn. intros [H|[<-|[]]]; [auto|].
    right. exists R. auto.
Qed.

Lemma BuildRecord_name self D :
  Record_.name (BuildRecord self D) = printed_name (clang.RecordDecl.asTagDecl D).
Proof.
  unfold BuildRecord. cbv zeta. rewrite AddFields_eq.
  destruct (clang.RecordDecl.dyn_cast_CXXRecordDecl D); reflexivity.
Qed.

Lemma BuildRecord_fields self D :
  Record_.fields (BuildRecord self D) = record_fields (m_config self) D.
Proof.
  unfold BuildRecord. cbv zeta. rewrite AddFields_eq.
  destruct (clang.RecordDecl.dyn_cast_CXXRecordDecl D); reflexivity.
Qed.

Lemma registry_covers_visit s d :
  registry_covers s -> registry_covers (VisitDecl s d).
Proof.
  intros Hc r Hr. apply VisitDecl_records in Hr as [Hr|(D & -> & -> & G & Hn & I)].
  - apply (VisitDecl_processed_mono s d). now apply Hc.
  - rewrite BuildRecord_name. cbn. rewrite HandleRecordDecl_eq. cbv zeta.
    rewrite G, bool_decide_eq_false_2 by assumption. cbn. rewrite I. cbn.
    set_solver.
Qed.

(** C10.  With inlining on, let a record that satisfies the empty-record
    policy be visited in a context whose gate lets it through (the
    declaration is valid, complete, not a template pattern, and its name is
    not registered yet).  Then the visit registers the printed name and
    leaves the result as it was; and at every later point of the run, the
    gate rejects every declaration of the same printed name, and the
    result holds no record of that name. *)
Theorem C10_inlined_name_is_registered
    (self : ParseContextImpl) (D : clang.RecordDecl.t) (s' : ParseContextImpl) :
  let name := printed_name (clang.RecordDecl.asTagDecl D) in
  ParseConfig.inline_empty_structs (m_config self) = true ->
  empty_record_policy D = true ->
  gate_open (clang.RecordDecl.asTagDecl D) = true ->
  name ∉ m_processed self ->
  registry_covers self ->
  later (HandleRecordDecl self (Some D)) s' ->
  name ∈ m_processed (HandleRecordDecl self (Some D))
  /\ m_result (HandleRecordDecl self (Some D)) = m_result self
  /\ (forall T2, printed_name T2 = name -> CanProcess s' (Some T2) = (false, s'))
  /\ (forall r, In r (ParseResult.records (m_result s')) -> Record_.name r <> name).
Proof.
  intros name Hinline Hpolicy G Hfresh Hcover Hlater.
  assert (Hinl : inlined (m_config self) D = true).
  { unfold inlined. rewrite Hinline. cbn.
    unfold empty_record_policy in Hpolicy.
    destruct (_ =? 0); [reflexivity|]. cbn in *.
    destruct (clang.RecordDecl.dyn_cast_CXXRecordDecl D); [assumption|reflexivity]. }
  assert (Hs1 : HandleRecordDecl self (Some D) = register self name).
  { rewrite HandleRecordDecl_eq. cbv zeta. fold name.
    rewrite G, bool_decide_eq_false_2 by assumption. cbn. now rewrite Hinl. }
  rewrite Hs1 in *.
  assert (Hinv : name ∈ m_processed s'
                 /\ forall r, In r (ParseResult.records (m_result s')) ->
                              Record_.name r <> name).
  { apply (later_invariant
             (fun s => name ∈ m_processed s
                       /\ forall r, In r (ParseResult.records (m_result s)) ->
                                    Record_.name r <> name))
      with (s := register self name); [| |assumption|].
    - intros s d [Hin Hno]. split.
      + now apply (VisitDecl_processed_mono s d).
      + intros r Hr.
        apply VisitDecl_records in Hr as [Hr|(R & -> & -> & _ & Hn & _)];
          [now apply Hno|].
        rewrite BuildRecord_name. intros E. apply Hn. now rewrite E.
    - intros s e [Hin Hno]. split; assumption.
    - split; [cbn; set_solver|].
      cbn. intros r Hr E. apply Hfresh. rewrite <- E. now apply Hcover. }
  destruct Hinv as [Hin Hno].
  split; [cbn; set_solver|].
  split; [reflexivity|].
  split; [|assumption].
  intros T2 E. rewrite CanProcess_eq, E.
  rewrite bool_decide_eq_true_2 by assumption.
  now rewrite andb_false_r.
Qed.

(** C2, amended.  Under a non-Itanium ABI family the translation unit is
    not traversed: the error of the result becomes the fixed message, and
    the enums, the records and the processed names stay as they were.  And
    whenever the vtable context is not the Itanium one, [ParseVTable]
    returns the null vtable for every class. *)
Theorem C2_unsupported_abi_stops_the_unit
    (self : ParseContextImpl) (TU : clang.TranslationUnit.t) :
  clang.ASTContext.isItaniumFamily (clang.TranslationUnit.Ctx TU) = false ->
  let s := HandleTranslationUnit self TU in
  ParseResult.error (m_result s) = Itanium_only_message
  /\ ParseResult.enums (m_result s) = ParseResult.enums (m_result self)
  /\ ParseResult.records (m_result s) = ParseResult.records (m_result self)
  /\ m_processed s = m_processed self
  /\ (forall D CXXRD,
        clang.ASTContext.hasItaniumVTableContext
          (clang.TagDecl.getASTContext (clang.RecordDecl.asTagDecl D)) = false ->
        ParseVTable D CXXRD = None).
Proof.
  intros H. unfold HandleTranslationUnit. rewrite H. cbn.
  repeat split.
  intros D CXXRD Hctx. unfold ParseVTable. now rewrite Hctx.
Qed.

(** ** Data members *)

Lemma getFieldOffset_in_range D layout base_offset FieldNo :
  offsets_in_range D layout base_offset ->
  0 <= clang.ASTRecordLayout.getFieldOffset layout FieldNo < 2 ^ 62.
Proof.
  intros (_ & _ & Hall). unfold clang.ASTRecordLayout.getFieldOffset.
  rewrite List.Forall_forall in Hall.
  destruct (List.nth_in_or_default FieldNo (clang.ASTRecordLayout.FieldOffsets layout) 0)
    as [Hin| ->]; [now apply Hall|lia].
Qed.

(** In range, the conversions of the code are the identity: the offset
    read at a slot is [base_offset] plus the bits of the slot, in bytes. *)
Lemma slot_offset_in_range D layout base_offset FieldNo :
  offsets_in_range D layout base_offset ->
  slot_offset D layout base_offset FieldNo = own_offset D layout base_offset FieldNo.
Proof.
  intros Hr. pose proof (getFieldOffset_in_range _ _ _ FieldNo Hr) as Hb.
  destruct Hr as (Hbase & Hcw & _).
  unfold slot_offset, own_offset, clang.ASTContext.toCharUnitsFromBits.
  set (bits := clang.ASTRecordLayout.getFieldOffset layout FieldNo) in *.
  set (cw := clang.ASTContext.getCharWidth _) in *.
  assert (E1 : to_int64 bits = bits).
  { unfold to_int64. rewrite Z.mod_small by lia.
    destruct (Z.ltb_spec bits (2 ^ 63)); lia. }
  rewrite E1.
  assert (E2 : to_uint64 bits = bits) by (unfold to_uint64; apply Z.mod_small; lia).
  rewrite E2.
  assert (Hq : 0 <= bits / cw <= bits).
  { split; [apply Z.div_pos; lia|].
    apply Z.div_le_upper_bound; [lia|]. nia. }
  assert (E3 : to_int64 (bits / cw) = bits / cw).
  { unfold to_int64. rewrite Z.mod_small by lia.
    destruct (Z.ltb_spec (bits / cw) (2 ^ 63)); lia. }
  rewrite E3. unfold to_size_t. apply Z.mod_small. lia.
Qed.

Lemma counted_member_fields_named config D layout base_offset fds :
  offsets_in_range D layout base_offset ->
  Forall (fun fd => clang.FieldDecl.isUnnamedBitfield fd = false) fds ->
  forall field_idx,
    counted_member_fields config D layout base_offset field_idx fds
    = member_fields_at (member_kept config D) D layout base_offset field_idx fds.
Proof.
  intros Hr. induction 1 as [|fd fds Hfd _ IH]; intros field_idx; [reflexivity|].
  cbn [counted_member_fields member_fields_at].
  rewrite Hfd, IH, slot_offset_in_range by assumption. reflexivity.
Qed.

Lemma counted_member_fields_app config D layout base_offset pre post :
  Forall (fun fd => clang.FieldDecl.isUnnamedBitfield fd = false) pre ->
  forall field_idx,
    counted_member_fields config D layout base_offset field_idx (pre ++ post)
    = counted_member_fields config D layout base_offset field_idx pre
      ++ counted_member_fields config D layout base_offset
           (field_idx + length pre) post.
Proof.
  induction 1 as [|fd pre Hfd _ IH]; intros field_idx.
  - cbn. now rewrite Nat.add_0_r.
  - cbn [List.app counted_member_fields length]. rewrite Hfd, IH.
    rewrite <- List.app_assoc. do 2 f_equal. f_equal. lia.
Qed.

(** Whatever the counter, the payloads are those of the kept members, in
    declaration order. *)
Lemma counted_member_fields_data config D layout base_offset fds :
  forall field_idx,
    List.map Field.data
             (counted_member_fields config D layout base_offset field_idx fds)
    = List.map member_data (List.filter (member_kept config D) fds).
Proof.
  induction fds as [|fd fds IH]; intros field_idx; [reflexivity|].
  cbn [counted_member_fields List.filter].
  unfold member_kept at 2.
  destruct (clang.FieldDecl.isUnnamedBitfield fd) eqn:Hu; cbn [negb andb].
  - apply IH.
  - rewrite List.map_app, IH. unfold member_kept at 1. rewrite Hu. cbn [negb andb].
    destruct (match clang.FieldDecl.getAsRecordDecl fd with
              | Some _ => _ | None => true end); reflexivity.
Qed.

(** Let the declarations [pre] that open the field list of the record
    hold no unnamed bitfield, and let the layout offsets be in range.
    [AddDataMembers] appends fields whose payloads are, in declaration
    order, the [MemberVariable] payloads of the members kept (every
    declaration except unnamed bitfields and, outside unions, members whose
    record type is inlined); and the fields of the members of [pre] come
    first, each at [base_offset] plus the member's own layout offset in bits,
    in bytes. *)
Lemma members_in_declaration_order_at_own_offset
    (self : ParseContextImpl) (record : Record_.t) (base_offset : Z)
    (D : clang.RecordDecl.t) (layout : clang.ASTRecordLayout.t)
    (pre post : list (clang.FieldDecl.t clang.RecordDecl.t)) :
  clang.RecordDecl.fields D = pre ++ post ->
  Forall (fun fd => clang.FieldDecl.isUnnamedBitfield fd = false) pre ->
  offsets_in_range D layout base_offset ->
  exists members rest,
    AddDataMembers self record base_offset D layout = append_fields record members
    /\ List.map Field.data members
       = List.map member_data
                  (List.filter (member_kept (m_config self) D) (clang.RecordDecl.fields D))
    /\ members
       = member_fields_at (member_kept (m_config self) D) D layout base_offset 0 pre
         ++ rest.
Proof.
  intros Hsplit Hpre Hr.
  exists (counted_member_fields (m_config self) D layout base_offset 0
                                (clang.RecordDecl.fields D)).
  exists (counted_member_fields (m_config self) D layout base_offset
                                (length pre) post).
  split; [apply AddDataMembers_eq|].
  split; [apply counted_member_fields_data|].
  rewrite Hsplit, counted_member_fields_app by assumption.
  now rewrite counted_member_fields_named by assumption.
Qed.

(** ** Field order *)

Lemma TraverseAST_records decls s r :
  In r (ParseResult.records (m_result (TraverseAST s decls))) ->
  In r (ParseResult.records (m_result s))
  \/ exists D s0,
       In (clang.VisitedRecordDecl (Some D)) decls
       /\ m_config s0 = m_config s
       /\ r = BuildRecord s0 D.
Proof.
  revert s. induction decls as [|d decls IH]; intros s Hr; [now left|].
  rewrite TraverseAST_cons in Hr. apply IH in Hr as [Hr|(D & s0 & Hin & Hc & ->)].
  - apply VisitDecl_records in Hr as [Hr|(D & -> & -> & _)]; [now left|].
    right. exists D. eexists. split; [now left|]. split; [|reflexivity]. reflexivity.
  - right. exists D, s0. split; [now right|].
    split; [|reflexivity]. now rewrite Hc, VisitDecl_config.
Qed.

Lemma units_records units s r :
  In r (ParseResult.records (m_result (fold_left HandleTranslationUnit units s))) ->
  In r (ParseResult.records (m_result s))
  \/ exists TU D s0,
       In TU units
       /\ In (clang.VisitedRecordDecl (Some D)) (clang.TranslationUnit.decls TU)
       /\ m_config s0 = m_config s
       /\ r = BuildRecord s0 D.
Proof.
  revert s. induction units as [|TU units IH]; intros s Hr; [now left|].
  cbn in Hr. apply IH in Hr as [Hr|(TU' & D & s0 & Hin & Hd & Hc & ->)].
  - unfold HandleTranslationUnit in Hr. destruct (negb _); [now left|].
    apply TraverseAST_records in Hr as [Hr|(D & s0 & Hin & Hc & ->)]; [now left|].
    right. exists TU, D, s0. split; [now left|]. auto.
  - right. exists TU', D, s0. split; [now right|].
    split; [assumption|]. split; [|reflexivity].
    now rewrite Hc, HandleTranslationUnit_config.
Qed.

(** Every record of a result was built from the definition of a visited
    record declaration, under the configuration of the run. *)
Lemma ParseRecords_records tool config r :
  In r (ParseResult.records (ParseRecords tool config)) ->
  exists D s0,
    visited_definition tool D /\ m_config s0 = config /\ r = BuildRecord s0 D.
Proof.
  unfold ParseRecords. cbv zeta.
  assert (H : forall res e, ParseResult.records (ParseResult.AddErrorContext res e)
                            = ParseResult.records res) by reflexivity.
  destruct (negb _); [rewrite H|]; intros Hr;
    apply units_records in Hr as [[]|(TU & D & s0 & Hin & Hd & Hc & ->)];
    exists D, s0; (split; [exists TU; auto|]); auto.
Qed.

(** The guard of the vtable pointer, under Clang's definition of a
    dynamic class. *)
Lemma has_vtable_pointer_polymorphic D CXXRD polymorphic :
  clang.RecordDecl.dyn_cast_CXXRecordDecl D = Some CXXRD ->
  Clang_isDynamicClass CXXRD polymorphic ->
  has_vtable_pointer D (clang.RecordDecl.getASTRecordLayout D)
  = opens_with_vtable_pointer polymorphic D.
Proof.
  intros Hc Hd. unfold has_vtable_pointer, opens_with_vtable_pointer.
  rewrite Hc. now rewrite Hd.
Qed.

(** C4, amended.  Let [isPolymorphic] answer, for the classes visited,
    what Clang's [isPolymorphic()] answers, so that a class is dynamic
    exactly when it is polymorphic or has a virtual base.  Every record of a
    result comes from a visited record definition [D], and its field list
    is, in this order: the synthetic vtable pointer at offset 0, present
    exactly when [D] is a class that is polymorphic or has a virtual base,
    and has no primary base; one [Base] field for each non-virtual base that
    is kept, the bases taken in the stable sort by ascending base-class
    offset; the fields of the data members, in declaration order; one [Base]
    field, marked virtual, for each virtual base that is kept, taken in the
    stable sort by ascending virtual-base offset. *)
Theorem C4_field_order
    (tool : clang.ClangTool.t) (config : ParseConfig.t)
    (isPolymorphic : clang.RecordDecl.t -> bool) (r : Record_.t) :
  (forall D CXXRD,
     visited_definition tool D ->
     clang.RecordDecl.dyn_cast_CXXRecordDecl D = Some CXXRD ->
     Clang_isDynamicClass CXXRD (isPolymorphic D)) ->
  In r (ParseResult.records (ParseRecords tool config)) ->
  exists D nv vb members,
    let layout := clang.RecordDecl.getASTRecordLayout D in
    visited_definition tool D
    /\ Record_.name r = printed_name (clang.RecordDecl.asTagDecl D)
    /\ is_stable_sort_by
         (fun b => clang.ASTRecordLayout.getBaseClassOffset layout
                     (clang.RecordDecl.decl_id b))
         (nonvirtual_bases D) nv
    /\ is_stable_sort_by
         (fun b => clang.ASTRecordLayout.getVBaseClassOffset layout
                     (clang.RecordDecl.decl_id b))
         (virtual_bases D) vb
    /\ List.map Field.data members
       = List.map member_data
                  (List.filter (member_kept config D) (clang.RecordDecl.fields D))
    /\ Record_.fields r
       = (if opens_with_vtable_pointer (isPolymorphic D) D
          then [vtable_pointer_field]
          else [])
         ++ List.map
              (base_field 0 (clang.ASTRecordLayout.getBaseClassOffset layout)
                          (clang.ASTRecordLayout.getPrimaryBase layout) false)
              (kept_bases config nv)
         ++ members
         ++ List.map
              (base_field 0 (clang.ASTRecordLayout.getVBaseClassOffset layout)
                          (clang.ASTRecordLayout.getPrimaryBase layout) true)
              (kept_bases config vb).
Proof.
  intros Hclang Hr. apply ParseRecords_records in Hr as (D & s0 & Hv & Hc & ->).
  exists D. eexists. eexists. eexists. cbv zeta.
  split; [assumption|].
  split; [apply BuildRecord_name|].
  split; [apply stable_sort_is_stable_sort|].
  split; [apply stable_sort_is_stable_sort|].
  split; [apply counted_member_fields_data|].
  rewrite BuildRecord_fields, Hc. unfold record_fields, vtable_pointer_fields.
  cbv zeta. f_equal.
  destruct (clang.RecordDecl.dyn_cast_CXXRecordDecl D) as [CXXRD|] eqn:Hcast.
  - rewrite (has_vtable_pointer_polymorphic D CXXRD (isPolymorphic D) Hcast)
      by (now apply Hclang).
    reflexivity.
  - unfold has_vtable_pointer, opens_with_vtable_pointer. now rewrite Hcast.
Qed.

(** ** Offsets *)

Lemma Permutation_filter_list {A} (f : A -> bool) l l' :
  Permutation l l' -> Permutation (List.filter f l) (List.filter f l').
Proof.
  induction 1 as [|x l l' _ IH|x y l|l l' l'' _ IH1 _ IH2]; cbn.
  - constructor.
  - destruct (f x); [now constructor|assumption].
  - destruct (f x), (f y); try reflexivity. apply perm_swap.
  - etransitivity; eassumption.
Qed.

Lemma kept_bases_sorted_perm config (key : clang.RecordDecl.t -> Z) l :
  Permutation (kept_bases config l)
              (kept_bases config (stable_sort (fun L R => key L <? key R) l)).
Proof. apply Permutation_filter_list, stable_sort_perm. Qed.

Lemma base_field_offsets offset_of primary is_virtual l :
  Forall (fun b => 0 <= offset_of (clang.RecordDecl.decl_id b) < 2 ^ 62) l ->
  List.map Field.offset (List.map (base_field 0 offset_of primary is_virtual) l)
  = List.map (fun b => offset_of (clang.RecordDecl.decl_id b)) l.
Proof.
  induction 1 as [|b l Hb _ IH]; [reflexivity|].
  cbn. rewrite IH. f_equal. unfold to_size_t. apply Z.mod_small. lia.
Qed.

Lemma Forall_kept_sorted (P : clang.RecordDecl.t -> Prop) config
    (key : clang.RecordDecl.t -> Z) l :
  Forall P l ->
  Forall P (kept_bases config (stable_sort (fun L R => key L <? key R) l)).
Proof.
  intros H. rewrite List.Forall_forall in *. intros b Hb.
  apply List.filter_In in Hb as [Hb _].
  apply H. eapply Permutation_in; [|exact Hb].
  apply Permutation_sym, stable_sort_perm.
Qed.

(** C9, amended.  For a record without unnamed bitfields and with
    offsets in range, the offsets of the fields of the record built for it
    are, up to order, the byte offsets that the layout gives to the vtable
    pointer slot, the kept bases and the kept members.  So no two fields
    share an offset exactly when those layout offsets are pairwise
    distinct: nothing but the layout keeps fields apart. *)
Theorem C9_fields_share_an_offset_exactly_when_the_layout_does
    (self : ParseContextImpl) (D : clang.RecordDecl.t) :
  offsets_in_range D (clang.RecordDecl.getASTRecordLayout D) 0 ->
  base_offsets_in_range D ->
  Forall (fun fd => clang.FieldDecl.isUnnamedBitfield fd = false)
         (clang.RecordDecl.fields D) ->
  Permutation (List.map Field.offset (Record_.fields (BuildRecord self D)))
              (layout_byte_offsets (m_config self) D)
  /\ (List.NoDup (List.map Field.offset (Record_.fields (BuildRecord self D)))
      <-> List.NoDup (layout_byte_offsets (m_config self) D)).
Proof.
  intros Hr [Hnv Hvb] Hnamed.
  assert (Hperm : Permutation
                    (List.map Field.offset (Record_.fields (BuildRecord self D)))
                    (layout_byte_offsets (m_config self) D)).
  { rewrite BuildRecord_fields. unfold record_fields. cbv zeta.
    rewrite !List.map_app.
    rewrite !base_field_offsets by (apply Forall_kept_sorted; assumption).
    rewrite counted_member_fields_named by assumption.
    unfold layout_byte_offsets. cbv zeta.
    apply Permutation_app.
    { unfold vtable_pointer_fields. destruct (has_vtable_pointer _ _); reflexivity. }
    apply Permutation_app;
      [apply Permutation_sym, Permutation_map, kept_bases_sorted_perm|].
    apply Permutation_app; [reflexivity|].
    apply Permutation_sym, Permutation_map, kept_bases_sorted_perm. }
  split; [exact Hperm|].
  split; intros H; eapply Permutation_NoDup; try exact H;
    [exact Hperm|apply Permutation_sym, Hperm].
Qed.

(** ** Inlining *)

Lemma empty_record_policy_inlined config D :
  ParseConfig.inline_empty_structs config = true ->
  empty_record_policy D = true ->
  inlined config D = true.
Proof.
  intros Hi Hp. unfold inlined, empty_record_policy in *. rewrite Hi. cbn.
  destruct (_ =? 0); [reflexivity|]. cbn in *.
  destruct (clang.RecordDecl.dyn_cast_CXXRecordDecl D); [assumption|reflexivity].
Qed.

Lemma counted_member_fields_In config D layout base_offset fds f :
  forall field_idx,
    In f (counted_member_fields config D layout base_offset field_idx fds) ->
    exists fd, In fd fds /\ member_kept config D fd = true
               /\ Field.data f = member_data fd.
Proof.
  induction fds as [|fd fds IH]; intros field_idx; cbn [counted_member_fields];
    [intros []|].
  destruct (clang.FieldDecl.isUnnamedBitfield fd).
  - intros H. apply IH in H as (fd' & Hin & Hk & Hd).
    exists fd'. split; [now right|auto].
  - rewrite List.in_app_iff. intros [H|H].
    + destruct (member_kept config D fd) eqn:Hk; [|destruct H].
      destruct H as [<-|[]]. exists fd. split; [now left|auto].
    + apply IH in H as (fd' & Hin & Hk & Hd).
      exists fd'. split; [now right|auto].
Qed.

(** The members contribute the same fields to two records that agree
    on being a union and on their tag declaration. *)
Lemma counted_member_fields_ext config D D' layout base_offset fds :
  clang.RecordDecl.isUnion D = clang.RecordDecl.isUnion D' ->
  clang.RecordDecl.asTagDecl D = clang.RecordDecl.asTagDecl D' ->
  forall field_idx,
    counted_member_fields config D layout base_offset field_idx fds
    = counted_member_fields config D' layout base_offset field_idx fds.
Proof.
  intros Hu Ht. induction fds as [|fd fds IH]; intros field_idx; [reflexivity|].
  cbn [counted_member_fields]. unfold member_kept, slot_offset.
  rewrite Hu, Ht, !IH. reflexivity.
Qed.

Lemma kept_bases_without_inlined config
    (pre post : list (clang.CXXBaseSpecifier.t clang.RecordDecl.t)) specifier
    (select : clang.CXXBaseSpecifier.t clang.RecordDecl.t -> bool) :
  inlined config (clang.CXXBaseSpecifier.getAsCXXRecordDecl specifier) = true ->
  kept_bases config
    (List.map clang.CXXBaseSpecifier.getAsCXXRecordDecl
              (List.filter select (pre ++ specifier :: post)))
  = kept_bases config
      (List.map clang.CXXBaseSpecifier.getAsCXXRecordDecl
                (List.filter select (pre ++ post))).
Proof.
  intros Hinl. unfold kept_bases.
  rewrite !List.filter_app, !List.map_app, !List.filter_app. f_equal.
  cbn [List.filter]. destruct (select specifier); [|reflexivity].
  cbn [List.map List.filter]. now rewrite Hinl.
Qed.

(** A base of an inlined type, virtual or not, leaves the field list of
    the containing record as it is without that base. *)
Lemma record_fields_without_inlined_base config C CXXRD pre post specifier :
  clang.RecordDecl.dyn_cast_CXXRecordDecl C = Some CXXRD ->
  clang.CXXRecordDecl.bases CXXRD = pre ++ specifier :: post ->
  inlined config (clang.CXXBaseSpecifier.getAsCXXRecordDecl specifier) = true ->
  record_fields config C
  = record_fields config (with_bases C (pre ++ post) (clang.CXXRecordDecl.vbases CXXRD)).
Proof.
  destruct C as [id tag anon kind fields layout cxx]. cbn. intros -> Hb Hinl.
  unfold record_fields, vtable_pointer_fields, has_vtable_pointer, nonvirtual_bases,
    virtual_bases, with_bases.
  cbn. rewrite Hb. f_equal. f_equal; [|f_equal; apply counted_member_fields_ext; reflexivity].
  f_equal. unfold kept_bases.
  rewrite !(stable_sort_filter_commute
              (fun b => clang.ASTRecordLayout.getBaseClassOffset layout
                          (clang.RecordDecl.decl_id b))).
  f_equal. now apply kept_bases_without_inlined.
Qed.

Lemma record_fields_without_inlined_vbase config C CXXRD pre post specifier :
  clang.RecordDecl.dyn_cast_CXXRecordDecl C = Some CXXRD ->
  clang.CXXRecordDecl.vbases CXXRD = pre ++ specifier :: post ->
  inlined config (clang.CXXBaseSpecifier.getAsCXXRecordDecl specifier) = true ->
  record_fields config C
  = record_fields config (with_bases C (clang.CXXRecordDecl.bases CXXRD) (pre ++ post)).
Proof.
  destruct C as [id tag anon kind fields layout cxx]. cbn. intros -> Hb Hinl.
  unfold record_fields, vtable_pointer_fields, has_vtable_pointer, nonvirtual_bases,
    virtual_bases, with_bases.
  cbn. rewrite Hb. f_equal. f_equal.
  f_equal; [apply counted_member_fields_ext; reflexivity|].
  f_equal. unfold kept_bases.
  rewrite !(stable_sort_filter_commute
              (fun b => clang.ASTRecordLayout.getVBaseClassOffset layout
                          (clang.RecordDecl.decl_id b))).
  f_equal.
  pose proof (kept_bases_without_inlined config pre post specifier (fun _ => true) Hinl) as H.
  unfold kept_bases in H.
  replace (List.filter (fun _ => true) (pre ++ specifier :: post))
    with (pre ++ specifier :: post) in H
    by (symmetry; apply List.forallb_filter_id, List.forallb_forall; reflexivity).
  replace (List.filter (fun _ => true) (pre ++ post)) with (pre ++ post) in H
    by (symmetry; apply List.forallb_filter_id, List.forallb_forall; reflexivity).
  exact H.
Qed.

(** Outside a union, a member of an inlined type leaves the payloads of
    the member fields as they are without that member, whatever the
    counters. *)
Lemma member_data_without_inlined_member config C pre post fd field_record
    layout base_offset (i j : nat) :
  clang.RecordDecl.isUnion C = false ->
  clang.FieldDecl.getAsRecordDecl fd = Some field_record ->
  inlined config field_record = true ->
  List.map Field.data
           (counted_member_fields config C layout base_offset i (pre ++ fd :: post))
  = List.map Field.data
             (counted_member_fields config (with_fields C (pre ++ post)) layout
                                    base_offset j (pre ++ post)).
Proof.
  intros Hu Hfd Hinl.
  rewrite !counted_member_fields_data, !List.filter_app. cbn [List.filter].
  assert (Hdrop : member_kept config C fd = false).
  { unfold member_kept. rewrite Hfd, Hinl, Hu. now rewrite andb_false_r. }
  rewrite Hdrop, !List.map_app.
  f_equal; f_equal; apply List.filter_ext; intros x; unfold member_kept;
    destruct C; reflexivity.
Qed.

Lemma record_fields_without_inlined_member config C pre post fd field_record :
  clang.RecordDecl.isUnion C = false ->
  clang.RecordDecl.fields C = pre ++ fd :: post ->
  clang.FieldDecl.getAsRecordDecl fd = Some field_record ->
  inlined config field_record = true ->
  List.map Field.data (record_fields config C)
  = List.map Field.data (record_fields config (with_fields C (pre ++ post))).
Proof.
  intros Hu Hf Hfd Hinl. unfold record_fields. cbv zeta.
  rewrite !List.map_app.
  replace (clang.RecordDecl.fields (with_fields C (pre ++ post))) with (pre ++ post)
    by (destruct C; reflexivity).
  rewrite Hf.
  rewrite (member_data_without_inlined_member config C pre post fd field_record
             _ 0 0%nat 0%nat Hu Hfd Hinl).
  destruct C; reflexivity.
Qed.

(** In a union every named member has its payload among the fields. *)
Lemma record_fields_union_member config C fd :
  clang.RecordDecl.isUnion C = true ->
  In fd (clang.RecordDecl.fields C) ->
  clang.FieldDecl.isUnnamedBitfield fd = false ->
  In (member_data fd) (List.map Field.data (record_fields config C)).
Proof.
  intros Hu Hin Hn. unfold record_fields. cbv zeta.
  rewrite !List.map_app, !List.in_app_iff. right. right. left.
  rewrite counted_member_fields_data. apply List.in_map, List.filter_In.
  split; [assumption|]. unfold member_kept. rewrite Hn, Hu.
  now destruct (clang.FieldDecl.getAsRecordDecl fd).
Qed.

(** C1, amended.  With inlining on, a record [D] that satisfies the
    empty-record policy is one that [ShouldInlineEmptyRecord] selects, and:
    - visiting [D] leaves the result as it is, so [D] gets no entry of its
      own; when the gate lets [D] through, the visit does nothing but
      register the name of [D];
    - [D] is omitted as a base: a record [C] that names [D] among its base
      specifiers, virtual or not, or among its virtual bases, is given the
      fields that it is given without that base;
    - [D] is omitted as a member outside unions: a record [C] that is not
      a union and declares a member of type [D] is given fields with the
      payloads, in order, that it is given without that member;
    - in a union, a member of type [D] is kept: its payload is among the
      fields of the record built for the union. *)
Theorem C1_inlined_record_is_omitted_everywhere
    (self : ParseContextImpl) (D : clang.RecordDecl.t) :
  ParseConfig.inline_empty_structs (m_config self) = true ->
  empty_record_policy D = true ->
  let name := printed_name (clang.RecordDecl.asTagDecl D) in
  ShouldInlineEmptyRecord self D = true
  /\ m_result (HandleRecordDecl self (Some D)) = m_result self
  /\ (gate_open (clang.RecordDecl.asTagDecl D) = true ->
      (name ∉ m_processed self) ->
      HandleRecordDecl self (Some D) = register self name)
  /\ (forall C CXXRD pre post specifier,
        clang.RecordDecl.dyn_cast_CXXRecordDecl C = Some CXXRD ->
        clang.CXXRecordDecl.bases CXXRD = pre ++ specifier :: post ->
        clang.CXXBaseSpecifier.getAsCXXRecordDecl specifier = D ->
        Record_.fields (BuildRecord self C)
        = Record_.fields
            (BuildRecord self
               (with_bases C (pre ++ post) (clang.CXXRecordDecl.vbases CXXRD))))
  /\ (forall C CXXRD pre post specifier,
        clang.RecordDecl.dyn_cast_CXXRecordDecl C = Some CXXRD ->
        clang.CXXRecordDecl.vbases CXXRD = pre ++ specifier :: post ->
        clang.CXXBaseSpecifier.getAsCXXRecordDecl specifier = D ->
        Record_.fields (BuildRecord self C)
        = Record_.fields
            (BuildRecord self
               (with_bases C (clang.CXXRecordDecl.bases CXXRD) (pre ++ post))))
  /\ (forall C pre post fd,
        clang.RecordDecl.isUnion C = false ->
        clang.RecordDecl.fields C = pre ++ fd :: post ->
        clang.FieldDecl.getAsRecordDecl fd = Some D ->
        List.map Field.data (Record_.fields (BuildRecord self C))
        = List.map Field.data
                   (Record_.fields (BuildRecord self (with_fields C (pre ++ post)))))
  /\ (forall C fd,
        clang.RecordDecl.isUnion C = true ->
        In fd (clang.RecordDecl.fields C) ->
        clang.FieldDecl.isUnnamedBitfield fd = false ->
        clang.FieldDecl.getAsRecordDecl fd = Some D ->
        In (member_data fd)
           (List.map Field.data (Record_.fields (BuildRecord self C)))).
Proof.
  intros Hi Hp name.
  pose proof (empty_record_policy_inlined _ _ Hi Hp) as Hinl.
  split; [now rewrite ShouldInlineEmptyRecord_config|].
  split.
  { rewrite HandleRecordDecl_eq. cbv zeta.
    destruct (gate_open _ && _); [|reflexivity]. now rewrite Hinl. }
  split.
  { intros G Hfresh. rewrite HandleRecordDecl_eq. cbv zeta. fold name.
    rewrite G, bool_decide_eq_false_2 by assumption. cbn [negb andb].
    now rewrite Hinl. }
  split.
  { intros C CXXRD pre post specifier Hc Hb <-.
    rewrite !BuildRecord_fields. eapply record_fields_without_inlined_base; eassumption. }
  split.
  { intros C CXXRD pre post specifier Hc Hb <-.
    rewrite !BuildRecord_fields. eapply record_fields_without_inlined_vbase; eassumption. }
  split.
  { intros C pre post fd Hu Hf Hfd.
    rewrite !BuildRecord_fields.
    eapply record_fields_without_inlined_member; eassumption. }
  intros C fd Hu Hin Hn _.
  rewrite BuildRecord_fields. now apply record_fields_union_member.
Qed.

(** The registry covers the records in every context that a run reaches
    from a context where it does, in particular from a fresh one. *)
Lemma registry_covers_later s s' :
  later s s' -> registry_covers s -> registry_covers s'.
Proof.
  apply (later_invariant registry_covers).
  - intros t d. apply registry_covers_visit.
  - intros t e H. exact H.
Qed.

Lemma registry_covers_Make config : registry_covers (Make empty_result config).
Proof. intros r []. Qed.

(** * Further properties *)

(** ** Flattening of types *)

Lemma getCanonicalType_withFastQualifiers c v t :
  getCanonicalType (withFastQualifiers c v t)
  = withFastQualifiers c v (getCanonicalType t).
Proof.
  destruct t as [c' v' n]. cbn.
  destruct (getCanonicalTypeInternal n) as [c2 v2 n2]. cbn.
  now rewrite !orb_assoc.
Qed.

Lemma TranslateToComplexType_withFastQualifiers_canonical c v t :
  TranslateToComplexType (withFastQualifiers c v (getCanonicalType t))
  = TranslateToComplexType (withFastQualifiers c v t).
Proof.
  rewrite <- (TranslateToComplexType_canonical (withFastQualifiers c v t)).
  now rewrite getCanonicalType_withFastQualifiers.
Qed.

(** X1.  Two types with the same canonical type have the same
    translation: aliases are invisible in the output. *)
Theorem X1_translation_depends_on_canonical_type (t1 t2 : QualType) :
  getCanonicalType t1 = getCanonicalType t2 ->
  TranslateToComplexType t1 = TranslateToComplexType t2.
Proof.
  intros H.
  rewrite <- (TranslateToComplexType_canonical t1),
          <- (TranslateToComplexType_canonical t2).
  now rewrite H.
Qed.

(** X2.  Qualifiers that sit on an array type are not lost: the
    translation is the [Array] of the translation of the element type with
    those qualifiers added, with the size of the array. *)
Theorem X2_array_qualifiers_reach_the_element
    (c v : bool) (element : QualType) (size : Z) :
  TranslateToComplexType (QT c v (ConstantArrayType element size))
  = ComplexTypeArray (TranslateToComplexType (withFastQualifiers c v element)) size.
Proof.
  rewrite TranslateToComplexType_unfold. cbn.
  rewrite !orb_false_r.
  now rewrite TranslateToComplexType_withFastQualifiers_canonical.
Qed.


Lemma TranslateToComplexType_fuel_size fuel :
  forall type,
    (ComplexType_size (TranslateToComplexType_fuel fuel type)
     <= type_size (getCanonicalType type))%nat.
Proof.
  induction fuel as [|fuel IH]; intros type.
  - cbn. apply type_size_pos.
  - cbn [TranslateToComplexType_fuel].
    destruct (getCanonicalType type) as [c v node].
    destruct node; cbn.
    + lia.
    + specialize (IH (withFastQualifiers c v getElementType)).
      pose proof (getCanonicalType_size (withFastQualifiers c v getElementType)).
      rewrite withFastQualifiers_size in *. lia.
    + pose proof (IH (getCanonicalTypeInternal node)).
      pose proof (IH getPointeeType).
      pose proof (getCanonicalType_size (getCanonicalTypeInternal node)).
      pose proof (getCanonicalType_size getPointeeType).
      pose proof (proj2 getCanonicalType_size_both node).
      lia.
    + pose proof (IH getPointeeType).
      pose proof (getCanonicalType_size getPointeeType). lia.
    + pose proof (IH getPointeeType).
      pose proof (getCanonicalType_size getPointeeType). lia.
    + pose proof (IH getReturnType).
      pose proof (getCanonicalType_size getReturnType).
      assert (list_sum (List.map ComplexType_size
                                 (List.map (TranslateToComplexType_fuel fuel) getParamTypes))
              <= list_sum (List.map type_size getParamTypes))%nat.
      { rewrite List.map_map. apply list_sum_map_le.
        apply List.Forall_forall. intros p _.
        pose proof (IH p). pose proof (getCanonicalType_size p). lia. }
      lia.
    + pose proof (IH getValueType).
      pose proof (getCanonicalType_size getValueType). lia.
    + lia.
Qed.

(** X4.  The translation has at most as many nodes as the type it
    translates: records and enums are leaves, nothing is expanded. *)
Theorem X4_translation_is_no_larger_than_the_type (type : QualType) :
  (ComplexType_size (TranslateToComplexType type) <= type_size type)%nat.
Proof.
  unfold TranslateToComplexType.
  pose proof (TranslateToComplexType_fuel_size (type_size type) type).
  pose proof (getCanonicalType_size type). lia.
Qed.

(** ** Enums *)

Lemma fold_left_snoc_map {A B} (f : A -> B) (l : list A) (acc : list B) :
  fold_left (fun acc x => acc ++ [f x]) l acc = acc ++ List.map f l.
Proof.
  revert acc. induction l as [|x l IH]; intros acc; cbn.
  - now rewrite List.app_nil_r.
  - rewrite IH, <- List.app_assoc. reflexivity.
Qed.

Lemma HandleEnumDecl_appended (self : ParseContextImpl) (E : clang.EnumDecl.t) :
  let name := printed_name (clang.EnumDecl.asTagDecl E) in
  gate_open (clang.EnumDecl.asTagDecl E) = true ->
  name ∉ m_processed self ->
  let s := HandleEnumDecl self (Some E) in
  exists e,
    ParseResult.enums (m_result s) = ParseResult.enums (m_result self) ++ [e]
    /\ Enum.name e = name
    /\ Enum.enumerators e = List.map enumerator_of (clang.EnumDecl.enumerators E)
    /\ ParseResult.records (m_result s) = ParseResult.records (m_result self)
    /\ ParseResult.error (m_result s) = ParseResult.error (m_result self)
    /\ m_processed s = {[ name ]} ∪ m_processed self.
Proof.
  intros name G Hfresh s. subst s.
  unfold HandleEnumDecl. rewrite CanProcess_eq. cbn [option_map].
  fold name. rewrite G, bool_decide_eq_false_2 by assumption. cbn [andb negb].
  eexists. cbn.
  split; [reflexivity|]. split; [reflexivity|].
  split; [|auto].
  cbn. apply (fold_left_snoc_map enumerator_of _ []).
Qed.

(** X5.  An enum definition that the gate lets through is appended as
    the last enum of the result, under its printed name, with one
    enumerator per enumerator of the declaration, in declaration order,
    each with its name and its value in decimal text; the records and the
    error are untouched, and the name is added to the processed names. *)
Theorem X5_accepted_enum_is_appended
    (self : ParseContextImpl) (E : clang.EnumDecl.t) :
  let name := printed_name (clang.EnumDecl.asTagDecl E) in
  gate_open (clang.EnumDecl.asTagDecl E) = true ->
  (name ∉ m_processed self) ->
  let s := HandleEnumDecl self (Some E) in
  exists e,
    ParseResult.enums (m_result s) = ParseResult.enums (m_result self) ++ [e]
    /\ Enum.name e = name
    /\ Enum.enumerators e = List.map enumerator_of (clang.EnumDecl.enumerators E)
    /\ ParseResult.records (m_result s) = ParseResult.records (m_result self)
    /\ ParseResult.error (m_result s) = ParseResult.error (m_result self)
    /\ m_processed s = {[ name ]} ∪ m_processed self.
Proof. apply HandleEnumDecl_appended. Qed.

(** ** Names in the result *)

Lemma HandleRecordDecl_enums s D :
  ParseResult.enums (m_result (HandleRecordDecl s D)) = ParseResult.enums (m_result s).
Proof.
  rewrite HandleRecordDecl_eq. destruct D as [R|]; [|reflexivity]. cbv zeta.
  destruct (gate_open _ && _); [|reflexivity].
  destruct (inlined _ R); reflexivity.
Qed.

Lemma VisitDecl_names s d n :
  In n (result_names (m_result (VisitDecl s d))) ->
  In n (result_names (m_result s))
  \/ ((n ∉ m_processed s) /\ n ∈ m_processed (VisitDecl s d)).
Proof.
  unfold result_names. rewrite !List.in_app_iff.
  destruct d as [[E|]|[R|]|]; cbn; auto.
  - rewrite HandleEnumDecl_eq. cbv zeta.
    destruct (gate_open _ && _) eqn:G; [|auto].
    apply andb_true_iff in G as [G B].
    apply negb_true_iff, bool_decide_eq_false in B.
    destruct (HandleEnumDecl_appended s E G B) as (e & -> & Hn & _ & -> & _ & ->).
    rewrite List.map_app, List.in_app_iff. cbn.
    intros [[H|[<-|[]]]|H]; auto.
    right. rewrite Hn. split; [assumption|set_solver].
  - rewrite HandleRecordDecl_enums. intros [H|H]; [auto|].
    apply List.in_map_iff in H as (r & <- & Hr).
    apply (VisitDecl_records s (clang.VisitedRecordDecl (Some R))) in Hr
      as [Hr|(D & Hd & -> & G & Hn & I)].
    + left. right. now apply List.in_map.
    + injection Hd as <-. right. rewrite BuildRecord_name.
      split; [assumption|].
      rewrite HandleRecordDecl_eq. cbv zeta.
      rewrite G, bool_decide_eq_false_2 by assumption. cbn. rewrite I. cbn.
      set_solver.
Qed.

Lemma VisitDecl_names_shape s d :
  result_names (m_result (VisitDecl s d)) = result_names (m_result s)
  \/ exists n,
       (n ∉ m_processed s)
       /\ n ∈ m_processed (VisitDecl s d)
       /\ Permutation (result_names (m_result (VisitDecl s d)))
                      (n :: result_names (m_result s)).
Proof.
  unfold result_names.
  destruct d as [[E|]|[R|]|]; cbn; auto.
  - rewrite HandleEnumDecl_eq. cbv zeta.
    destruct (gate_open _ && _) eqn:G; [|auto].
    apply andb_true_iff in G as [G B].
    apply negb_true_iff, bool_decide_eq_false in B.
    destruct (HandleEnumDecl_appended s E G B) as (e & -> & Hn & _ & -> & _ & ->).
    right. exists (printed_name (clang.EnumDecl.asTagDecl E)).
    split; [assumption|]. split; [set_solver|].
    rewrite List.map_app, <- List.app_assoc. cbn. rewrite Hn.
    symmetry. apply Permutation_middle.
  - rewrite HandleRecordDecl_enums.
    rewrite HandleRecordDecl_eq. cbv zeta.
    destruct (gate_open _ && _) eqn:G; [|auto].
    apply andb_true_iff in G as [G B].
    apply negb_true_iff, bool_decide_eq_false in B.
    destruct (inlined _ R); cbn; [auto|].
    right. exists (printed_name (clang.RecordDecl.asTagDecl R)).
    split; [assumption|]. split; [set_solver|].
    rewrite List.map_app. cbn [List.map]. rewrite BuildRecord_name.
    rewrite List.app_assoc.
    etransitivity; [apply Permutation_app_comm|]. reflexivity.
Qed.


Lemma names_unique_visit s d : names_unique s -> names_unique (VisitDecl s d).
Proof.
  intros [Hreg Hnd]. split.
  - intros n Hn. apply VisitDecl_names in Hn as [Hn|[_ Hn]]; [|assumption].
    apply (VisitDecl_processed_mono s d). now apply Hreg.
  - destruct (VisitDecl_names_shape s d) as [->|(n & Hfresh & _ & Hperm)];
      [assumption|].
    eapply Permutation_NoDup; [symmetry; exact Hperm|].
    constructor; [|assumption].
    intros Hin. apply Hfresh. now apply Hreg.
Qed.

Lemma later_units s units : later s (fold_left HandleTranslationUnit units s).
Proof.
  induction units as [|TU units IH] using rev_ind; [constructor|].
  rewrite List.fold_left_app. cbn. now constructor.
Qed.

(** X7.  In the result of a run no name is shared: the names of the
    enums and of the records are pairwise distinct, across both lists and
    across translation units. *)
Theorem X7_result_names_are_unique
    (tool : clang.ClangTool.t) (config : ParseConfig.t) :
  List.NoDup (result_names (ParseRecords tool config)).
Proof.
  assert (H : names_unique
                (fold_left HandleTranslationUnit (clang.ClangTool.units tool)
                           (Make empty_result config))).
  { apply (later_invariant names_unique) with (s := Make empty_result config).
    - intros s d. apply names_unique_visit.
    - intros s e Hs. exact Hs.
    - apply later_units.
    - split; [intros n []|constructor]. }
  unfold ParseRecords. cbv zeta.
  destruct (negb _); apply H.
Qed.

(** ** Completeness without inlining *)

Lemma VisitDecl_names_mono s d n :
  In n (result_names (m_result s)) ->
  In n (result_names (m_result (VisitDecl s d))).
Proof.
  intros Hn.
  destruct (VisitDecl_names_shape s d) as [->|(m & _ & _ & Hperm)]; [assumption|].
  eapply Permutation_in; [symmetry; exact Hperm|]. now right.
Qed.

Lemma processed_are_names_visit s d :
  ParseConfig.inline_empty_structs (m_config s) = false ->
  (forall n, n ∈ m_processed s -> In n (result_names (m_result s))) ->
  forall n, n ∈ m_processed (VisitDecl s d) ->
            In n (result_names (m_result (VisitDecl s d))).
Proof.
  intros Hoff Hs n.
  destruct d as [[E|]|[R|]|]; cbn; auto.
  - rewrite HandleEnumDecl_eq. cbv zeta.
    destruct (gate_open _ && _) eqn:G; [|auto].
    apply andb_true_iff in G as [G B].
    apply negb_true_iff, bool_decide_eq_false in B.
    destruct (HandleEnumDecl_appended s E G B) as (e & He & Hn & _ & Hr & _ & ->).
    unfold result_names. rewrite He, Hr, List.map_app, !List.in_app_iff. cbn.
    rewrite Hn. intros Hin.
    apply elem_of_union in Hin as [Hin|Hin].
    + apply elem_of_singleton in Hin as ->. auto.
    + apply Hs in Hin. unfold result_names in Hin.
      apply List.in_app_iff in Hin as [Hin|Hin]; auto.
  - rewrite HandleRecordDecl_eq. cbv zeta.
    destruct (gate_open _ && _) eqn:G; [|auto].
    unfold inlined. rewrite Hoff. cbn.
    unfold result_names. cbn.
    rewrite List.map_app, !List.in_app_iff. cbn [List.map].
    rewrite BuildRecord_name. cbn. intros Hin.
    apply elem_of_union in Hin as [Hin|Hin].
    + apply elem_of_singleton in Hin as ->. auto.
    + apply Hs in Hin. unfold result_names in Hin.
      apply List.in_app_iff in Hin as [Hin|Hin]; auto.
Qed.

Lemma TraverseAST_registers decls s d T :
  In d decls -> decl_tag d = Some T -> gate_open T = true ->
  printed_name T ∈ m_processed (TraverseAST s decls).
Proof.
  revert s. induction decls as [|d' decls IH]; intros s Hin Ht G; [destruct Hin|].
  rewrite TraverseAST_cons. destruct Hin as [->|Hin]; [|now apply IH].
  apply TraverseAST_processed_mono.
  pose proof (VisitDecl_registers s d) as Hr. rewrite Ht in Hr.
  destruct Hr as [Hr|Hr]; [congruence|assumption].
Qed.

Lemma units_processed_mono units s :
  m_processed s ⊆ m_processed (fold_left HandleTranslationUnit units s).
Proof. apply later_processed_mono, later_units. Qed.

Lemma units_register units s TU d T :
  In TU units -> unit_is_Itanium TU = true ->
  In d (clang.TranslationUnit.decls TU) ->
  decl_tag d = Some T -> gate_open T = true ->
  printed_name T ∈ m_processed (fold_left HandleTranslationUnit units s).
Proof.
  revert s. induction units as [|TU' units IH]; intros s Hin HI Hd Ht G;
    [destruct Hin|].
  cbn. destruct Hin as [->|Hin]; [|now apply IH].
  apply units_processed_mono.
  unfold HandleTranslationUnit. unfold unit_is_Itanium in HI. rewrite HI. cbn.
  now apply (TraverseAST_registers _ _ d).
Qed.

(** X8.  With inlining off nothing is lost by name: for every enum or
    record definition that is visited in a translation unit of the Itanium
    family and is valid, complete and not a template pattern, the result
    has an enum or a record with the printed name of that definition. *)
Theorem X8_every_visited_name_is_in_the_result
    (tool : clang.ClangTool.t) (config : ParseConfig.t)
    (TU : clang.TranslationUnit.t) (d : clang.Decl) (T : clang.TagDecl.t) :
  ParseConfig.inline_empty_structs config = false ->
  In TU (clang.ClangTool.units tool) ->
  unit_is_Itanium TU = true ->
  In d (clang.TranslationUnit.decls TU) ->
  decl_tag d = Some T ->
  gate_open T = true ->
  In (printed_name T) (result_names (ParseRecords tool config)).
Proof.
  intros Hoff HTU HI Hd Ht G.
  set (final := fold_left HandleTranslationUnit (clang.ClangTool.units tool)
                          (Make empty_result config)).
  assert (Hinv : ParseConfig.inline_empty_structs (m_config final) = false
                 /\ forall n, n ∈ m_processed final ->
                              In n (result_names (m_result final))).
  { apply (later_invariant
             (fun s => ParseConfig.inline_empty_structs (m_config s) = false
                       /\ forall n, n ∈ m_processed s ->
                                    In n (result_names (m_result s))))
      with (s := Make empty_result config).
    - intros s d' [Hc Hs]. split; [now rewrite VisitDecl_config|].
      now apply processed_are_names_visit.
    - intros s e Hs. exact Hs.
    - apply later_units.
    - split; [assumption|]. cbn. intros n Hn. now apply not_elem_of_empty in Hn. }
  destruct Hinv as [_ Hnames].
  assert (Hin : In (printed_name T) (result_names (m_result final))).
  { apply Hnames. now apply (units_register _ _ TU d). }
  unfold ParseRecords. cbv zeta. fold final.
  destruct (negb _); exact Hin.
Qed.

(** ** Errors *)

Lemma units_error units s :
  ParseResult.error (m_result (fold_left HandleTranslationUnit units s))
  = if forallb unit_is_Itanium units
    then ParseResult.error (m_result s)
    else Itanium_only_message.
Proof.
  revert s. induction units as [|TU units IH]; intros s; [reflexivity|].
  cbn [fold_left forallb]. rewrite IH.
  unfold HandleTranslationUnit, unit_is_Itanium.
  destruct (clang.ASTContext.isItaniumFamily _); cbn.
  - now rewrite TraverseAST_error.
  - destruct (forallb _ units); reflexivity.
Qed.

(** X9.  The result of a run is a success (its error is empty) exactly
    when the tool returned 0 and every translation unit is of the Itanium
    family. *)
Theorem X9_success_of_a_run (tool : clang.ClangTool.t) (config : ParseConfig.t) :
  ParseResult.ok (ParseRecords tool config)
  = (clang.ClangTool.run tool =? 0)
    && forallb unit_is_Itanium (clang.ClangTool.units tool).
Proof.
  unfold ParseRecords, ParseResult.ok. cbv zeta.
  destruct (clang.ClangTool.run tool =? 0); cbn [negb andb].
  - rewrite units_error. cbn. destruct (forallb _ _); reflexivity.
  - reflexivity.
Qed.

(** ** Units of an unsupported family *)

Lemma BuildRecord_config s s' D :
  m_config s = m_config s' -> BuildRecord s D = BuildRecord s' D.
Proof.
  intros H. unfold BuildRecord. cbv zeta.
  rewrite !AddFields_eq, H. reflexivity.
Qed.

Lemma VisitDecl_with_error e s d :
  VisitDecl (with_error e s) d = with_error e (VisitDecl s d).
Proof.
  destruct d as [[E|]|[R|]|]; cbn; try reflexivity.
  - unfold HandleEnumDecl. rewrite !CanProcess_eq. cbn [option_map].
    cbn [with_error set_result m_processed].
    destruct (gate_open _ && _); reflexivity.
  - rewrite !HandleRecordDecl_eq. cbv zeta.
    cbn [with_error set_result m_processed m_config].
    destruct (gate_open _ && _); [|reflexivity].
    destruct (inlined _ R); [reflexivity|].
    rewrite (BuildRecord_config
               (register (with_error e s) (printed_name (clang.RecordDecl.asTagDecl R)))
               (register s (printed_name (clang.RecordDecl.asTagDecl R))))
      by reflexivity.
    reflexivity.
Qed.

Lemma TraverseAST_with_error e decls s :
  TraverseAST (with_error e s) decls = with_error e (TraverseAST s decls).
Proof.
  revert s. induction decls as [|d decls IH]; intros s; [reflexivity|].
  rewrite !TraverseAST_cons, VisitDecl_with_error. apply IH.
Qed.

Lemma with_error_with_error e e' s :
  with_error e (with_error e' s) = with_error e s.
Proof. reflexivity. Qed.

Lemma with_error_own s : with_error (ParseResult.error (m_result s)) s = s.
Proof. destruct s as [[e en rs] c p]. reflexivity. Qed.

Lemma HandleTranslationUnit_with_error e s TU :
  with_error "" (HandleTranslationUnit (with_error e s) TU)
  = with_error "" (HandleTranslationUnit s TU).
Proof.
  unfold HandleTranslationUnit. destruct (negb _).
  - reflexivity.
  - now rewrite TraverseAST_with_error.
Qed.

Lemma units_with_error units : forall s s',
  with_error "" s = with_error "" s' ->
  with_error "" (fold_left HandleTranslationUnit units s)
  = with_error "" (fold_left HandleTranslationUnit units s').
Proof.
  induction units as [|TU units IH]; intros s s' H; [assumption|].
  cbn. apply IH.
  rewrite <- (with_error_own s), <- (with_error_own s').
  rewrite !HandleTranslationUnit_with_error.
  rewrite <- (HandleTranslationUnit_with_error "" s),
          <- (HandleTranslationUnit_with_error "" s').
  now rewrite H.
Qed.

Lemma units_filter_Itanium units : forall s,
  with_error "" (fold_left HandleTranslationUnit units s)
  = with_error "" (fold_left HandleTranslationUnit
                             (List.filter unit_is_Itanium units) s).
Proof.
  induction units as [|TU units IH]; intros s; [reflexivity|].
  cbn [fold_left List.filter].
  destruct (unit_is_Itanium TU) eqn:HI.
  - cbn [fold_left]. apply IH.
  - rewrite <- IH. apply units_with_error.
    unfold HandleTranslationUnit. unfold unit_is_Itanium in HI. rewrite HI.
    reflexivity.
Qed.

(** X10.  Translation units of an unsupported family add nothing and
    disturb nothing: the enums and the records of a run are those of the
    run over the units of the Itanium family alone. *)
Theorem X10_unsupported_units_are_transparent
    (units : list clang.TranslationUnit.t) (run : Z) (config : ParseConfig.t) :
  ParseResult.enums (ParseRecords (tool_of units run) config)
  = ParseResult.enums
      (ParseRecords (tool_of (List.filter unit_is_Itanium units) run) config)
  /\ ParseResult.records (ParseRecords (tool_of units run) config)
     = ParseResult.records
         (ParseRecords (tool_of (List.filter unit_is_Itanium units) run) config).
Proof.
  pose proof (units_filter_Itanium units (Make empty_result config)) as H.
  unfold ParseRecords, tool_of. cbn [clang.ClangTool.units clang.ClangTool.run].
  cbv zeta. fold empty_result.
  set (a := fold_left HandleTranslationUnit units (Make empty_result config)) in *.
  set (b := fold_left HandleTranslationUnit (List.filter unit_is_Itanium units)
                      (Make empty_result config)) in *.
  assert (He : ParseResult.enums (m_result a) = ParseResult.enums (m_result b))
    by (change (ParseResult.enums (m_result (with_error "" a))
                = ParseResult.enums (m_result (with_error "" b))); now rewrite H).
  assert (Hr : ParseResult.records (m_result a) = ParseResult.records (m_result b))
    by (change (ParseResult.records (m_result (with_error "" a))
                = ParseResult.records (m_result (with_error "" b))); now rewrite H).
  destruct (negb _); cbn; auto.
Qed.

(** ** More on fields *)

Lemma append_fields_vtable record l :
  Record_.vtable (append_fields record l) = Record_.vtable record.
Proof. reflexivity. Qed.

(** X11.  The record built for a declaration has a vtable exactly when
    the declaration is a C++ class, the class is dynamic, and the vtable
    context is the Itanium one. *)
Theorem X11_vtable_presence (self : ParseContextImpl) (D : clang.RecordDecl.t) :
  Record_.vtable (BuildRecord self D) <> None
  <-> exists CXXRD,
        clang.RecordDecl.dyn_cast_CXXRecordDecl D = Some CXXRD
        /\ clang.CXXRecordDecl.isDynamicClass CXXRD = true
        /\ clang.ASTContext.hasItaniumVTableContext
             (clang.TagDecl.getASTContext (clang.RecordDecl.asTagDecl D)) = true.
Proof.
  unfold BuildRecord. cbv zeta. rewrite AddFields_eq.
  destruct (clang.RecordDecl.dyn_cast_CXXRecordDecl D) as [CXXRD|]; cbn.
  - unfold ParseVTable.
    destruct (clang.ASTContext.hasItaniumVTableContext _); cbn.
    + destruct (clang.CXXRecordDecl.isDynamicClass CXXRD) eqn:Hd; cbn.
      * split; [|discriminate]. intros _. exists CXXRD. auto.
      * split; [congruence|]. intros (c & Hc & H & _). congruence.
    + split; [congruence|]. intros (c & _ & _ & H). discriminate.
  - split; [congruence|]. intros (c & H & _). discriminate.
Qed.

Lemma kept_bases_inlining_off config l :
  ParseConfig.inline_empty_structs config = false -> kept_bases config l = l.
Proof.
  intros H. unfold kept_bases, inlined. rewrite H. cbn.
  induction l as [|b l IH]; cbn; [reflexivity|now rewrite IH].
Qed.

Lemma stable_sort_length {A} (less : A -> A -> bool) l :
  length (stable_sort less l) = length l.
Proof.
  assert (Hi : forall x k, length (stable_insert less x k) = S (length k)).
  { intros x k. induction k as [|y k IH]; cbn; [reflexivity|].
    destruct (less y x); cbn; [now rewrite IH|reflexivity]. }
  induction l as [|x l IH]; cbn; [reflexivity|]. now rewrite Hi, IH.
Qed.

Lemma counted_member_fields_length config D layout base_offset fds field_idx :
  length (counted_member_fields config D layout base_offset field_idx fds)
  = length (List.filter (member_kept config D) fds).
Proof.
  rewrite <- (List.length_map Field.data), counted_member_fields_data.
  apply List.length_map.
Qed.

Lemma member_kept_inlining_off config D fd :
  ParseConfig.inline_empty_structs config = false ->
  member_kept config D fd = is_named_member fd.
Proof.
  intros H. unfold member_kept, is_named_member, inlined. rewrite H. cbn.
  destruct (clang.FieldDecl.getAsRecordDecl fd); cbn;
    now rewrite ?orb_true_r, andb_true_r.
Qed.

(** X12.  With inlining off nothing is dropped: the record built for a
    declaration has one field for the vtable pointer if it has one, one per
    non-virtual base, one per data member that is not an unnamed bitfield,
    and one per virtual base. *)
Theorem X12_no_field_dropped_without_inlining
    (self : ParseContextImpl) (D : clang.RecordDecl.t) :
  ParseConfig.inline_empty_structs (m_config self) = false ->
  length (Record_.fields (BuildRecord self D))
  = ((if has_vtable_pointer D (clang.RecordDecl.getASTRecordLayout D) then 1 else 0)
     + length (nonvirtual_bases D)
     + length (List.filter is_named_member (clang.RecordDecl.fields D))
     + length (virtual_bases D))%nat.
Proof.
  intros Hoff. rewrite BuildRecord_fields. unfold record_fields. cbv zeta.
  rewrite !List.length_app, !List.length_map.
  rewrite !kept_bases_inlining_off by assumption.
  rewrite !stable_sort_length, counted_member_fields_length.
  rewrite (List.filter_ext (member_kept (m_config self) D) is_named_member)
    by (intros fd; now apply member_kept_inlining_off).
  unfold vtable_pointer_fields.
  destruct (has_vtable_pointer _ _); cbn; lia.
Qed.

(** X13.  With inlining on, a record that is not a C++ class counts as
    empty whatever its data size and its fields: visiting its definition
    never changes the result, and a member of that type yields no field in
    a record that is not a union: [AddDataMembers] appends fields with the
    payloads, in order, that it appends when the member is not declared. *)
Theorem X13_plain_record_is_always_inlined
    (self : ParseContextImpl) (D : clang.RecordDecl.t) :
  ParseConfig.inline_empty_structs (m_config self) = true ->
  clang.RecordDecl.dyn_cast_CXXRecordDecl D = None ->
  ShouldInlineEmptyRecord self D = true
  /\ m_result (HandleRecordDecl self (Some D)) = m_result self
  /\ forall C record base_offset layout pre post fd,
       clang.RecordDecl.isUnion C = false ->
       clang.RecordDecl.fields C = pre ++ fd :: post ->
       clang.FieldDecl.getAsRecordDecl fd = Some D ->
       List.map Field.data
                (Record_.fields (AddDataMembers self record base_offset C layout))
       = List.map Field.data
                  (Record_.fields
                     (AddDataMembers self record base_offset
                                     (with_fields C (pre ++ post)) layout)).
Proof.
  intros Hon Hc.
  assert (Hinl : inlined (m_config self) D = true).
  { unfold inlined. rewrite Hon, Hc. cbn. now rewrite orb_true_r. }
  split; [now rewrite ShouldInlineEmptyRecord_config|].
  split.
  - rewrite HandleRecordDecl_eq. cbv zeta.
    destruct (gate_open _ && _); [|reflexivity]. now rewrite Hinl.
  - intros C record base_offset layout pre post fd Hu Hf Hfd.
    rewrite !AddDataMembers_eq. cbn [append_fields Record_.fields].
    rewrite !List.map_app. f_equal.
    replace (clang.RecordDecl.fields (with_fields C (pre ++ post))) with (pre ++ post)
      by (destruct C; reflexivity).
    rewrite Hf. now apply member_data_without_inlined_member with (field_record := D).
Qed.

Lemma counted_member_fields_split config D layout base_offset pre post :
  forall field_idx,
    counted_member_fields config D layout base_offset field_idx (pre ++ post)
    = counted_member_fields config D layout base_offset field_idx pre
      ++ counted_member_fields config D layout base_offset
           (field_idx + length (List.filter is_named_member pre)) post.
Proof.
  induction pre as [|fd pre IH]; intros field_idx.
  - cbn. now rewrite Nat.add_0_r.
  - cbn [List.app counted_member_fields List.filter]. unfold is_named_member at 1.
    destruct (clang.FieldDecl.isUnnamedBitfield fd); cbn [negb].
    + apply IH.
    + rewrite IH, <- List.app_assoc. cbn [length]. do 2 f_equal. f_equal. lia.
Qed.

(** X14.  The field of a data member is read at the layout slot whose
    number is the count of declarations before it that are not unnamed
    bitfields: for a kept member declared after [pre], the record gets a
    field with the payload of the member at the offset of that slot. *)
Theorem X14_member_offset_comes_from_the_counted_slot
    (self : ParseContextImpl) (record : Record_.t) (base_offset : Z)
    (D : clang.RecordDecl.t) (layout : clang.ASTRecordLayout.t)
    (pre post : list (clang.FieldDecl.t clang.RecordDecl.t))
    (fd : clang.FieldDecl.t clang.RecordDecl.t) :
  clang.RecordDecl.fields D = pre ++ fd :: post ->
  member_kept (m_config self) D fd = true ->
  In {| Field.offset :=
          slot_offset D layout base_offset
                      (length (List.filter is_named_member pre));
        Field.data := member_data fd |}
     (Record_.fields (AddDataMembers self record base_offset D layout)).
Proof.
  intros Hsplit Hk.
  rewrite AddDataMembers_eq, Hsplit, counted_member_fields_split.
  cbn [append_fields Record_.fields]. rewrite !List.in_app_iff.
  right. right. cbn [counted_member_fields].
  assert (Hu : clang.FieldDecl.isUnnamedBitfield fd = false).
  { unfold member_kept in Hk. apply andb_true_iff in Hk as [Hk _].
    now apply negb_true_iff in Hk. }
  rewrite Hu, Hk. now left.
Qed.

(** X15.  In a union every data member that is not an unnamed bitfield
    gets its field, whether inlining is on or off: the payloads of the
    fields appended are those of these members, in declaration order. *)
Theorem X15_union_keeps_every_member
    (self : ParseContextImpl) (record : Record_.t) (base_offset : Z)
    (D : clang.RecordDecl.t) (layout : clang.ASTRecordLayout.t) :
  clang.RecordDecl.isUnion D = true ->
  exists members,
    AddDataMembers self record base_offset D layout = append_fields record members
    /\ List.map Field.data members
       = List.map member_data
                  (List.filter is_named_member (clang.RecordDecl.fields D)).
Proof.
  intros Hu. eexists. split; [apply AddDataMembers_eq|].
  rewrite counted_member_fields_data. f_equal.
  apply List.filter_ext. intros fd.
  unfold member_kept, is_named_member. rewrite Hu.
  destruct (clang.FieldDecl.getAsRecordDecl fd); cbn; apply andb_true_r.
Qed.

(** ** Order of the base fields *)

Lemma StronglySorted_filter_list {A} (R : A -> A -> Prop) (f : A -> bool) l :
  StronglySorted R l -> StronglySorted R (List.filter f l).
Proof.
  induction 1 as [|x l Hs IH Hall]; cbn; [constructor|].
  destruct (f x); [|assumption].
  constructor; [assumption|].
  rewrite List.Forall_forall in *. intros y Hy.
  apply List.filter_In in Hy as [Hy _]. now apply Hall.
Qed.

Lemma StronglySorted_map_key {A} (key : A -> Z) l :
  StronglySorted (fun a b => key a <= key b) l ->
  StronglySorted Z.le (List.map key l).
Proof.
  induction 1 as [|x l Hs IH Hall]; cbn; constructor; [assumption|].
  rewrite List.Forall_forall in *. intros z Hz.
  apply List.in_map_iff in Hz as (y & <- & Hy). now apply Hall.
Qed.

Lemma filter_base_fields_of_bases v base_offset offset_of primary v' l :
  List.filter (is_base_field v)
              (List.map (base_field base_offset offset_of primary v') l)
  = if Bool.eqb v' v
    then List.map (base_field base_offset offset_of primary v') l
    else [].
Proof.
  destruct (Bool.eqb v' v) eqn:E;
    induction l as [|b l IH]; cbn [List.map List.filter]; try reflexivity.
  - unfold is_base_field at 1. cbn [base_field Field.data]. rewrite E.
    now rewrite IH.
  - unfold is_base_field at 1. cbn [base_field Field.data]. rewrite E.
    exact IH.
Qed.

Lemma filter_base_fields_of_members v config D layout base_offset fds :
  forall field_idx,
    List.filter (is_base_field v)
                (counted_member_fields config D layout base_offset field_idx fds)
    = [].
Proof.
  induction fds as [|fd fds IH]; intros field_idx; [reflexivity|].
  cbn [counted_member_fields].
  destruct (clang.FieldDecl.isUnnamedBitfield fd); [apply IH|].
  rewrite List.filter_app, IH, List.app_nil_r.
  destruct (member_kept config D fd); [|reflexivity].
  cbn. unfold is_base_field, member_data. cbn.
  destruct (clang.FieldDecl.getAsRecordDecl fd); reflexivity.
Qed.

Lemma filter_base_fields_of_vtable_pointer v D layout base_offset :
  List.filter (is_base_field v) (vtable_pointer_fields D layout base_offset) = [].
Proof.
  unfold vtable_pointer_fields. destruct (has_vtable_pointer D layout); reflexivity.
Qed.

Lemma sorted_kept_base_offsets config (key : clang.RecordDecl.t -> Z) l :
  StronglySorted Z.le
    (List.map key (kept_bases config (stable_sort (fun L R => key L <? key R) l))).
Proof.
  apply StronglySorted_map_key, StronglySorted_filter_list, stable_sort_sorted.
Qed.

(** X20.  With base offsets in range, the [Base] fields of the record
    built for a declaration come by ascending offset: the offsets of its
    non-virtual [Base] fields never decrease along the field list, and
    neither do those of its virtual [Base] fields. *)
Theorem X20_base_fields_by_ascending_offset
    (self : ParseContextImpl) (D : clang.RecordDecl.t) :
  base_offsets_in_range D ->
  StronglySorted Z.le
    (offsets_of_base_fields false (Record_.fields (BuildRecord self D)))
  /\ StronglySorted Z.le
       (offsets_of_base_fields true (Record_.fields (BuildRecord self D))).
Proof.
  intros [Hnv Hvb].
  rewrite BuildRecord_fields. unfold record_fields, offsets_of_base_fields. cbv zeta.
  rewrite !List.filter_app.
  rewrite !filter_base_fields_of_vtable_pointer, !filter_base_fields_of_members,
          !filter_base_fields_of_bases.
  cbn [Bool.eqb List.app]. rewrite !List.app_nil_r.
  rewrite !base_field_offsets by (apply Forall_kept_sorted; assumption).
  split; apply sorted_kept_base_offsets.
Qed.

(** X21.  An inlined base has no influence on the fields of the other
    bases: the [Base] fields that [AddBases] appends are those of the kept
    non-virtual bases alone, stably sorted by offset, as if the inlined
    bases had not been declared. *)
Theorem X21_inlined_bases_leave_no_trace
    (self : ParseContextImpl) (record : Record_.t) (base_offset : Z)
    (D : clang.RecordDecl.t) (layout : clang.ASTRecordLayout.t) :
  AddBases self record base_offset (clang.RecordDecl.dyn_cast_CXXRecordDecl D) layout
  = append_fields record
      (vtable_pointer_fields D layout base_offset
       ++ List.map
            (base_field base_offset (clang.ASTRecordLayout.getBaseClassOffset layout)
                        (clang.ASTRecordLayout.getPrimaryBase layout) false)
            (stable_sort
               (fun L R =>
                  clang.ASTRecordLayout.getBaseClassOffset layout
                    (clang.RecordDecl.decl_id L)
                  <? clang.ASTRecordLayout.getBaseClassOffset layout
                       (clang.RecordDecl.decl_id R))
               (kept_bases (m_config self) (nonvirtual_bases D)))).
Proof.
  rewrite AddBases_eq. unfold kept_bases.
  now rewrite (stable_sort_filter_commute
                 (fun b => clang.ASTRecordLayout.getBaseClassOffset layout
                             (clang.RecordDecl.decl_id b))).
Qed.

(** ** Vtable entries *)

(** X16.  Every operator has a token of its own: on overloaded
    operators [GetCStyleOperatorName] is never empty, and two operators of
    different kinds never get the same token. *)
Theorem X16_operator_tokens_are_distinct (f g : clang.CXXMethodDecl.t) :
  clang.CXXMethodDecl.isOverloadedOperator f = true ->
  clang.CXXMethodDecl.isOverloadedOperator g = true ->
  is_operator (clang.CXXMethodDecl.getOverloadedOperator f) = true ->
  is_operator (clang.CXXMethodDecl.getOverloadedOperator g) = true ->
  GetCStyleOperatorName f <> ""
  /\ (GetCStyleOperatorName f = GetCStyleOperatorName g ->
      clang.CXXMethodDecl.getOverloadedOperator f
      = clang.CXXMethodDecl.getOverloadedOperator g).
Proof.
  unfold GetCStyleOperatorName. intros -> -> Hf Hg. cbn [negb].
  split.
  - destruct (clang.CXXMethodDecl.getOverloadedOperator f);
      (discriminate Hf || discriminate).
  - destruct (clang.CXXMethodDecl.getOverloadedOperator f);
      try discriminate Hf;
      destruct (clang.CXXMethodDecl.getOverloadedOperator g);
      try discriminate Hg; intros H; try reflexivity; discriminate H.
Qed.

Lemma string_append_nil_r (s : string) : s +++ "" = s.
Proof.
  induction s as [|a s IH]; [reflexivity|].
  change (String a (s +++ "") = String a s). now rewrite IH.
Qed.

Lemma string_append_assoc (a b c : string) : (a +++ b) +++ c = a +++ (b +++ c).
Proof.
  induction a as [|x a IH]; [reflexivity|].
  change (String x ((a +++ b) +++ c) = String x (a +++ (b +++ c))). now rewrite IH.
Qed.

Lemma string_suffix_step (base s x : string) :
  (exists suffix, s = base +++ suffix) ->
  exists suffix, s +++ x = base +++ suffix.
Proof.
  intros [suffix ->]. exists (suffix +++ x). apply string_append_assoc.
Qed.

(** X17.  The description of a vtable entry starts with the signature
    that Clang computes for the function: the marks for destructor
    variants, pure functions and thunk adjustments are only appended. *)
Theorem X17_description_starts_with_the_signature
    (layout : clang.VTableLayout.t) (idx : nat)
    (kind : clang.VTableComponent.Kind) (func : clang.CXXMethodDecl.t) :
  exists suffix,
    VTableComponent.repr (ParseVTable_entry layout idx kind func)
    = clang.CXXMethodDecl.ComputeName func +++ suffix.
Proof.
  unfold ParseVTable_entry. cbv zeta.
  assert (H0 : exists suffix,
             clang.CXXMethodDecl.ComputeName func
             = clang.CXXMethodDecl.ComputeName func +++ suffix)
    by (exists ""; now rewrite string_append_nil_r).
  destruct (thunk_applies (GetThunkInfo layout idx)) as [thunk|];
    cbn [VTableComponent.repr];
    destruct kind; destruct (clang.CXXMethodDecl.isPure func);
    try destruct (negb (clang.ReturnAdjustment.isEmpty (clang.ThunkInfo.Return thunk)));
    try destruct (negb (clang.ReturnAdjustment.VBaseOffsetOffset
                          (clang.ThunkInfo.Return thunk) =? 0));
    try destruct (negb (clang.ThisAdjustment.isEmpty (clang.ThunkInfo.This thunk)));
    try destruct (negb (clang.ThisAdjustment.VCallOffsetOffset
                          (clang.ThunkInfo.This thunk) =? 0));
    rewrite <- ?string_append_assoc;
    repeat apply string_suffix_step; exact H0.
Qed.

Lemma lower_bound_suffix {A K} (less : A -> K -> bool) range key entry rest :
  lower_bound less range key = entry :: rest -> In entry range.
Proof.
  induction range as [|e range IH]; cbn; [discriminate|].
  destruct (less e key).
  - intros H. right. now apply IH.
  - intros H. injection H as -> _. now left.
Qed.

(** X19.  What [GetThunkInfo] finds is an entry of the thunk table at
    the index asked for; and on a table sorted by index it finds the entry
    of every index that has one. *)
Theorem X19_thunk_lookup (layout : clang.VTableLayout.t) (idx : nat) :
  (forall thunk,
     GetThunkInfo layout idx = Some thunk ->
     In (idx, thunk) (clang.VTableLayout.vtable_thunks layout))
  /\ (thunks_sorted layout ->
      forall thunk,
        In (idx, thunk) (clang.VTableLayout.vtable_thunks layout) ->
        GetThunkInfo layout idx = Some thunk).
Proof.
  split.
  - intros thunk. unfold GetThunkInfo. cbv zeta.
    destruct (lower_bound _ _ idx) as [|[i t] rest] eqn:E; [discriminate|].
    cbn. destruct (Nat.eqb_spec i idx) as [->|]; cbn; [|discriminate].
    intros H. injection H as ->.
    eapply lower_bound_suffix. exact E.
  - intros Hs thunk Hin. now apply GetThunkInfo_iff.
Qed.

(** ** The dump *)

Lemma map_injective_on {A B} (f : A -> B) (l : list A) :
  Forall (fun x => forall y, f x = f y -> x = y) l ->
  forall l', List.map f l = List.map f l' -> l = l'.
Proof.
  induction 1 as [|x l Hx _ IH]; intros [|y l'] H; try discriminate; [reflexivity|].
  cbn in H. injection H as Hxy Hl. f_equal; [now apply Hx|now apply IH].
Qed.

(** X22.  The dump of a type is lossless: two [ComplexType]s with the
    same JSON attributes are the same type. *)
Theorem X22_type_dump_is_injective (a b : ComplexType) :
  DumpComplexType a = DumpComplexType b -> a = b.
Proof.
  revert b.
  induction a as [name c v|p IH|e k IH|ps r IHps IHr|c p repr IHc IHp|v IH]
    using ComplexType_induction;
    intros b H; destruct b; cbn in H; try discriminate H.
  - injection H as -> -> ->. reflexivity.
  - injection H as H. f_equal. now apply IH.
  - injection H as H ->. f_equal. now apply IH.
  - injection H as Hps Hr. f_equal; [|now apply IHr].
    apply (map_injective_on (fun t => JObject (DumpComplexType t))); [|assumption].
    eapply List.Forall_impl; [|exact IHps].
    cbn. intros t Ht y Hy. injection Hy as Hy. now apply Ht.
  - injection H as Hc Hp ->. f_equal; [now apply IHc|now apply IHp].
  - injection H as H. f_equal. now apply IH.
Qed.

Lemma record_fields_not_monostate config D :
  Forall (fun f => Field.data f <> Field.monostate) (record_fields config D).
Proof.
  unfold record_fields. cbv zeta.
  repeat (apply List.Forall_app; split).
  - unfold vtable_pointer_fields. destruct (has_vtable_pointer _ _);
      repeat constructor. discriminate.
  - apply List.Forall_forall. intros f Hf.
    apply List.in_map_iff in Hf as (b & <- & _). discriminate.
  - apply List.Forall_forall. intros f Hf.
    apply counted_member_fields_In in Hf as (fd & _ & _ & ->).
    unfold member_data. destruct (clang.FieldDecl.getAsRecordDecl fd); discriminate.
  - apply List.Forall_forall. intros f Hf.
    apply List.in_map_iff in Hf as (b & <- & _). discriminate.
Qed.

Lemma DumpRecord_field_length l :
  Forall (fun f => Field.data f <> Field.monostate) l ->
  length (flat_map DumpRecord_field l) = length l.
Proof.
  induction 1 as [|f l Hf _ IH]; [reflexivity|].
  cbn [flat_map]. rewrite List.length_app, IH.
  unfold DumpRecord_field. destruct (Field.data f); cbn; congruence.
Qed.

(** X23.  No field of an extracted record is lost in the dump: for
    every record of the result of a run, the ["fields"] array of its dump
    has exactly one object per field of the record. *)
Theorem X23_dump_has_one_object_per_field
    (tool : clang.ClangTool.t) (config : ParseConfig.t) (r : Record_.t) :
  In r (ParseResult.records (ParseRecords tool config)) ->
  exists objects,
    json_attribute "fields" (DumpRecord r) = Some (JArray objects)
    /\ length objects = length (Record_.fields r).
Proof.
  intros Hr. apply ParseRecords_records in Hr as (D & s0 & _ & _ & ->).
  eexists. split; [reflexivity|].
  apply DumpRecord_field_length.
  rewrite BuildRecord_fields. apply record_fields_not_monostate.
Qed.

Lemma DumpRecord_component_length l :
  length (flat_map DumpRecord_component l) = length l.
Proof.
  induction l as [|c l IH]; [reflexivity|].
  cbn [flat_map]. rewrite List.length_app, IH. destruct c; reflexivity.
Qed.

Lemma json_attribute_vtable record :
  json_attribute "vtable" (DumpRecord record)
  = Some match Record_.vtable record with
         | Some vtable =>
             JArray (flat_map DumpRecord_component (VTable.components vtable))
         | None => JNull
         end.
Proof. unfold DumpRecord. destruct (Record_.vtable record); reflexivity. Qed.

Lemma BuildRecord_vtable self D :
  Record_.vtable (BuildRecord self D)
  = match clang.RecordDecl.dyn_cast_CXXRecordDecl D with
    | Some CXXRD => ParseVTable D CXXRD
    | None => None
    end.
Proof.
  unfold BuildRecord. cbv zeta. rewrite AddFields_eq.
  destruct (clang.RecordDecl.dyn_cast_CXXRecordDecl D); reflexivity.
Qed.

(** X24.  The dumped vtable follows the oracle: for a dynamic C++ class
    under the Itanium vtable context, the ["vtable"] attribute of the dump
    of its record is an array with exactly one object per component of the
    vtable layout of the class; for any other declaration it is null. *)
Theorem X24_dumped_vtable_follows_the_oracle
    (self : ParseContextImpl) (D : clang.RecordDecl.t) :
  match clang.RecordDecl.dyn_cast_CXXRecordDecl D with
  | Some CXXRD =>
      if clang.ASTContext.hasItaniumVTableContext
           (clang.TagDecl.getASTContext (clang.RecordDecl.asTagDecl D))
         && clang.CXXRecordDecl.isDynamicClass CXXRD
      then exists objects,
             json_attribute "vtable" (DumpRecord (BuildRecord self D))
             = Some (JArray objects)
             /\ length objects
                = length (clang.VTableLayout.vtable_components
                            (clang.CXXRecordDecl.getVTableLayout CXXRD))
      else json_attribute "vtable" (DumpRecord (BuildRecord self D)) = Some JNull
  | None => json_attribute "vtable" (DumpRecord (BuildRecord self D)) = Some JNull
  end.
Proof.
  rewrite json_attribute_vtable, BuildRecord_vtable.
  destruct (clang.RecordDecl.dyn_cast_CXXRecordDecl D) as [CXXRD|]; [|reflexivity].
  unfold ParseVTable.
  destruct (clang.ASTContext.hasItaniumVTableContext _); cbn; [|reflexivity].
  destruct (clang.CXXRecordDecl.isDynamicClass CXXRD); cbn; [|reflexivity].
  eexists. split; [reflexivity|].
  rewrite DumpRecord_component_length, ParseVTable_loop. cbn.
  now rewrite List.length_map, length_enumerate.
Qed.

(** ** Where records come from, and in which order *)

Lemma TraverseAST_records_strong decls s r :
  In r (ParseResult.records (m_result (TraverseAST s decls))) ->
  In r (ParseResult.records (m_result s))
  \/ exists D,
       In (clang.VisitedRecordDecl (Some D)) decls
       /\ gate_open (clang.RecordDecl.asTagDecl D) = true
       /\ inlined (m_config s) D = false
       /\ Record_.name r = printed_name (clang.RecordDecl.asTagDecl D).
Proof.
  revert s. induction decls as [|d decls IH]; intros s Hr; [now left|].
  rewrite TraverseAST_cons in Hr.
  apply IH in Hr as [Hr|(D & Hin & G & I & Hn)].
  - apply VisitDecl_records in Hr as [Hr|(D & -> & -> & G & _ & I)]; [now left|].
    right. exists D. split; [now left|]. split; [assumption|].
    split; [assumption|apply BuildRecord_name].
  - right. exists D. split; [now right|]. split; [assumption|].
    split; [|assumption]. now rewrite VisitDecl_config in I.
Qed.

Lemma units_records_strong units s r :
  In r (ParseResult.records (m_result (fold_left HandleTranslationUnit units s))) ->
  In r (ParseResult.records (m_result s))
  \/ exists TU D,
       In TU units
       /\ unit_is_Itanium TU = true
       /\ In (clang.VisitedRecordDecl (Some D)) (clang.TranslationUnit.decls TU)
       /\ gate_open (clang.RecordDecl.asTagDecl D) = true
       /\ inlined (m_config s) D = false
       /\ Record_.name r = printed_name (clang.RecordDecl.asTagDecl D).
Proof.
  revert s. induction units as [|TU units IH]; intros s Hr; [now left|].
  cbn in Hr. apply IH in Hr as [Hr|(TU' & D & Hin & HI & Hd & G & I & Hn)].
  - unfold HandleTranslationUnit in Hr.
    destruct (clang.ASTContext.isItaniumFamily (clang.TranslationUnit.Ctx TU)) eqn:HI;
      cbn in Hr; [|now left].
    apply TraverseAST_records_strong in Hr as [Hr|(D & Hin & G & I & Hn)]; [now left|].
    right. exists TU, D. split; [now left|]. auto 6.
  - right. exists TU', D. split; [now right|].
    rewrite HandleTranslationUnit_config in I. auto 6.
Qed.

(** X6.  A record is emitted only for a definition that passed the gate
    and was not inlined: every record of the result of a run carries the
    printed name of a record definition that was visited in a translation
    unit of the Itanium family, is valid, complete and not a template
    pattern, and is not selected by [ShouldInlineEmptyRecord] under the
    configuration of the run. *)
Theorem X6_records_come_from_accepted_definitions
    (tool : clang.ClangTool.t) (config : ParseConfig.t) (r : Record_.t) :
  In r (ParseResult.records (ParseRecords tool config)) ->
  exists TU D,
    In TU (clang.ClangTool.units tool)
    /\ unit_is_Itanium TU = true
    /\ In (clang.VisitedRecordDecl (Some D)) (clang.TranslationUnit.decls TU)
    /\ gate_open (clang.RecordDecl.asTagDecl D) = true
    /\ inlined config D = false
    /\ Record_.name r = printed_name (clang.RecordDecl.asTagDecl D).
Proof.
  unfold ParseRecords. cbv zeta.
  assert (H : forall res e, ParseResult.records (ParseResult.AddErrorContext res e)
                            = ParseResult.records res) by reflexivity.
  destruct (negb _); [rewrite H|]; intros Hr;
    apply units_records_strong in Hr as [[]|Hr]; exact Hr.
Qed.

Lemma VisitDecl_record_names s d :
  exists added,
    List.map Record_.name (ParseResult.records (m_result (VisitDecl s d)))
    = List.map Record_.name (ParseResult.records (m_result s)) ++ added
    /\ sublist added (visited_record_names [d]).
Proof.
  destruct d as [[E|]|[R|]|]; cbn [VisitDecl].
  - exists []. rewrite List.app_nil_r. split; [|apply sublist_nil_l].
    rewrite HandleEnumDecl_eq. cbv zeta.
    destruct (gate_open _ && _) eqn:G; [|reflexivity].
    now destruct (HandleEnumDecl_accepted s E G) as (_ & _ & -> & _).
  - exists []. rewrite List.app_nil_r. split; [reflexivity|apply sublist_nil_l].
  - rewrite HandleRecordDecl_eq. cbv zeta.
    destruct (gate_open _ && _).
    + destruct (inlined _ R).
      * exists []. rewrite List.app_nil_r. split; [reflexivity|apply sublist_nil_l].
      * exists [printed_name (clang.RecordDecl.asTagDecl R)]. split; [|reflexivity].
        cbn. rewrite List.map_app. cbn [List.map]. now rewrite BuildRecord_name.
    + exists []. rewrite List.app_nil_r. split; [reflexivity|apply sublist_nil_l].
  - exists []. rewrite List.app_nil_r. split; [reflexivity|apply sublist_nil_l].
  - exists []. rewrite List.app_nil_r. split; [reflexivity|apply sublist_nil_l].
Qed.

Lemma TraverseAST_record_names decls : forall s,
  exists added,
    List.map Record_.name (ParseResult.records (m_result (TraverseAST s decls)))
    = List.map Record_.name (ParseResult.records (m_result s)) ++ added
    /\ sublist added (visited_record_names decls).
Proof.
  induction decls as [|d decls IH]; intros s.
  - exists []. rewrite List.app_nil_r. split; [reflexivity|constructor].
  - rewrite TraverseAST_cons.
    destruct (IH (VisitDecl s d)) as (k2 & -> & H2).
    destruct (VisitDecl_record_names s d) as (k1 & -> & H1).
    exists (k1 ++ k2). rewrite <- List.app_assoc. split; [reflexivity|].
    replace (visited_record_names (d :: decls))
      with (visited_record_names [d] ++ visited_record_names decls)
      by (unfold visited_record_names; cbn [flat_map]; now rewrite List.app_nil_r).
    now apply sublist_app.
Qed.

Lemma units_record_names units : forall s,
  exists added,
    List.map Record_.name
             (ParseResult.records (m_result (fold_left HandleTranslationUnit units s)))
    = List.map Record_.name (ParseResult.records (m_result s)) ++ added
    /\ sublist added
               (flat_map (fun TU => visited_record_names (clang.TranslationUnit.decls TU))
                         units).
Proof.
  induction units as [|TU units IH]; intros s.
  - exists []. rewrite List.app_nil_r. split; [reflexivity|constructor].
  - cbn [fold_left flat_map].
    destruct (IH (HandleTranslationUnit s TU)) as (k2 & -> & H2).
    assert (H1 : exists k1,
               List.map Record_.name
                        (ParseResult.records (m_result (HandleTranslationUnit s TU)))
               = List.map Record_.name (ParseResult.records (m_result s)) ++ k1
               /\ sublist k1 (visited_record_names (clang.TranslationUnit.decls TU))).
    { unfold HandleTranslationUnit. destruct (negb _).
      - exists []. rewrite List.app_nil_r. split; [reflexivity|apply sublist_nil_l].
      - apply TraverseAST_record_names. }
    destruct H1 as (k1 & -> & H1).
    exists (k1 ++ k2). rewrite <- List.app_assoc. split; [reflexivity|].
    now apply sublist_app.
Qed.

(** X18.  Records come out in the order in which their definitions are
    visited: the names of the records of a result form a subsequence of the
    printed names of the record definitions visited, taken unit by unit
    and declaration by declaration. *)
Theorem X18_records_follow_the_visit_order
    (tool : clang.ClangTool.t) (config : ParseConfig.t) :
  sublist
    (List.map Record_.name (ParseResult.records (ParseRecords tool config)))
    (flat_map (fun TU => visited_record_names (clang.TranslationUnit.decls TU))
              (clang.ClangTool.units tool)).
Proof.
  destruct (units_record_names (clang.ClangTool.units tool) (Make empty_result config))
    as (added & Heq & Hsub).
  unfold ParseRecords. cbv zeta. fold empty_result.
  assert (H : forall res e, ParseResult.records (ParseResult.AddErrorContext res e)
                            = ParseResult.records res) by reflexivity.
  destruct (negb _); [rewrite H|]; rewrite Heq; exact Hsub.
Qed.

(** ** The tool *)

Lemma string_append_not_empty (s : string) (a : Ascii.ascii) :
  String.eqb (s +++ String a "") "" = false.
Proof. destruct s; reflexivity. Qed.

(** X25.  Whenever the command line parses, the tool exits with 0 and
    writes a document with the enums and the records of the result, one
    object each, also when the run failed; it writes to the error stream
    exactly when the result is not a success, that is when the tool
    returned non-zero or a unit is of an unsupported family. *)
Theorem X25_exit_code_and_error_stream (Tool : clang.ClangTool.t) (inline : bool) :
  let config := {| ParseConfig.inline_empty_structs := inline |} in
  let result := ParseRecords Tool config in
  let output := main (Some (Tool, inline)) in
  exit_code output = 0
  /\ String.eqb (errs output) ""
     = (clang.ClangTool.run Tool =? 0)
       && forallb unit_is_Itanium (clang.ClangTool.units Tool)
  /\ exists enums records,
       outs output = Some (JObject [ ("enums", JArray enums);
                                     ("records", JArray records) ])
       /\ length enums = length (ParseResult.enums result)
       /\ length records = length (ParseResult.records result).
Proof.
  cbv zeta. unfold main. cbn [exit_code errs outs].
  split; [reflexivity|]. split.
    assert (Hok : ParseResult.ok
                    (ParseRecords Tool {| ParseConfig.inline_empty_structs := inline |})
                  = (clang.ClangTool.run Tool =? 0)
                    && forallb unit_is_Itanium (clang.ClangTool.units Tool)).
    { unfold ParseRecords, ParseResult.ok. cbv zeta.
      destruct (clang.ClangTool.run Tool =? 0); cbn [negb andb].
      - rewrite units_error. cbn. destruct (forallb _ _); reflexivity.
      - reflexivity. }
    rewrite <- Hok. unfold ParseResult.ok.
    destruct (String.eqb (ParseResult.error _) ""); cbn [negb]; [reflexivity|].
    apply string_append_not_empty.
  - eexists. eexists. split; [reflexivity|].
    now rewrite !List.length_map.
Qed.

End Classgen.

(** * Concrete runs *)

(** Scenario 1: the enum is extracted with its underlying size and its
    enumerators as decimal text. *)
Example scenario1_enum :
  ParseResult.enums
    (ParseRecords print_type
       (one_unit Itanium_context [clang.VisitedEnumDecl (Some (Color_decl Itanium_context))])
       inlining_off)
  = [ {| Enum.is_scoped := true;
         Enum.is_anonymous := false;
         Enum.underlying_type_size := 1;
         Enum.name := "Color";
         Enum.underlying_type_name := "unsigned char";
         Enum.enumerators :=
           [ {| Enum.identifier := "Red"; Enum.value := "0" |};
             {| Enum.identifier := "Green"; Enum.value := "1" |} ] |} ].
Proof. vm_compute. reflexivity. Qed.

(** Scenario 2 with inlining on: the only record is [Derived], with the
    single member field [x] at offset 0. *)
Example scenario2_records :
  ParseResult.records (ParseRecords print_type scenario2 inlining_on)
  = [ {| Record_.is_anonymous := false;
         Record_.kind := Record_.Struct;
         Record_.name := "Derived";
         Record_.size := 4;
         Record_.data_size := 4;
         Record_.alignment := 4;
         Record_.fields :=
           [ {| Field.offset := 0;
                Field.data :=
                  Field.MemberVariable 0 (ComplexTypeName "int" false false) "int" "x" |} ];
         Record_.vtable := None |} ].
Proof. vm_compute. reflexivity. Qed.

(** Scenario 3: a vtable pointer at offset 0, then the member; the
    vtable is [OffsetToTop, RTTI, FunctionPointer]. *)
Example scenario3_record :
  List.map (fun r => (List.map (fun f => (Field.offset f, Field.data f)) (Record_.fields r),
                      option_map (fun v => List.map component_tag (VTable.components v))
                                 (Record_.vtable r)))
           (ParseResult.records
              (ParseRecords print_type
                 (one_unit Itanium_context [clang.VisitedRecordDecl (Some Poly_decl)])
                 inlining_off))
  = [ ([ (0, Field.VTablePointer);
         (8, Field.MemberVariable 0 (ComplexTypeName "int" false false) "int" "x") ],
       Some [TagOffsetToTop; TagRTTI; TagFunctionPointer]) ].
Proof. vm_compute. reflexivity. Qed.

(** Bases declared out of offset order come out by ascending offset, the
    member follows, the virtual base is last; no vtable pointer is added
    since [A] is the primary base. *)
Example Both_fields :
  List.map (fun f => (Field.offset f, Field.data f))
           (Record_.fields (BuildRecord print_type (Make empty_result inlining_off) Both_decl))
  = [ (0, Field.Base true false "A");
      (8, Field.Base false false "B");
      (16, Field.MemberVariable 0 (ComplexTypeName "int" false false) "int" "m");
      (20, Field.Base false true "V") ].
Proof. vm_compute. reflexivity. Qed.

(** The counter of [AddDataMembers] does not advance on an unnamed
    bitfield while the layout has a slot for it: in [Gap], member [b] is
    given the offset of the slot of the unnamed bitfield, byte 0, although
    its own slot is at bit 32, byte 4. *)
Example Gap_member_after_unnamed_bitfield :
  List.map (fun f => (Field.offset f, Field.data f))
           (Record_.fields
              (AddDataMembers print_type (Make empty_result inlining_off) empty_record 0
                              Gap_decl (clang.RecordDecl.getASTRecordLayout Gap_decl)))
  = [ (0, Field.MemberVariable 3 (ComplexTypeName "int" false false) "int" "a");
      (0, Field.MemberVariable 0 (ComplexTypeName "int" false false) "int" "b") ]
  /\ own_offset Gap_decl (clang.RecordDecl.getASTRecordLayout Gap_decl) 0 2 = 4.
Proof. split; vm_compute; reflexivity. Qed.

(** ** C1 *)

(** With inlining on, [VE] keeps its vtable pointer and its member; the
    empty virtual base yields no field. *)
Example VE_fields :
  List.map (fun f => (Field.offset f, Field.data f))
           (Record_.fields (BuildRecord print_type (Make empty_result inlining_on) VE_decl))
  = [ (0, Field.VTablePointer);
      (8, Field.MemberVariable 0 (ComplexTypeName "int" false false) "int" "m") ].
Proof. vm_compute. reflexivity. Qed.

(** In scenario 2 with inlining on, [Empty] is a visited record that
    satisfies the policy and the result has no record of that name. *)
Lemma C1_counterexample : ~ C1_as_worded print_type scenario2 inlining_on.
Proof.
  intros H.
  destruct (H eq_refl Empty_decl) as (r & Hin & Hname & _).
  - exists {| clang.TranslationUnit.Ctx := Itanium_context;
              clang.TranslationUnit.decls :=
                [clang.VisitedRecordDecl (Some Empty_decl);
                 clang.VisitedRecordDecl (Some Derived_decl)] |}.
    split; [now left|now left].
  - reflexivity.
  - reflexivity.
  - rewrite scenario2_records in Hin. destruct Hin as [<-|[]].
    vm_compute in Hname. discriminate.
Qed.

(** [Empty] under inlining: the visit only registers the name; [Derived]
    is built as without its base [Empty], [VE] as without its virtual base
    [Empty], [Holder] as without its member [e], and the union [Either]
    keeps its member [e]. *)
Lemma C1_witness :
  let self := Make empty_result inlining_on in
  ParseConfig.inline_empty_structs (m_config self) = true
  /\ empty_record_policy Empty_decl = true
  /\ ShouldInlineEmptyRecord self Empty_decl = true
  /\ m_result (HandleRecordDecl print_type self (Some Empty_decl)) = m_result self
  /\ HandleRecordDecl print_type self (Some Empty_decl) = register self "Empty"
  /\ Record_.fields (BuildRecord print_type self Derived_decl)
     = Record_.fields (BuildRecord print_type self (with_bases Derived_decl [] []))
  /\ Record_.fields (BuildRecord print_type self VE_decl)
     = Record_.fields
         (BuildRecord print_type self
            (with_bases VE_decl (clang.CXXRecordDecl.bases VE_class) []))
  /\ List.map Field.data (Record_.fields (BuildRecord print_type self Holder_decl))
     = List.map Field.data
         (Record_.fields
            (BuildRecord print_type self (with_fields Holder_decl [int_member "x"])))
  /\ In (member_data print_type (record_member "e" Empty_decl))
        (List.map Field.data (Record_.fields (BuildRecord print_type self Either_decl))).
Proof.
  intros self.
  split; [reflexivity|]. split; [reflexivity|].
  destruct (C1_inlined_record_is_omitted_everywhere print_type self Empty_decl
              eq_refl eq_refl)
    as (H1 & H2 & H3 & H4 & H5 & H6 & H7).
  split; [exact H1|]. split; [exact H2|].
  split; [exact (H3 eq_refl (not_elem_of_empty _))|].
  split.
  { exact (H4 Derived_decl _ [] []
              {| clang.CXXBaseSpecifier.isVirtual := false;
                 clang.CXXBaseSpecifier.getAsCXXRecordDecl := Empty_decl |}
              eq_refl eq_refl eq_refl). }
  split.
  { exact (H5 VE_decl _ [] []
              {| clang.CXXBaseSpecifier.isVirtual := true;
                 clang.CXXBaseSpecifier.getAsCXXRecordDecl := Empty_decl |}
              eq_refl eq_refl eq_refl). }
  split.
  { exact (H6 Holder_decl [] [int_member "x"] (record_member "e" Empty_decl)
              eq_refl eq_refl eq_refl). }
  exact (H7 Either_decl (record_member "e" Empty_decl) eq_refl
            (or_introl eq_refl) eq_refl eq_refl).
Defined.

(** ** C2 *)

(** Under the Microsoft family the enum of the unit is not emitted. *)
Lemma C2_counterexample :
  ~ C2_as_worded print_type (Make empty_result inlining_off) Microsoft_unit.
Proof.
  intros H. destruct (H eq_refl) as (_ & _ & Henums & _).
  vm_compute in Henums. discriminate.
Qed.

Lemma C2_witness :
  clang.ASTContext.isItaniumFamily (clang.TranslationUnit.Ctx Microsoft_unit) = false
  /\ ParseResult.error
       (m_result (HandleTranslationUnit print_type (Make empty_result inlining_off)
                                        Microsoft_unit))
     = Itanium_only_message
  /\ ParseResult.enums
       (m_result (HandleTranslationUnit print_type (Make empty_result inlining_off)
                                        Microsoft_unit))
     = [].
Proof.
  split; [reflexivity|].
  destruct (C2_unsupported_abi_stops_the_unit print_type
              (Make empty_result inlining_off) Microsoft_unit eq_refl)
    as (H1 & H2 & _).
  split; [exact H1|exact H2].
Defined.

(** ** C3 *)

(** With inlining on, member [e] of [Holder] has the inlined type [Empty]
    and yields no field. *)
Example Holder_member_of_inlined_type :
  ~ C3_as_worded print_type (Make empty_result inlining_on) empty_record 0 Holder_decl.
Proof.
  unfold C3_as_worded. vm_compute. intros H. discriminate.
Qed.

(** The members of [Gap] that come before its unnamed bitfield are at
    their own offsets. *)
Example Gap_members_before_unnamed_bitfield :
  exists rest,
    Record_.fields
      (AddDataMembers print_type (Make empty_result inlining_off) empty_record 0 Gap_decl
                      (clang.RecordDecl.getASTRecordLayout Gap_decl))
    = member_fields_at print_type
        (member_kept (m_config (Make empty_result inlining_off)) Gap_decl)
        Gap_decl (clang.RecordDecl.getASTRecordLayout Gap_decl) 0 0
        [int_bitfield "a" 3]
      ++ rest.
Proof.
  assert (H1 : Forall (fun fd : clang.FieldDecl.t clang.RecordDecl.t =>
                         clang.FieldDecl.isUnnamedBitfield fd = false)
                      [int_bitfield "a" 3])
    by (repeat constructor).
  assert (H2 : offsets_in_range Gap_decl (clang.RecordDecl.getASTRecordLayout Gap_decl) 0).
  { unfold offsets_in_range. cbn. split; [lia|]. split; [lia|].
    repeat constructor; lia. }
  destruct (members_in_declaration_order_at_own_offset print_type
              (Make empty_result inlining_off) empty_record 0 Gap_decl
              (clang.RecordDecl.getASTRecordLayout Gap_decl)
              [int_bitfield "a" 3] [int_bitfield "" 5; int_member "b"]
              eq_refl H1 H2)
    as (members & rest & Ha & _ & Hb).
  exists rest. now rewrite Ha, Hb.
Qed.

(** C3, a defect of the code.  [struct Gap { int a : 3; int : 5; int b; }]
    with inlining off.  The layout has one slot per field declaration, the
    unnamed bitfield included: bits 0, 3 and 32, so the own offset of [b] is
    byte 4, and the claim asks for [a] at byte 0 and [b] at byte 4.
    [AddDataMembers] skips the unnamed bitfield before it advances its
    counter, reads for [b] the slot of the unnamed bitfield, and emits [b]
    at byte 0; the record of a run over [Gap] has that field list.  The
    claim as worded fails on [Gap]. *)
Theorem C3_member_after_unnamed_bitfield_misplaced :
  let self := Make empty_result inlining_off in
  let layout := clang.RecordDecl.getASTRecordLayout Gap_decl in
  let a := Field.MemberVariable 3 (ComplexTypeName "int" false false) "int" "a" in
  let b := Field.MemberVariable 0 (ComplexTypeName "int" false false) "int" "b" in
  clang.ASTRecordLayout.FieldOffsets layout = [0; 3; 32]
  /\ member_fields_at print_type
       (fun fd => negb (clang.FieldDecl.isUnnamedBitfield fd))
       Gap_decl layout 0 0 (clang.RecordDecl.fields Gap_decl)
     = [ {| Field.offset := 0; Field.data := a |};
         {| Field.offset := 4; Field.data := b |} ]
  /\ Record_.fields (AddDataMembers print_type self empty_record 0 Gap_decl layout)
     = [ {| Field.offset := 0; Field.data := a |};
         {| Field.offset := 0; Field.data := b |} ]
  /\ List.map Record_.fields
       (ParseResult.records
          (ParseRecords print_type
             (one_unit Itanium_context [clang.VisitedRecordDecl (Some Gap_decl)])
             inlining_off))
     = [ [ {| Field.offset := 0; Field.data := a |};
           {| Field.offset := 0; Field.data := b |} ] ]
  /\ ~ C3_as_worded print_type self empty_record 0 Gap_decl.
Proof.
  cbv zeta.
  split; [reflexivity|]. split; [vm_compute; reflexivity|].
  split; [vm_compute; reflexivity|]. split; [vm_compute; reflexivity|].
  unfold C3_as_worded. vm_compute. intros H. discriminate.
Qed.

(** ** C4 *)

(** [VB] has a virtual base and no virtual function: it is not
    polymorphic and has no primary base, and its fields open with the vtable
    pointer. *)
Example VB_fields :
  List.map (fun f => (Field.offset f, Field.data f))
           (Record_.fields (BuildRecord print_type (Make empty_result inlining_off) VB_decl))
  = [ (0, Field.VTablePointer);
      (8, Field.MemberVariable 0 (ComplexTypeName "int" false false) "int" "m");
      (12, Field.Base false true "V") ].
Proof. vm_compute. reflexivity. Qed.

Lemma C4_counterexample :
  ~ C4_as_worded print_type (Make empty_result inlining_off) VB_decl VB_class false.
Proof.
  intros H. destruct (H eq_refl eq_refl) as [H1 _].
  destruct (H1 eq_refl) as [E _]. discriminate E.
Qed.

(** [Both], its two non-virtual bases declared out of offset order, with
    a member and a virtual base. *)
Lemma C4_witness :
  let tool := one_unit Itanium_context [clang.VisitedRecordDecl (Some Both_decl)] in
  let config := inlining_off in
  let r := BuildRecord print_type (Make empty_result inlining_off) Both_decl in
  (forall D CXXRD,
     visited_definition tool D ->
     clang.RecordDecl.dyn_cast_CXXRecordDecl D = Some CXXRD ->
     Clang_isDynamicClass CXXRD true)
  /\ In r (ParseResult.records (ParseRecords print_type tool config))
  /\ exists D nv vb members,
       let layout := clang.RecordDecl.getASTRecordLayout D in
       visited_definition tool D
       /\ Record_.name r = printed_name print_type (clang.RecordDecl.asTagDecl D)
       /\ is_stable_sort_by
            (fun b => clang.ASTRecordLayout.getBaseClassOffset layout
                        (clang.RecordDecl.decl_id b))
            (nonvirtual_bases D) nv
       /\ is_stable_sort_by
            (fun b => clang.ASTRecordLayout.getVBaseClassOffset layout
                        (clang.RecordDecl.decl_id b))
            (virtual_bases D) vb
       /\ List.map Field.data members
          = List.map (member_data print_type)
                     (List.filter (member_kept config D) (clang.RecordDecl.fields D))
       /\ Record_.fields r
          = (if opens_with_vtable_pointer true D then [vtable_pointer_field] else [])
            ++ List.map
                 (base_field print_type 0 (clang.ASTRecordLayout.getBaseClassOffset layout)
                             (clang.ASTRecordLayout.getPrimaryBase layout) false)
                 (kept_bases config nv)
            ++ members
            ++ List.map
                 (base_field print_type 0 (clang.ASTRecordLayout.getVBaseClassOffset layout)
                             (clang.ASTRecordLayout.getPrimaryBase layout) true)
                 (kept_bases config vb).
Proof.
  intros tool config r.
  assert (Hclang : forall D CXXRD,
             visited_definition tool D ->
             clang.RecordDecl.dyn_cast_CXXRecordDecl D = Some CXXRD ->
             Clang_isDynamicClass CXXRD ((fun _ => true) D)).
  { intros D CXXRD (TU & [<-|[]] & [E|[]]) Hc.
    injection E as <-. injection Hc as <-. reflexivity. }
  assert (Hin : In r (ParseResult.records (ParseRecords print_type tool config)))
    by (vm_compute; left; reflexivity).
  split; [exact Hclang|]. split; [exact Hin|].
  exact (C4_field_order print_type tool config (fun _ => true) r Hclang Hin).
Defined.

(** ** C5 *)

Lemma C5_witness :
  clang.ASTContext.hasItaniumVTableContext
    (clang.TagDecl.getASTContext (clang.RecordDecl.asTagDecl Poly_decl)) = true
  /\ clang.CXXRecordDecl.isDynamicClass Poly_class = true
  /\ exists vtable,
       ParseVTable print_type Poly_decl Poly_class = Some vtable
       /\ length (VTable.components vtable) = 3%nat.
Proof.
  split; [reflexivity|]. split; [reflexivity|].
  destruct (C5_vtable_components_follow_oracle print_type Poly_decl Poly_class
              eq_refl eq_refl)
    as (vtable & H1 & H2 & _).
  exists vtable. split; [exact H1|exact H2].
Defined.

(** ** C6 *)

(** In the vtable of [Both], component 6 is the thunk for [g]: only its
    this-adjustment is filled. *)
Lemma C6_witness :
  exists vtable out e,
    ParseVTable print_type Both_decl Both_class = Some vtable
    /\ thunks_sorted (clang.CXXRecordDecl.getVTableLayout Both_class)
    /\ Itanium_thunks (clang.CXXRecordDecl.getVTableLayout Both_class)
    /\ nth_error (VTable.components vtable) 6 = Some out
    /\ function_entry out = Some e
    /\ (VTableComponent.is_thunk e = true
        <-> has_thunk_at (clang.CXXRecordDecl.getVTableLayout Both_class) 6)
    /\ (VTableComponent.return_adjustment e,
        VTableComponent.return_adjustment_vbase_offset_offset e,
        VTableComponent.this_adjustment e,
        VTableComponent.this_adjustment_vcall_offset_offset e) = (0, 0, -8, 0).
Proof.
  eexists. eexists. eexists.
  assert (Hs : thunks_sorted (clang.CXXRecordDecl.getVTableLayout Both_class))
    by (unfold thunks_sorted; cbn; repeat constructor).
  assert (Hi : Itanium_thunks (clang.CXXRecordDecl.getVTableLayout Both_class))
    by (unfold Itanium_thunks; cbn; repeat constructor).
  split; [vm_compute; reflexivity|].
  split; [exact Hs|].
  split; [exact Hi|].
  split; [vm_compute; reflexivity|].
  split; [vm_compute; reflexivity|].
  split; [|vm_compute; reflexivity].
  refine (proj1 (C6_thunk_attribution print_type Both_decl Both_class _ 6 _ _ _ Hs Hi _ _));
    vm_compute; reflexivity.
Defined.

(** ** C7 *)

Lemma C7_witness :
  let d := clang.VisitedRecordDecl (Some Derived_decl) in
  let s := VisitDecl print_type (Make empty_result inlining_off) d in
  decl_tag d = Some (clang.RecordDecl.asTagDecl Derived_decl)
  /\ gate_open (clang.RecordDecl.asTagDecl Derived_decl) = true
  /\ later print_type s s
  /\ VisitDecl print_type s d = s.
Proof.
  intros d s.
  split; [reflexivity|]. split; [reflexivity|]. split; [constructor|].
  apply (proj1 (C7_first_visit_wins_and_rerun_is_identity print_type)
               (Make empty_result inlining_off) d
               (clang.RecordDecl.asTagDecl Derived_decl) s d
               (clang.RecordDecl.asTagDecl Derived_decl));
    [reflexivity|reflexivity|constructor|reflexivity|reflexivity].
Defined.

(** ** C9 *)

(** The two bitfields of [Bits] lie in byte 0 of a struct. *)
Lemma C9_counterexample :
  ~ C9_as_worded
      (ParseRecords print_type
         (one_unit Itanium_context [clang.VisitedRecordDecl (Some Bits_decl)])
         inlining_off).
Proof.
  intros H.
  specialize (H (BuildRecord print_type (Make empty_result inlining_off) Bits_decl)).
  assert (Hin : In (BuildRecord print_type (Make empty_result inlining_off) Bits_decl)
                   (ParseResult.records
                      (ParseRecords print_type
                         (one_unit Itanium_context
                                   [clang.VisitedRecordDecl (Some Bits_decl)])
                         inlining_off)))
    by (vm_compute; left; reflexivity).
  assert (Hk : Record_.kind (BuildRecord print_type (Make empty_result inlining_off) Bits_decl)
               <> Record_.Union)
    by (vm_compute; discriminate).
  specialize (H Hin Hk). vm_compute in H.
  inversion H as [|x l Hnot _]. apply Hnot. now left.
Qed.

Lemma C9_witness :
  let self := Make empty_result inlining_off in
  offsets_in_range Poly_decl (clang.RecordDecl.getASTRecordLayout Poly_decl) 0
  /\ base_offsets_in_range Poly_decl
  /\ Forall (fun fd => clang.FieldDecl.isUnnamedBitfield fd = false)
            (clang.RecordDecl.fields Poly_decl)
  /\ Permutation
       (List.map Field.offset (Record_.fields (BuildRecord print_type self Poly_decl)))
       (layout_byte_offsets print_type (m_config self) Poly_decl)
  /\ List.NoDup (layout_byte_offsets print_type (m_config self) Poly_decl)
  /\ List.NoDup
       (List.map Field.offset (Record_.fields (BuildRecord print_type self Poly_decl))).
Proof.
  intros self.
  assert (H1 : offsets_in_range Poly_decl (clang.RecordDecl.getASTRecordLayout Poly_decl) 0).
  { unfold offsets_in_range. cbn. split; [lia|]. split; [lia|].
    repeat constructor; lia. }
  assert (H2 : base_offsets_in_range Poly_decl) by (split; constructor).
  assert (H3 : Forall (fun fd : clang.FieldDecl.t clang.RecordDecl.t =>
                         clang.FieldDecl.isUnnamedBitfield fd = false)
                      (clang.RecordDecl.fields Poly_decl))
    by (repeat constructor).
  assert (H4 : List.NoDup (layout_byte_offsets print_type (m_config self) Poly_decl)).
  { vm_compute. constructor; [|constructor; [intros []|constructor]].
    intros [E|[]]. discriminate. }
  destruct (C9_fields_share_an_offset_exactly_when_the_layout_does print_type
              self Poly_decl H1 H2 H3)
    as (Hperm & Hiff).
  split; [exact H1|]. split; [exact H2|]. split; [exact H3|]. split; [exact Hperm|].
  split; [exact H4|exact (proj2 Hiff H4)].
Defined.

(** ** C10 *)

Lemma C10_witness :
  let self := Make empty_result inlining_on in
  let s1 := HandleRecordDecl print_type self (Some Empty_decl) in
  let s' := TraverseAST print_type s1 [clang.VisitedRecordDecl (Some Derived_decl)] in
  ParseConfig.inline_empty_structs (m_config self) = true
  /\ empty_record_policy Empty_decl = true
  /\ gate_open (clang.RecordDecl.asTagDecl Empty_decl) = true
  /\ (printed_name print_type (clang.RecordDecl.asTagDecl Empty_decl) ∉ m_processed self)
  /\ registry_covers self
  /\ later print_type s1 s'
  /\ (printed_name print_type (clang.RecordDecl.asTagDecl Empty_decl) ∈ m_processed s1)
  /\ forall r, In r (ParseResult.records (m_result s')) ->
               Record_.name r
               <> printed_name print_type (clang.RecordDecl.asTagDecl Empty_decl).
Proof.
  intros self s1 s'.
  assert (H4 : printed_name print_type (clang.RecordDecl.asTagDecl Empty_decl)
               ∉ m_processed self)
    by (apply not_elem_of_empty).
  assert (H5 : registry_covers self) by (intros r []).
  assert (H6 : later print_type s1 s') by (apply later_TraverseAST).
  split; [reflexivity|]. split; [reflexivity|]. split; [reflexivity|].
  split; [exact H4|]. split; [exact H5|]. split; [exact H6|].
  destruct (C10_inlined_name_is_registered print_type self Empty_decl s'
              eq_refl eq_refl eq_refl H4 H5 H6)
    as (Ha & _ & _ & Hb).
  split; [exact Ha|exact Hb].
Defined.

(** ** Further concrete runs *)

Lemma X1_witness :
  getCanonicalType (QT true false (PointerType Int_typedef))
  = getCanonicalType (QT true false (PointerType (named_type "int")))
  /\ TranslateToComplexType print_type (QT true false (PointerType Int_typedef))
     = TranslateToComplexType print_type (QT true false (PointerType (named_type "int"))).
Proof.
  split; [reflexivity|].
  apply (X1_translation_depends_on_canonical_type print_type). reflexivity.
Defined.

(** The enum [Color], seen for the first time. *)
Lemma X5_witness :
  let self := Make empty_result inlining_off in
  let E := Color_decl Itanium_context in
  gate_open (clang.EnumDecl.asTagDecl E) = true
  /\ (printed_name print_type (clang.EnumDecl.asTagDecl E) ∉ m_processed self)
  /\ exists e,
       ParseResult.enums (m_result (HandleEnumDecl print_type self (Some E))) = [e]
       /\ Enum.name e = "Color".
Proof.
  intros self E.
  assert (H2 : printed_name print_type (clang.EnumDecl.asTagDecl E) ∉ m_processed self)
    by (apply not_elem_of_empty).
  split; [reflexivity|]. split; [exact H2|].
  destruct (X5_accepted_enum_is_appended print_type self E eq_refl H2)
    as (e & He & Hn & _).
  exists e. split; [exact He|exact Hn].
Defined.

(** A record of [scenario2] that is emitted comes from a definition of
    the unit. *)
Lemma X6_witness :
  let r := BuildRecord print_type (Make empty_result inlining_on) Derived_decl in
  In r (ParseResult.records (ParseRecords print_type scenario2 inlining_on))
  /\ exists D, gate_open (clang.RecordDecl.asTagDecl D) = true
               /\ inlined inlining_on D = false
               /\ Record_.name r = printed_name print_type (clang.RecordDecl.asTagDecl D).
Proof.
  intros r.
  assert (Hin : In r (ParseResult.records (ParseRecords print_type scenario2 inlining_on)))
    by (vm_compute; left; reflexivity).
  split; [exact Hin|].
  destruct (X6_records_come_from_accepted_definitions print_type scenario2 inlining_on r Hin)
    as (TU & D & _ & _ & _ & G & I & Hn).
  exists D. split; [exact G|]. split; [exact I|exact Hn].
Defined.

(** Without inlining, the empty record of [scenario2] is named in the
    result. *)
Lemma X8_witness :
  let TU := {| clang.TranslationUnit.Ctx := Itanium_context;
               clang.TranslationUnit.decls :=
                 [ clang.VisitedRecordDecl (Some Empty_decl);
                   clang.VisitedRecordDecl (Some Derived_decl) ] |} in
  let d := clang.VisitedRecordDecl (Some Empty_decl) in
  ParseConfig.inline_empty_structs inlining_off = false
  /\ In TU (clang.ClangTool.units scenario2)
  /\ unit_is_Itanium TU = true
  /\ In d (clang.TranslationUnit.decls TU)
  /\ decl_tag d = Some (clang.RecordDecl.asTagDecl Empty_decl)
  /\ gate_open (clang.RecordDecl.asTagDecl Empty_decl) = true
  /\ In "Empty" (result_names (ParseRecords print_type scenario2 inlining_off)).
Proof.
  intros TU d.
  assert (H2 : In TU (clang.ClangTool.units scenario2)) by (left; reflexivity).
  assert (H4 : In d (clang.TranslationUnit.decls TU)) by (left; reflexivity).
  split; [reflexivity|]. split; [exact H2|]. split; [reflexivity|].
  split; [exact H4|]. split; [reflexivity|]. split; [reflexivity|].
  exact (X8_every_visited_name_is_in_the_result print_type scenario2 inlining_off TU d
           (clang.RecordDecl.asTagDecl Empty_decl) eq_refl H2 eq_refl H4 eq_refl eq_refl).
Defined.

(** [Both]: a vtable pointer is not counted (the primary base holds it),
    two non-virtual bases, one member, one virtual base. *)
Lemma X12_witness :
  let self := Make empty_result inlining_off in
  ParseConfig.inline_empty_structs (m_config self) = false
  /\ length (Record_.fields (BuildRecord print_type self Both_decl)) = 4%nat.
Proof.
  intros self. split; [reflexivity|].
  exact (X12_no_field_dropped_without_inlining print_type self Both_decl eq_refl).
Defined.

(** A C record under inlining: [Plain] has a field and four bytes of
    data, yet it is inlined, and [Wrap] loses its member [p]. *)
Lemma X13_witness :
  let self := Make empty_result inlining_on in
  ParseConfig.inline_empty_structs (m_config self) = true
  /\ clang.RecordDecl.dyn_cast_CXXRecordDecl Plain_decl = None
  /\ ShouldInlineEmptyRecord self Plain_decl = true
  /\ m_result (HandleRecordDecl print_type self (Some Plain_decl)) = m_result self
  /\ List.map Field.data
       (Record_.fields
          (AddDataMembers print_type self empty_record 0 Wrap_decl
                          (clang.RecordDecl.getASTRecordLayout Wrap_decl)))
     = List.map Field.data
         (Record_.fields
            (AddDataMembers print_type self empty_record 0
                            (with_fields Wrap_decl [int_member "x"])
                            (clang.RecordDecl.getASTRecordLayout Wrap_decl))).
Proof.
  intros self. split; [reflexivity|]. split; [reflexivity|].
  destruct (X13_plain_record_is_always_inlined print_type self Plain_decl eq_refl eq_refl)
    as (H1 & H2 & H3).
  split; [exact H1|]. split; [exact H2|].
  exact (H3 Wrap_decl empty_record 0 (clang.RecordDecl.getASTRecordLayout Wrap_decl)
            [] [int_member "x"] (record_member "p" Plain_decl)
            eq_refl eq_refl eq_refl).
Defined.

(** The member [b] of [Gap] follows one named member and one unnamed
    bitfield: its offset is read from slot 1. *)
Lemma X14_witness :
  let self := Make empty_result inlining_off in
  let record := BuildRecord print_type self Empty_decl in
  clang.RecordDecl.fields Gap_decl
  = [int_bitfield "a" 3; int_bitfield "" 5] ++ int_member "b" :: []
  /\ member_kept (m_config self) Gap_decl (int_member "b") = true
  /\ In {| Field.offset := 0; Field.data := member_data print_type (int_member "b") |}
        (Record_.fields
           (AddDataMembers print_type self record 0 Gap_decl
                           (clang.RecordDecl.getASTRecordLayout Gap_decl))).
Proof.
  intros self record. split; [reflexivity|]. split; [reflexivity|].
  exact (X14_member_offset_comes_from_the_counted_slot print_type self record 0 Gap_decl
           (clang.RecordDecl.getASTRecordLayout Gap_decl)
           [int_bitfield "a" 3; int_bitfield "" 5] [] (int_member "b")
           eq_refl eq_refl).
Defined.

(** Under inlining, the union [Either] keeps its member of the empty
    type. *)
Lemma X15_witness :
  let self := Make empty_result inlining_on in
  let record := BuildRecord print_type self Empty_decl in
  clang.RecordDecl.isUnion Either_decl = true
  /\ exists members,
       AddDataMembers print_type self record 0 Either_decl
                      (clang.RecordDecl.getASTRecordLayout Either_decl)
       = append_fields record members
       /\ length members = 2%nat.
Proof.
  intros self record. split; [reflexivity|].
  destruct (X15_union_keeps_every_member print_type self record 0 Either_decl
              (clang.RecordDecl.getASTRecordLayout Either_decl) eq_refl)
    as (members & H1 & H2).
  exists members. split; [exact H1|].
  rewrite <- (List.length_map Field.data), H2. reflexivity.
Defined.

(** [operator+] and [operator()]. *)
Lemma X16_witness :
  let f := operator_method "int T::operator+(int)" clang.OO_Plus in
  let g := operator_method "int T::operator()(int)" clang.OO_Call in
  clang.CXXMethodDecl.isOverloadedOperator f = true
  /\ clang.CXXMethodDecl.isOverloadedOperator g = true
  /\ is_operator (clang.CXXMethodDecl.getOverloadedOperator f) = true
  /\ is_operator (clang.CXXMethodDecl.getOverloadedOperator g) = true
  /\ GetCStyleOperatorName f <> "".
Proof.
  intros f g.
  split; [reflexivity|]. split; [reflexivity|]. split; [reflexivity|].
  split; [reflexivity|].
  exact (proj1 (X16_operator_tokens_are_distinct f g eq_refl eq_refl eq_refl eq_refl)).
Defined.

(** The thunk of component 6 in the vtable of [Both]. *)
Lemma X19_witness :
  thunks_sorted Both_vtable
  /\ forall thunk,
       In (6%nat, thunk) (clang.VTableLayout.vtable_thunks Both_vtable) ->
       GetThunkInfo Both_vtable 6 = Some thunk.
Proof.
  assert (H : thunks_sorted Both_vtable) by (repeat constructor).
  split; [exact H|].
  exact (proj2 (X19_thunk_lookup Both_vtable 6) H).
Defined.

(** The non-virtual bases of [Both] are declared as [B], [A] and come out
    by offset. *)
Lemma X20_witness :
  let self := Make empty_result inlining_off in
  base_offsets_in_range Both_decl
  /\ StronglySorted Z.le
       (offsets_of_base_fields false
          (Record_.fields (BuildRecord print_type self Both_decl))).
Proof.
  intros self.
  assert (H : base_offsets_in_range Both_decl).
  { split; repeat constructor; cbn; lia. }
  split; [exact H|].
  exact (proj1 (X20_base_fields_by_ascending_offset print_type self Both_decl H)).
Defined.

(** A pointer to [const int] against itself. *)
Lemma X22_witness :
  let a := ComplexTypePointer (ComplexTypeName "int" true false) in
  DumpComplexType a = DumpComplexType a /\ a = a.
Proof.
  intros a. split; [reflexivity|].
  exact (X22_type_dump_is_injective a a eq_refl).
Defined.

(** The dump of [Both] has four field objects. *)
Lemma X23_witness :
  let tool := one_unit Itanium_context [clang.VisitedRecordDecl (Some Both_decl)] in
  let r := BuildRecord print_type (Make empty_result inlining_off) Both_decl in
  In r (ParseResult.records (ParseRecords print_type tool inlining_off))
  /\ exists objects,
       json_attribute "fields" (DumpRecord r) = Some (JArray objects)
       /\ length objects = length (Record_.fields r).
Proof.
  intros tool r.
  assert (Hin : In r (ParseResult.records (ParseRecords print_type tool inlining_off)))
    by (vm_compute; left; reflexivity).
  split; [exact Hin|].
  exact (X23_dump_has_one_object_per_field print_type tool inlining_off r Hin).
Defined.
